(** * wangle: FizzAcceptorHandshakeHelper

    A shallow embedding of [wangle/acceptor/FizzAcceptorHandshakeHelper.cpp]:
    the helper that first attempts a Fizz (TLS 1.3) handshake on an accepted
    connection and falls back to an OpenSSL handshake when the Fizz engine
    asks for it.

    The helper is a C++ object whose methods are invoked by the two engines;
    each method is embedded as a program in a state-and-fault monad over a
    [World] that holds the helper object, the heaps of the engine objects it
    points to, the [TransportInfo] it was constructed with a reference to, the
    steady clock and the chronological trace of calls made to the external
    collaborators.

    Layout: the data and the external objects; the monad; the methods, one
    definition per method of the source; the engines as an environment that
    delivers notifications; then the proofs: what each method does, the
    invariant of a session, and the properties of the helper. *)

From Stdlib Require Import ZArith List Bool Lia.
From Stdlib Require Strings.Byte.
From stdpp Require Import base option numbers gmap strings list.
Import ListNotations.

(** ** Plain data *)

Definition ptr := positive.

(** [std::chrono::steady_clock::time_point] and [std::chrono::nanoseconds]:
    a signed 64-bit count of nanoseconds. *)
Definition time_point := Z.
Definition nanoseconds := Z.
Definition milliseconds := Z.

(** The value a signed 64-bit register holds for [z]. *)
Definition int64 (z : Z) : Z := ((z + 2 ^ 63) mod 2 ^ 64 - 2 ^ 63)%Z.

(** [a - b] on two time points: one 64-bit subtraction of the two counts,
    which wraps round when the difference is out of range. *)
Definition time_sub (a b : Z) : nanoseconds := int64 (a - b).

(** [std::chrono::duration_cast<std::chrono::milliseconds>]: integer division
    truncating towards zero. *)
Definition duration_cast_ms (d : Z) : milliseconds := Z.quot d 1000000.

(** [folly::IOBuf]: the bytes of the chain, in order. *)
Definition IOBuf := list Byte.byte.

(** Identities of shared objects the helper only passes along. *)
Definition EventBase := N.
Definition SSLContext := N.
Definition FizzServerContext := N.
Definition TokenBindingContext := N.

(** [folly::NetworkSocket]: the descriptor, [-1] when there is none. *)
Definition NO_FD : Z := (-1)%Z.

(** [SSLErrorEnum]; this file names only [NO_ERROR]. *)
Inductive SSLErrorEnum :=
| NO_ERROR
| SSL_ERROR_OTHER (code : N).

(** [SecureTransportType]; this file names only [TLS]. *)
Inductive SecureTransportType :=
| TRANSPORT_NONE
| TLS.

(** Modelled from the spec: the declaration of [TransportInfo] is in
    [TransportInfo.h]; section 3 gives the security type as an enumeration
    none / classic-TLS / modern-TLS. *)
Inductive SecurityType :=
| SecNone
| SecClassicTLS
| SecModernTLS.

(** Modelled from the spec: [TransportInfo.h] is missing; the fields are the
    ones section 3 lists, under the names the source assigns to. *)
Record TransportInfo := mkTransportInfo {
  acceptTime : time_point;
  secure : bool;
  securityType : SecurityType;
  sslSetupTime : milliseconds;
  sslServerName : option string;
  negotiatedTokenBindingKeyParameters : option N
}.

Definition empty_tinfo : TransportInfo :=
  mkTransportInfo 0%Z false SecNone 0%Z None None.

(** [folly::exception_wrapper] / [folly::AsyncSocketException]: the helper
    only reads [what()]. *)
Record exception_wrapper := mkException { what : string }.

(** The error handed to [connectionError].  The two classes take the same
    constructor arguments (error, latency, bytes read); the class is the
    phase in which the handshake failed. *)
Inductive HandshakeException :=
| FizzHandshakeException (err : SSLErrorEnum) (latency : milliseconds) (bytesRead : N)
| SSLException (err : SSLErrorEnum) (latency : milliseconds) (bytesRead : N).

Inductive Phase := ModernHandshake | ClassicHandshake.

Definition exn_phase (e : HandshakeException) : Phase :=
  match e with
  | FizzHandshakeException _ _ _ => ModernHandshake
  | SSLException _ _ _ => ClassicHandshake
  end.

Definition exn_error (e : HandshakeException) : SSLErrorEnum :=
  match e with
  | FizzHandshakeException x _ _ | SSLException x _ _ => x
  end.

Definition exn_latency (e : HandshakeException) : milliseconds :=
  match e with
  | FizzHandshakeException _ x _ | SSLException _ x _ => x
  end.

Definition exn_bytesRead (e : HandshakeException) : N :=
  match e with
  | FizzHandshakeException _ _ x | SSLException _ _ x => x
  end.

(** ** External objects *)

(** [folly::AsyncSocket], as far as the helper touches it. *)
Record AsyncSocket := mkAsyncSocket {
  as_evb : EventBase;
  as_fd : Z;
  as_addrCached : bool
}.

Record HandshakeLogging := mkHandshakeLogging {
  clientSni : option string
}.

(** [fizz::server::AsyncFizzServer].  [fz_handshakeCallback] is set while the
    engine still owes its observer a notification; [fz_securityProtocol] is
    what [getSecurityProtocol] reports. *)
Record AsyncFizzServer := mkAsyncFizzServer {
  fz_socket : AsyncSocket;
  fz_context : FizzServerContext;
  fz_extensions : option ptr;
  fz_handshakeCallback : bool;
  fz_appProto : string;
  fz_handshakeLogging : option HandshakeLogging;
  fz_rawBytesReceived : N;
  fz_rawBytesWritten : N;
  fz_securityProtocol : SecurityType
}.

(** [folly::AsyncSSLSocket].  [ssl_wireBytesRead] is bookkeeping for the
    proofs only: the part of [ssl_rawBytesReceived] that came from the
    descriptor rather than from the pre-received data;
    [ssl_securityProtocol] is what [getSecurityProtocol] reports. *)
Record AsyncSSLSocket := mkAsyncSSLSocket {
  ssl_ctx : option SSLContext;
  ssl_evb : EventBase;
  ssl_fd : Z;
  ssl_preReceivedData : option IOBuf;
  ssl_parseClientHello : bool;
  ssl_cacheAddrOnFailure : bool;
  ssl_handshakeCallback : bool;
  ssl_appProto : string;
  ssl_rawBytesReceived : N;
  ssl_rawBytesWritten : N;
  ssl_wireBytesRead : N;
  ssl_securityProtocol : SecurityType
}.

(** [fizz::extensions::TokenBindingServerExtension]. *)
Record TokenBindingServerExtension := mkExtension {
  ext_context : TokenBindingContext;
  ext_negotiatedKeyParam : option N
}.

(** [AcceptorHandshakeHelper::Callback]: the completion callback.  It is
    allowed to delete the helper before it returns. *)
Record Callback := mkCallback {
  cb_id : N;
  cb_deletesHelper : bool
}.

(** The logging callback.  Its methods return [void]; [lc_fails] tells
    whether they throw instead of returning. *)
Record LoggingCallback := mkLoggingCallback {
  lc_id : N;
  lc_fails : bool
}.

(** What [connectionReady] / [connectionError] receive as transport. *)
Inductive Transport :=
| FizzT (p : ptr)
| SslT (p : ptr).

Inductive VlogMsg :=
| VFizzHandshakeSuccess
| VFizzHandshakeError (elapsed : milliseconds) (rx tx : N) (cause : string)
| VFallbackToOpenSSL
| VClientSelectedNextProtocol (appProto : string)
| VClientDidNotSelect
| VSSLHandshakeError (elapsed : milliseconds) (rx tx : N) (cause : string).

(** The calls the helper makes on its collaborators, in the order they are
    made: the construction of an engine and the calls on the engines, their
    sockets and the callbacks.  Reads of a collaborator leave no event, nor
    does the construction of the socket object around the descriptor and of
    the extension: what they produce is in the heaps. *)
Inductive Event :=
| EvVlog (m : VlogMsg)
| EvCacheAddresses
| EvCreateFizzServer (p : ptr) (sock : AsyncSocket) (ctx : FizzServerContext)
                     (ext : option ptr)
| EvFizzAccept (p : ptr)
| EvLogFizzHandshakeSuccess (lc : LoggingCallback) (p : ptr)
| EvLogFizzHandshakeError (lc : LoggingCallback) (p : ptr) (ex : exception_wrapper)
| EvConnectionReady (cb : Callback) (t : option Transport) (appProto : string)
                    (stt : SecureTransportType) (err : SSLErrorEnum)
| EvConnectionError (cb : Callback) (t : option Transport)
                    (ex : HandshakeException) (err : SSLErrorEnum)
| EvDetachNetworkSocket (p : ptr) (fd : Z)
| EvCloseFd (fd : Z)
| EvCreateSSLSocket (p : ptr) (ctx : option SSLContext) (evb : EventBase) (fd : Z)
| EvSetPreReceivedData (p : ptr) (data : option IOBuf)
| EvEnableClientHelloParsing (p : ptr)
| EvForceCacheAddrOnFailure (p : ptr) (b : bool)
| EvSslAccept (p : ptr).

(** ** The helper object and the world around it *)

Record Helper := mkHelper {
  callback_ : option Callback;
  sslContext_ : option SSLContext;
  context_ : FizzServerContext;
  tokenBindingContext_ : option TokenBindingContext;
  extension_ : option ptr;
  transport_ : option ptr;
  sslSocket_ : option ptr;
  loggingCallback_ : option LoggingCallback;
  acceptTime_ : time_point;
  sslError_ : SSLErrorEnum
}.

Record World := mkWorld {
  this_ : option Helper;           (* [None] once the helper is deleted *)
  tinfo : TransportInfo;           (* the object behind [tinfo_] *)
  fizzHeap : gmap ptr AsyncFizzServer;
  sslHeap : gmap ptr AsyncSSLSocket;
  extHeap : gmap ptr TokenBindingServerExtension;
  nextPtr : ptr;
  clock : time_point;
  vlogLevel : nat;
  trace : list Event
}.

Definition set_this (x : option Helper) (w : World) : World :=
  mkWorld x (tinfo w) (fizzHeap w) (sslHeap w) (extHeap w) (nextPtr w)
          (clock w) (vlogLevel w) (trace w).
Definition set_tinfo (x : TransportInfo) (w : World) : World :=
  mkWorld (this_ w) x (fizzHeap w) (sslHeap w) (extHeap w) (nextPtr w)
          (clock w) (vlogLevel w) (trace w).
Definition set_fizzHeap (x : gmap ptr AsyncFizzServer) (w : World) : World :=
  mkWorld (this_ w) (tinfo w) x (sslHeap w) (extHeap w) (nextPtr w)
          (clock w) (vlogLevel w) (trace w).
Definition set_sslHeap (x : gmap ptr AsyncSSLSocket) (w : World) : World :=
  mkWorld (this_ w) (tinfo w) (fizzHeap w) x (extHeap w) (nextPtr w)
          (clock w) (vlogLevel w) (trace w).
Definition set_extHeap (x : gmap ptr TokenBindingServerExtension) (w : World) : World :=
  mkWorld (this_ w) (tinfo w) (fizzHeap w) (sslHeap w) x (nextPtr w)
          (clock w) (vlogLevel w) (trace w).
Definition set_nextPtr (x : ptr) (w : World) : World :=
  mkWorld (this_ w) (tinfo w) (fizzHeap w) (sslHeap w) (extHeap w) x
          (clock w) (vlogLevel w) (trace w).
Definition set_clock (x : time_point) (w : World) : World :=
  mkWorld (this_ w) (tinfo w) (fizzHeap w) (sslHeap w) (extHeap w) (nextPtr w)
          x (vlogLevel w) (trace w).
Definition set_trace (x : list Event) (w : World) : World :=
  mkWorld (this_ w) (tinfo w) (fizzHeap w) (sslHeap w) (extHeap w) (nextPtr w)
          (clock w) (vlogLevel w) x.

(** ** The monad: state over [World], [None] when the run does not go on:
    undefined behaviour (a null or dangling pointer dereferenced, a member
    of a deleted helper accessed), or [std::terminate] (an exception leaves a
    [noexcept] method). *)

Definition M (A : Type) : Type := World -> option (A * World).

Definition ret {A} (a : A) : M A := fun w => Some (a, w).
Definition fault {A} : M A := fun _ => None.
Definition terminate {A} : M A := fun _ => None.
Definition bind {A B} (m : M A) (k : A -> M B) : M B :=
  fun w => match m w with
           | Some (a, w') => k a w'
           | None => None
           end.

Declare Scope helper_scope.
Delimit Scope helper_scope with helper.
Notation "'let*' x ':=' m 'in' k" := (bind m (fun x => k))
  (at level 10, x name, m at level 100, k at level 200) : helper_scope.
Notation "m ';>' k" := (bind m (fun _ => k))
  (at level 100, k at level 200, right associativity) : helper_scope.
Open Scope helper_scope.

Definition gets {A} (f : World -> A) : M A := fun w => Some (f w, w).
Definition modify (f : World -> World) : M unit := fun w => Some (tt, f w).
Definition emit (e : Event) : M unit :=
  modify (fun w => set_trace (trace w ++ [e]) w).
Definition when (b : bool) (m : M unit) : M unit := if b then m else ret tt.

(** The result world of a program, when it does not fault. *)
Definition exec {A} (m : M A) (w : World) : option World :=
  match m w with
  | Some (_, w') => Some w'
  | None => None
  end.

(** *** Members of [this] *)

(** Every access to a member goes through [this]; it faults once the helper
    has been deleted. *)
Definition this : M Helper :=
  fun w => match this_ w with
           | Some h => Some (h, w)
           | None => None
           end.

Definition member {A} (f : Helper -> A) : M A :=
  let* h := this in ret (f h).

Definition assign (f : Helper -> Helper) : M unit :=
  let* h := this in modify (set_this (Some (f h))).

Definition set_callback_ (x : option Callback) (h : Helper) : Helper :=
  mkHelper x (sslContext_ h) (context_ h) (tokenBindingContext_ h) (extension_ h)
           (transport_ h) (sslSocket_ h) (loggingCallback_ h) (acceptTime_ h) (sslError_ h).
Definition set_sslContext_ (x : option SSLContext) (h : Helper) : Helper :=
  mkHelper (callback_ h) x (context_ h) (tokenBindingContext_ h) (extension_ h)
           (transport_ h) (sslSocket_ h) (loggingCallback_ h) (acceptTime_ h) (sslError_ h).
Definition set_extension_ (x : option ptr) (h : Helper) : Helper :=
  mkHelper (callback_ h) (sslContext_ h) (context_ h) (tokenBindingContext_ h) x
           (transport_ h) (sslSocket_ h) (loggingCallback_ h) (acceptTime_ h) (sslError_ h).
Definition set_transport_ (x : option ptr) (h : Helper) : Helper :=
  mkHelper (callback_ h) (sslContext_ h) (context_ h) (tokenBindingContext_ h) (extension_ h)
           x (sslSocket_ h) (loggingCallback_ h) (acceptTime_ h) (sslError_ h).
Definition set_sslSocket_ (x : option ptr) (h : Helper) : Helper :=
  mkHelper (callback_ h) (sslContext_ h) (context_ h) (tokenBindingContext_ h) (extension_ h)
           (transport_ h) x (loggingCallback_ h) (acceptTime_ h) (sslError_ h).

(** [tinfo_] is a reference member: the access reads the member, the write
    lands in the object outside the helper. *)
Definition assign_tinfo (f : TransportInfo -> TransportInfo) : M unit :=
  let* _ := this in modify (fun w => set_tinfo (f (tinfo w)) w).

Definition set_acceptTime (x : time_point) (t : TransportInfo) : TransportInfo :=
  mkTransportInfo x (secure t) (securityType t) (sslSetupTime t) (sslServerName t)
                  (negotiatedTokenBindingKeyParameters t).
Definition set_secure (x : bool) (t : TransportInfo) : TransportInfo :=
  mkTransportInfo (acceptTime t) x (securityType t) (sslSetupTime t) (sslServerName t)
                  (negotiatedTokenBindingKeyParameters t).
Definition set_securityType (x : SecurityType) (t : TransportInfo) : TransportInfo :=
  mkTransportInfo (acceptTime t) (secure t) x (sslSetupTime t) (sslServerName t)
                  (negotiatedTokenBindingKeyParameters t).
Definition set_sslSetupTime (x : milliseconds) (t : TransportInfo) : TransportInfo :=
  mkTransportInfo (acceptTime t) (secure t) (securityType t) x (sslServerName t)
                  (negotiatedTokenBindingKeyParameters t).
Definition set_sslServerName (x : option string) (t : TransportInfo) : TransportInfo :=
  mkTransportInfo (acceptTime t) (secure t) (securityType t) (sslSetupTime t) x
                  (negotiatedTokenBindingKeyParameters t).
Definition set_negotiatedTokenBindingKeyParameters (x : option N) (t : TransportInfo)
  : TransportInfo :=
  mkTransportInfo (acceptTime t) (secure t) (securityType t) (sslSetupTime t)
                  (sslServerName t) x.

(** *** Pointers and heaps *)

(** [p->...] on a smart pointer that may be null. *)
Definition nonnull {A} (o : option A) : M A :=
  match o with
  | Some p => ret p
  | None => fault
  end.

Definition derefFizz (p : ptr) : M AsyncFizzServer :=
  fun w => match fizzHeap w !! p with
           | Some t => Some (t, w)
           | None => None
           end.
Definition storeFizz (p : ptr) (t : AsyncFizzServer) : M unit :=
  modify (fun w => set_fizzHeap (<[p:=t]> (fizzHeap w)) w).

Definition derefSSL (p : ptr) : M AsyncSSLSocket :=
  fun w => match sslHeap w !! p with
           | Some s => Some (s, w)
           | None => None
           end.
Definition storeSSL (p : ptr) (s : AsyncSSLSocket) : M unit :=
  modify (fun w => set_sslHeap (<[p:=s]> (sslHeap w)) w).

Definition derefExt (p : ptr) : M TokenBindingServerExtension :=
  fun w => match extHeap w !! p with
           | Some e => Some (e, w)
           | None => None
           end.
Definition storeExt (p : ptr) (e : TokenBindingServerExtension) : M unit :=
  modify (fun w => set_extHeap (<[p:=e]> (extHeap w)) w).

Definition alloc : M ptr :=
  let* p := gets nextPtr in
  modify (set_nextPtr (Pos.succ p)) ;>
  ret p.

(** *** The collaborators' methods the helper calls *)

(** [std::chrono::steady_clock::now()]: the clock, as a 64-bit count. *)
Definition steady_clock_now : M time_point :=
  let* c := gets clock in ret (int64 c).

(** [VLOG(n) << ...]: the operands are evaluated only when the level is on. *)
Definition vlog (n : nat) (msg : M VlogMsg) : M unit :=
  let* lvl := gets vlogLevel in
  if (n <=? lvl)%nat then (let* m := msg in emit (EvVlog m)) else ret tt.

Definition as_set_fd (x : Z) (s : AsyncSocket) : AsyncSocket :=
  mkAsyncSocket (as_evb s) x (as_addrCached s).
Definition as_set_addrCached (x : bool) (s : AsyncSocket) : AsyncSocket :=
  mkAsyncSocket (as_evb s) (as_fd s) x.

Definition fz_set_socket (x : AsyncSocket) (t : AsyncFizzServer) : AsyncFizzServer :=
  mkAsyncFizzServer x (fz_context t) (fz_extensions t) (fz_handshakeCallback t)
                    (fz_appProto t) (fz_handshakeLogging t)
                    (fz_rawBytesReceived t) (fz_rawBytesWritten t)
                    (fz_securityProtocol t).
Definition fz_set_handshakeCallback (x : bool) (t : AsyncFizzServer) : AsyncFizzServer :=
  mkAsyncFizzServer (fz_socket t) (fz_context t) (fz_extensions t) x
                    (fz_appProto t) (fz_handshakeLogging t)
                    (fz_rawBytesReceived t) (fz_rawBytesWritten t)
                    (fz_securityProtocol t).

Definition ssl_set_preReceivedData (x : option IOBuf) (s : AsyncSSLSocket) : AsyncSSLSocket :=
  mkAsyncSSLSocket (ssl_ctx s) (ssl_evb s) (ssl_fd s) x (ssl_parseClientHello s)
                   (ssl_cacheAddrOnFailure s) (ssl_handshakeCallback s) (ssl_appProto s)
                   (ssl_rawBytesReceived s) (ssl_rawBytesWritten s) (ssl_wireBytesRead s)
                   (ssl_securityProtocol s).
Definition ssl_set_parseClientHello (x : bool) (s : AsyncSSLSocket) : AsyncSSLSocket :=
  mkAsyncSSLSocket (ssl_ctx s) (ssl_evb s) (ssl_fd s) (ssl_preReceivedData s) x
                   (ssl_cacheAddrOnFailure s) (ssl_handshakeCallback s) (ssl_appProto s)
                   (ssl_rawBytesReceived s) (ssl_rawBytesWritten s) (ssl_wireBytesRead s)
                   (ssl_securityProtocol s).
Definition ssl_set_cacheAddrOnFailure (x : bool) (s : AsyncSSLSocket) : AsyncSSLSocket :=
  mkAsyncSSLSocket (ssl_ctx s) (ssl_evb s) (ssl_fd s) (ssl_preReceivedData s)
                   (ssl_parseClientHello s) x (ssl_handshakeCallback s) (ssl_appProto s)
                   (ssl_rawBytesReceived s) (ssl_rawBytesWritten s) (ssl_wireBytesRead s)
                   (ssl_securityProtocol s).
Definition ssl_set_handshakeCallback (x : bool) (s : AsyncSSLSocket) : AsyncSSLSocket :=
  mkAsyncSSLSocket (ssl_ctx s) (ssl_evb s) (ssl_fd s) (ssl_preReceivedData s)
                   (ssl_parseClientHello s) (ssl_cacheAddrOnFailure s) x (ssl_appProto s)
                   (ssl_rawBytesReceived s) (ssl_rawBytesWritten s) (ssl_wireBytesRead s)
                   (ssl_securityProtocol s).

(** Modelled from the spec: the protocol type an engine reports is fixed
    when it is built; a modern engine is built reporting the modern type, a
    classic socket the classic one (sections 3 and 4.1). *)
Definition fizz_protocol_type : SecurityType := SecModernTLS.
Definition ssl_protocol_type : SecurityType := SecClassicTLS.

(** [transport->getSecurityProtocol()] *)
Definition AsyncFizzServer_getSecurityProtocol (t : AsyncFizzServer) : SecurityType :=
  fz_securityProtocol t.

(** [sock->getSecurityProtocol()] *)
Definition AsyncSSLSocket_getSecurityProtocol (s : AsyncSSLSocket) : SecurityType :=
  ssl_securityProtocol s.

(** The destructor of a socket closes the descriptor it still holds. *)
Definition close_if_attached (fd : Z) : M unit :=
  when (negb (fd =? NO_FD)%Z) (emit (EvCloseFd fd)).

Definition destroyFizzServer (p : ptr) : M unit :=
  let* t := derefFizz p in
  close_if_attached (as_fd (fz_socket t)) ;>
  modify (fun w => set_fizzHeap (delete p (fizzHeap w)) w).

Definition destroySSLSocket (p : ptr) : M unit :=
  let* s := derefSSL p in
  close_if_attached (ssl_fd s) ;>
  modify (fun w => set_sslHeap (delete p (sslHeap w)) w).

Definition destroy_unique (destroy : ptr -> M unit) (o : option ptr) : M unit :=
  match o with
  | Some p => destroy p
  | None => ret tt
  end.

(** [new folly::AsyncSocket(std::move(sslSock))]: the new socket takes over
    the event base and the descriptor; the old object goes away without one. *)
Definition AsyncSocket_from (sslSock : ptr) : M AsyncSocket :=
  let* s := derefSSL sslSock in
  modify (fun w => set_sslHeap (delete sslSock (sslHeap w)) w) ;>
  ret (mkAsyncSocket (ssl_evb s) (ssl_fd s) false).

(** [asyncSock->cacheAddresses()] *)
Definition cacheAddresses (s : AsyncSocket) : M AsyncSocket :=
  emit EvCacheAddresses ;>
  ret (as_set_addrCached true s).

Definition new_AsyncFizzServer (sock : AsyncSocket) (ctx : FizzServerContext)
    (ext : option ptr) : M ptr :=
  let* p := alloc in
  storeFizz p (mkAsyncFizzServer sock ctx ext false EmptyString None 0%N 0%N
                                 fizz_protocol_type) ;>
  emit (EvCreateFizzServer p sock ctx ext) ;>
  ret p.

(** [transport->accept(this)] *)
Definition AsyncFizzServer_accept (p : ptr) : M unit :=
  let* t := derefFizz p in
  storeFizz p (fz_set_handshakeCallback true t) ;>
  emit (EvFizzAccept p).

(** [detachNetworkSocket()]: hands the descriptor out and keeps none. *)
Definition detachNetworkSocket (p : ptr) : M Z :=
  let* t := derefFizz p in
  let fd := as_fd (fz_socket t) in
  storeFizz p (fz_set_socket (as_set_fd NO_FD (fz_socket t)) t) ;>
  emit (EvDetachNetworkSocket p fd) ;>
  ret fd.

Definition new_AsyncSSLSocket (ctx : option SSLContext) (evb : EventBase) (fd : Z)
  : M ptr :=
  let* p := alloc in
  storeSSL p (mkAsyncSSLSocket ctx evb fd None false false false EmptyString
                               0%N 0%N 0%N ssl_protocol_type) ;>
  emit (EvCreateSSLSocket p ctx evb fd) ;>
  ret p.

(** [setPreReceivedData]: appended to what is already pending, if anything. *)
Definition setPreReceivedData (p : ptr) (data : option IOBuf) : M unit :=
  let* s := derefSSL p in
  let* d := match ssl_preReceivedData s with
            | Some old => let* new := nonnull data in ret (Some (old ++ new))
            | None => ret data
            end in
  storeSSL p (ssl_set_preReceivedData d s) ;>
  emit (EvSetPreReceivedData p data).

Definition enableClientHelloParsing (p : ptr) : M unit :=
  let* s := derefSSL p in
  storeSSL p (ssl_set_parseClientHello true s) ;>
  emit (EvEnableClientHelloParsing p).

Definition forceCacheAddrOnFailure (p : ptr) (b : bool) : M unit :=
  let* s := derefSSL p in
  storeSSL p (ssl_set_cacheAddrOnFailure b s) ;>
  emit (EvForceCacheAddrOnFailure p b).

(** [sock->sslAccept(this)] *)
Definition sslAccept (p : ptr) : M unit :=
  let* s := derefSSL p in
  storeSSL p (ssl_set_handshakeCallback true s) ;>
  emit (EvSslAccept p).

(** The two methods of the logging callback.  The helper calls them from
    [noexcept] methods and outside any [try] block: when the callback throws,
    the run ends there. *)
Definition logFizzHandshakeSuccess (lc : LoggingCallback) (transport : ptr) : M unit :=
  let* _ := derefFizz transport in
  emit (EvLogFizzHandshakeSuccess lc transport) ;>
  if lc_fails lc then terminate else ret tt.

Definition logFizzHandshakeError (lc : LoggingCallback) (transport : ptr)
    (ex : exception_wrapper) : M unit :=
  let* _ := derefFizz transport in
  emit (EvLogFizzHandshakeError lc transport ex) ;>
  if lc_fails lc then terminate else ret tt.

(** [delete this]: the destructor releases what the helper still owns. *)
Definition deleteThis : M unit :=
  let* h := this in
  destroy_unique destroySSLSocket (sslSocket_ h) ;>
  destroy_unique destroyFizzServer (transport_ h) ;>
  modify (set_this None).

Definition connectionReady (cb : Callback) (t : option Transport) (appProto : string)
    (stt : SecureTransportType) (err : SSLErrorEnum) : M unit :=
  emit (EvConnectionReady cb t appProto stt err) ;>
  when (cb_deletesHelper cb) deleteThis.

Definition connectionError (cb : Callback) (t : option Transport)
    (ex : HandshakeException) (err : SSLErrorEnum) : M unit :=
  emit (EvConnectionError cb t ex err) ;>
  when (cb_deletesHelper cb) deleteThis.

(** ** The methods of [FizzAcceptorHandshakeHelper] *)

(** [createFizzServer] *)
Definition createFizzServer (sslSock : ptr) (fizzContext : FizzServerContext)
    (extensions : option ptr) : M ptr :=
  let* asyncSock := AsyncSocket_from sslSock in
  let* asyncSock := cacheAddresses asyncSock in
  new_AsyncFizzServer asyncSock fizzContext extensions.

(** [start] *)
Definition start (sock : ptr) (callback : Callback) : M unit :=
  assign (set_callback_ (Some callback)) ;>
  let* s := derefSSL sock in
  assign (set_sslContext_ (ssl_ctx s)) ;>
  let* tb := member tokenBindingContext_ in
  match tb with
  | Some c =>
      let* e := alloc in
      storeExt e (mkExtension c None) ;>
      assign (set_extension_ (Some e))
  | None => ret tt
  end ;>
  let* ctx := member context_ in
  let* ext := member extension_ in
  let* t := createFizzServer sock ctx ext in
  let* old := member transport_ in
  assign (set_transport_ (Some t)) ;>
  destroy_unique destroyFizzServer old ;>
  let* tp := member transport_ in
  let* p := nonnull tp in
  AsyncFizzServer_accept p.

(** [fizzHandshakeSuccess] *)
Definition fizzHandshakeSuccess (transport : ptr) : M unit :=
  let* lc := member loggingCallback_ in
  match lc with
  | Some l => logFizzHandshakeSuccess l transport
  | None => ret tt
  end ;>
  vlog 3 (ret VFizzHandshakeSuccess) ;>
  let* at_ := member acceptTime_ in
  assign_tinfo (set_acceptTime at_) ;>
  assign_tinfo (set_secure true) ;>
  let* t := derefFizz transport in
  assign_tinfo (set_securityType (AsyncFizzServer_getSecurityProtocol t)) ;>
  let* now := steady_clock_now in
  let* at_ := member acceptTime_ in
  assign_tinfo (set_sslSetupTime (duration_cast_ms (time_sub now at_))) ;>
  let* ext := member extension_ in
  match ext with
  | Some e =>
      let* x := derefExt e in
      match ext_negotiatedKeyParam x with
      | Some k =>
          (* static_cast<uint8_t> *)
          assign_tinfo (set_negotiatedTokenBindingKeyParameters (Some (k mod 256)%N))
      | None => ret tt
      end
  | None => ret tt
  end ;>
  let* t := derefFizz transport in
  match fz_handshakeLogging t with
  | Some hl =>
      match clientSni hl with
      | Some sni => assign_tinfo (set_sslServerName (Some sni))
      | None => ret tt
      end
  | None => ret tt
  end ;>
  let* t := derefFizz transport in
  let appProto := fz_appProto t in
  let* cbp := member callback_ in
  let* cb := nonnull cbp in
  let* moved := member transport_ in
  assign (set_transport_ None) ;>
  connectionReady cb (FizzT <$> moved) appProto TLS NO_ERROR.

(** [fizzHandshakeError] *)
Definition fizzHandshakeError (transport : ptr) (ex : exception_wrapper) : M unit :=
  let* lc := member loggingCallback_ in
  match lc with
  | Some l => logFizzHandshakeError l transport ex
  | None => ret tt
  end ;>
  let* now := steady_clock_now in
  let* at_ := member acceptTime_ in
  let elapsedTime := duration_cast_ms (time_sub now at_) in
  vlog 3 (let* t := derefFizz transport in
          ret (VFizzHandshakeError elapsedTime (fz_rawBytesReceived t)
                                   (fz_rawBytesWritten t) (what ex))) ;>
  let* err := member sslError_ in
  let* t := derefFizz transport in
  let handshakeException :=
    FizzHandshakeException err elapsedTime (fz_rawBytesReceived t) in
  let* cbp := member callback_ in
  let* cb := nonnull cbp in
  let* tp := member transport_ in
  let* err := member sslError_ in
  connectionError cb (FizzT <$> tp) handshakeException err.

(** [createSSLSocket] *)
Definition createSSLSocket (context : option SSLContext) (evb : EventBase) (fd : Z)
  : M ptr :=
  new_AsyncSSLSocket context evb fd.

(** The locals of [fizzHandshakeAttemptFallback]. *)
Record FallbackLocals := mkLocals {
  l_evb : option EventBase;
  l_fd : option Z
}.

(** [fizzHandshakeAttemptFallback], one entry per statement, so that the
    states between two statements can be spoken about. *)
Definition fallback_stmts (clientHello : option IOBuf)
  : list (FallbackLocals -> M FallbackLocals) :=
  [ (* VLOG(3) << "Fallback to OpenSSL"; *)
    (fun l => vlog 3 (ret VFallbackToOpenSSL) ;> ret l);
    (* auto evb = transport_->getEventBase(); *)
    (fun l =>
       let* tp := member transport_ in
       let* p := nonnull tp in
       let* t := derefFizz p in
       ret (mkLocals (Some (as_evb (fz_socket t))) (l_fd l)));
    (* auto fd = transport_->getUnderlyingTransport<folly::AsyncSocket>()
                   ->detachNetworkSocket().toFd(); *)
    (fun l =>
       let* tp := member transport_ in
       let* p := nonnull tp in
       let* fd := detachNetworkSocket p in
       ret (mkLocals (l_evb l) (Some fd)));
    (* transport_.reset(); *)
    (fun l =>
       let* old := member transport_ in
       assign (set_transport_ None) ;>
       destroy_unique destroyFizzServer old ;>
       ret l);
    (* sslSocket_ = createSSLSocket(sslContext_, evb, fd); *)
    (fun l =>
       let* ctx := member sslContext_ in
       let* evb := nonnull (l_evb l) in
       let* fd := nonnull (l_fd l) in
       let* s := createSSLSocket ctx evb fd in
       let* old := member sslSocket_ in
       assign (set_sslSocket_ (Some s)) ;>
       destroy_unique destroySSLSocket old ;>
       ret l);
    (* sslSocket_->setPreReceivedData(std::move(clientHello)); *)
    (fun l =>
       let* sp := member sslSocket_ in
       let* s := nonnull sp in
       setPreReceivedData s clientHello ;>
       ret l);
    (* sslSocket_->enableClientHelloParsing(); *)
    (fun l =>
       let* sp := member sslSocket_ in
       let* s := nonnull sp in
       enableClientHelloParsing s ;>
       ret l);
    (* sslSocket_->forceCacheAddrOnFailure(true); *)
    (fun l =>
       let* sp := member sslSocket_ in
       let* s := nonnull sp in
       forceCacheAddrOnFailure s true ;>
       ret l);
    (* sslSocket_->sslAccept(this); *)
    (fun l =>
       let* sp := member sslSocket_ in
       let* s := nonnull sp in
       sslAccept s ;>
       ret l) ].

Fixpoint exec_stmts {L} (ss : list (L -> M L)) (l : L) : M L :=
  match ss with
  | [] => ret l
  | s :: ss' => let* l' := s l in exec_stmts ss' l'
  end.

Definition fizzHandshakeAttemptFallback (clientHello : option IOBuf) : M unit :=
  exec_stmts (fallback_stmts clientHello) (mkLocals None None) ;> ret tt.

(** The first [k] statements of the fallback only. *)
Definition fallback_upto (k : nat) (clientHello : option IOBuf) : M FallbackLocals :=
  exec_stmts (take k (fallback_stmts clientHello)) (mkLocals None None).

(** Modelled from the spec: [SSLAcceptorHandshakeHelper::fillSSLTransportInfoFields]
    is defined in [SSLAcceptorHandshakeHelper.cpp]; section 4.1 has the classic
    success populate secure = true and securityType = classic, the type the
    classic socket reports, the setup time being the one the caller
    computed. *)
Definition fillSSLTransportInfoFields (sock : AsyncSSLSocket) (t : TransportInfo)
  : TransportInfo :=
  set_securityType (AsyncSSLSocket_getSecurityProtocol sock) (set_secure true t).

(** [handshakeSuc] *)
Definition handshakeSuc (sock : ptr) : M unit :=
  let* s := derefSSL sock in
  let appProto := ssl_appProto s in
  (if negb (String.eqb appProto EmptyString)
   then vlog 3 (ret (VClientSelectedNextProtocol appProto))
   else vlog 3 (ret VClientDidNotSelect)) ;>
  let* at_ := member acceptTime_ in
  assign_tinfo (set_acceptTime at_) ;>
  let* now := steady_clock_now in
  let* at_ := member acceptTime_ in
  assign_tinfo (set_sslSetupTime (duration_cast_ms (time_sub now at_))) ;>
  let* s := derefSSL sock in
  assign_tinfo (fillSSLTransportInfoFields s) ;>
  (* The callback will delete this. *)
  let* cbp := member callback_ in
  let* cb := nonnull cbp in
  let* moved := member sslSocket_ in
  assign (set_sslSocket_ None) ;>
  connectionReady cb (SslT <$> moved) appProto TLS NO_ERROR.

(** [handshakeErr] *)
Definition handshakeErr (sock : ptr) (ex : exception_wrapper) : M unit :=
  let* now := steady_clock_now in
  let* at_ := member acceptTime_ in
  let elapsedTime := duration_cast_ms (time_sub now at_) in
  vlog 3 (let* s := derefSSL sock in
          ret (VSSLHandshakeError elapsedTime (ssl_rawBytesReceived s)
                                  (ssl_rawBytesWritten s) (what ex))) ;>
  let* err := member sslError_ in
  let* s := derefSSL sock in
  let sslEx := SSLException err elapsedTime (ssl_rawBytesReceived s) in
  (* The callback will delete this. *)
  let* cbp := member callback_ in
  let* cb := nonnull cbp in
  let* sp := member sslSocket_ in
  let* err := member sslError_ in
  connectionError cb (SslT <$> sp) sslEx err.

(** ** The engines as environment

    The two engines are external.  What the helper relies on is their
    observer contract: an engine notifies the observer it was started with,
    it passes itself as argument, and it drops the observer before each
    notification, so it never notifies twice.  Between notifications the
    engines move bytes and the clock advances. *)

Inductive Notification :=
| Tick (d : N)
| FizzIO (p : ptr) (rx tx : N)
| FizzNegotiated (p : ptr) (appProto : string) (hl : option HandshakeLogging)
                 (keyParam : option N)
| FizzSuccess (p : ptr)
| FizzError (p : ptr) (ex : exception_wrapper)
| FizzFallback (p : ptr) (clientHello : IOBuf)
| SslRead (p : ptr) (n : nat)
| SslWrite (p : ptr) (n : N)
| SslNegotiated (p : ptr) (appProto : string)
| SslSuc (p : ptr)
| SslErr (p : ptr) (ex : exception_wrapper).

Definition fizz_awaiting (p : ptr) (w : World) : bool :=
  match fizzHeap w !! p with
  | Some t => fz_handshakeCallback t
  | None => false
  end.

Definition ssl_awaiting (p : ptr) (w : World) : bool :=
  match sslHeap w !! p with
  | Some s => ssl_handshakeCallback s
  | None => false
  end.

Definition enabled (n : Notification) (w : World) : bool :=
  match n with
  | Tick _ => true
  | FizzIO p _ _ | FizzNegotiated p _ _ _ | FizzSuccess p | FizzError p _
  | FizzFallback p _ => fizz_awaiting p w
  | SslRead p _ | SslWrite p _ | SslNegotiated p _ | SslSuc p | SslErr p _ =>
      ssl_awaiting p w
  end.

Definition fz_io (rx tx : N) (t : AsyncFizzServer) : AsyncFizzServer :=
  mkAsyncFizzServer (fz_socket t) (fz_context t) (fz_extensions t)
                    (fz_handshakeCallback t) (fz_appProto t) (fz_handshakeLogging t)
                    (fz_rawBytesReceived t + rx) (fz_rawBytesWritten t + tx)
                    (fz_securityProtocol t).

Definition fz_negotiated (appProto : string) (hl : option HandshakeLogging)
    (t : AsyncFizzServer) : AsyncFizzServer :=
  mkAsyncFizzServer (fz_socket t) (fz_context t) (fz_extensions t)
                    (fz_handshakeCallback t) appProto hl
                    (fz_rawBytesReceived t) (fz_rawBytesWritten t)
                    (fz_securityProtocol t).

(** The bytes still to be replayed. *)
Definition pending (s : AsyncSSLSocket) : IOBuf :=
  default [] (ssl_preReceivedData s).

(** The classic engine takes [n] bytes of input: pre-received bytes first,
    the descriptor for the rest; its received counter counts both. *)
Definition ssl_read (n : nat) (s : AsyncSSLSocket) : AsyncSSLSocket :=
  mkAsyncSSLSocket (ssl_ctx s) (ssl_evb s) (ssl_fd s)
                   (drop n <$> ssl_preReceivedData s)
                   (ssl_parseClientHello s) (ssl_cacheAddrOnFailure s)
                   (ssl_handshakeCallback s) (ssl_appProto s)
                   (ssl_rawBytesReceived s + N.of_nat n) (ssl_rawBytesWritten s)
                   (ssl_wireBytesRead s + N.of_nat (n - length (pending s)))
                   (ssl_securityProtocol s).

Definition ssl_write (n : N) (s : AsyncSSLSocket) : AsyncSSLSocket :=
  mkAsyncSSLSocket (ssl_ctx s) (ssl_evb s) (ssl_fd s) (ssl_preReceivedData s)
                   (ssl_parseClientHello s) (ssl_cacheAddrOnFailure s)
                   (ssl_handshakeCallback s) (ssl_appProto s)
                   (ssl_rawBytesReceived s) (ssl_rawBytesWritten s + n)
                   (ssl_wireBytesRead s) (ssl_securityProtocol s).

Definition ssl_negotiated (appProto : string) (s : AsyncSSLSocket) : AsyncSSLSocket :=
  mkAsyncSSLSocket (ssl_ctx s) (ssl_evb s) (ssl_fd s) (ssl_preReceivedData s)
                   (ssl_parseClientHello s) (ssl_cacheAddrOnFailure s)
                   (ssl_handshakeCallback s) appProto
                   (ssl_rawBytesReceived s) (ssl_rawBytesWritten s)
                   (ssl_wireBytesRead s) (ssl_securityProtocol s).

Definition updFizz (p : ptr) (f : AsyncFizzServer -> AsyncFizzServer) : M unit :=
  let* t := derefFizz p in storeFizz p (f t).

Definition updSSL (p : ptr) (f : AsyncSSLSocket -> AsyncSSLSocket) : M unit :=
  let* s := derefSSL p in storeSSL p (f s).

(** The negotiated key parameter is written into the extension the engine
    was built with. *)
Definition negotiateKeyParam (p : ptr) (k : option N) : M unit :=
  let* t := derefFizz p in
  match fz_extensions t with
  | Some e =>
      fun w => match extHeap w !! e with
               | Some x => storeExt e (mkExtension (ext_context x) k) w
               | None => Some (tt, w)
               end
  | None => ret tt
  end.

Definition deliver (n : Notification) : M unit :=
  match n with
  | Tick d => modify (fun w => set_clock (clock w + Z.of_N d)%Z w)
  | FizzIO p rx tx => updFizz p (fz_io rx tx)
  | FizzNegotiated p a hl k => updFizz p (fz_negotiated a hl) ;> negotiateKeyParam p k
  | FizzSuccess p =>
      updFizz p (fz_set_handshakeCallback false) ;> fizzHandshakeSuccess p
  | FizzError p ex =>
      updFizz p (fz_set_handshakeCallback false) ;> fizzHandshakeError p ex
  | FizzFallback p hello =>
      updFizz p (fz_set_handshakeCallback false) ;>
      fizzHandshakeAttemptFallback (Some hello)
  | SslRead p k => updSSL p (ssl_read k)
  | SslWrite p k => updSSL p (ssl_write k)
  | SslNegotiated p a => updSSL p (ssl_negotiated a)
  | SslSuc p => updSSL p (ssl_set_handshakeCallback false) ;> handshakeSuc p
  | SslErr p ex => updSSL p (ssl_set_handshakeCallback false) ;> handshakeErr p ex
  end.

Definition step (n : Notification) (w : World) : option World :=
  if enabled n w then exec (deliver n) w else None.

Fixpoint run (ns : list Notification) (w : World) : option World :=
  match ns with
  | [] => Some w
  | n :: ns' =>
      match step n w with
      | Some w' => run ns' w'
      | None => None
      end
  end.

(** A session: [start], then what the engines do. *)
Definition session (sock : ptr) (cb : Callback) (ns : list Notification)
    (w : World) : option World :=
  match exec (start sock cb) w with
  | Some w' => run ns w'
  | None => None
  end.

(** ** Reading the trace *)

Definition is_completion (e : Event) : bool :=
  match e with
  | EvConnectionReady _ _ _ _ _ | EvConnectionError _ _ _ _ => true
  | _ => false
  end.

Definition is_log (e : Event) : bool :=
  match e with
  | EvLogFizzHandshakeSuccess _ _ | EvLogFizzHandshakeError _ _ _ => true
  | _ => false
  end.

Definition is_create_ssl (e : Event) : bool :=
  match e with
  | EvCreateSSLSocket _ _ _ _ => true
  | _ => false
  end.

Definition is_close (e : Event) : bool :=
  match e with
  | EvCloseFd _ => true
  | _ => false
  end.

Fixpoint count (f : Event -> bool) (tr : list Event) : nat :=
  match tr with
  | [] => 0
  | e :: tr' => (if f e then 1 else 0) + count f tr'
  end.

Definition completions (tr : list Event) : nat := count is_completion tr.

(** ** Derived notions used in the statements *)

(** The socket [createSSLSocket] builds during the fallback, once the four
    calls on it have been made. *)
Definition fallback_socket (h : Helper) (t : AsyncFizzServer) (hello : option IOBuf)
  : AsyncSSLSocket :=
  mkAsyncSSLSocket (sslContext_ h) (as_evb (fz_socket t)) (as_fd (fz_socket t))
                   hello true true true EmptyString 0%N 0%N 0%N ssl_protocol_type.

Definition fallback_events (p q : ptr) (h : Helper) (t : AsyncFizzServer)
    (hello : option IOBuf) : list Event :=
  [ EvDetachNetworkSocket p (as_fd (fz_socket t));
    EvCreateSSLSocket q (sslContext_ h) (as_evb (fz_socket t)) (as_fd (fz_socket t));
    EvSetPreReceivedData q hello;
    EvEnableClientHelloParsing q;
    EvForceCacheAddrOnFailure q true;
    EvSslAccept q ].

Definition modern_engine (w : World) : option AsyncFizzServer :=
  match this_ w with
  | Some h => match transport_ h with
              | Some p => fizzHeap w !! p
              | None => None
              end
  | None => None
  end.

Definition classic_engine (w : World) : option AsyncSSLSocket :=
  match this_ w with
  | Some h => match sslSocket_ h with
              | Some p => sslHeap w !! p
              | None => None
              end
  | None => None
  end.

Definition modern_owns (fd : Z) (w : World) : bool :=
  match modern_engine w with
  | Some t => (as_fd (fz_socket t) =? fd)%Z
  | None => false
  end.

Definition classic_owns (fd : Z) (w : World) : bool :=
  match classic_engine w with
  | Some s => (ssl_fd s =? fd)%Z
  | None => false
  end.


(** ** Sessions *)

(** The helper is attempting the modern handshake on engine [p]: it is
    alive, has its callback, points at [p], and no classic socket exists. *)
Definition modern_pending (p : ptr) (w : World) : bool :=
  match this_ w with
  | Some h =>
      bool_decide (transport_ h = Some p)
      && bool_decide (sslSocket_ h = None)
      && bool_decide (is_Some (callback_ h))
      && bool_decide (is_Some (fizzHeap w !! p))
      && match extension_ h with
         | Some e => bool_decide (is_Some (extHeap w !! e))
         | None => true
         end
  | None => false
  end.

(** The helper has fallen back and is attempting the classic handshake on
    socket [p]. *)
Definition classic_pending (p : ptr) (w : World) : bool :=
  match this_ w with
  | Some h =>
      bool_decide (sslSocket_ h = Some p)
      && bool_decide (transport_ h = None)
      && bool_decide (is_Some (callback_ h))
      && bool_decide (is_Some (sslHeap w !! p))
  | None => false
  end.

(** No engine owes the helper a notification. *)
Definition quiescent (w : World) : Prop :=
  (forall p t, fizzHeap w !! p = Some t -> fz_handshakeCallback t = false) /\
  (forall p s, sslHeap w !! p = Some s -> ssl_handshakeCallback s = false).

Definition quiescentb (w : World) : bool :=
  forallb (fun pt => negb (fz_handshakeCallback pt.2)) (map_to_list (fizzHeap w))
  && forallb (fun ps => negb (ssl_handshakeCallback ps.2)) (map_to_list (sslHeap w)).

(** The world [start] may be called in: a freshly constructed helper, the
    accepted socket [sock], no engine started yet, nothing happened yet. *)
Definition initial (sock : ptr) (w : World) : bool :=
  match this_ w with
  | Some h =>
      bool_decide (transport_ h = None)
      && bool_decide (sslSocket_ h = None)
      && bool_decide (is_Some (sslHeap w !! sock))
      && match extension_ h with
         | Some e => bool_decide (is_Some (extHeap w !! e))
         | None => true
         end
      && quiescentb w
      && match trace w with [] => true | _ => false end
  | None => false
  end.

Definition is_terminal (n : Notification) : bool :=
  match n with
  | FizzSuccess _ | FizzError _ _ | SslSuc _ | SslErr _ _ => true
  | _ => false
  end.

Definition is_fallback (n : Notification) : bool :=
  match n with
  | FizzFallback _ _ => true
  | _ => false
  end.

Definition is_tick (n : Notification) : bool :=
  match n with
  | Tick _ => true
  | _ => false
  end.

Definition is_modern_terminal (n : Notification) : bool :=
  match n with
  | FizzSuccess _ | FizzError _ _ => true
  | _ => false
  end.

(** The logging callback, if there is one, returns when it is called. *)
Definition lc_returns (lc : option LoggingCallback) : bool :=
  match lc with
  | Some l => negb (lc_fails l)
  | None => true
  end.

Definition logger_returns (w : World) : bool :=
  match this_ w with
  | Some h => lc_returns (loggingCallback_ h)
  | None => true
  end.

(** Handling [n] calls no logging callback that throws: only the two modern
    terminal methods call it. *)
Definition observer_returns (n : Notification) (w : World) : bool :=
  negb (is_modern_terminal n) || logger_returns w.

Fixpoint terminal_count (ns : list Notification) : nat :=
  match ns with
  | [] => 0
  | n :: ns' => (if is_terminal n then 1 else 0) + terminal_count ns'
  end.

(** What the classic engine has received, less what came from the
    descriptor, plus what is still to be replayed: the size of the buffer
    it was handed. *)
Definition replay_balance (s : AsyncSSLSocket) : Z :=
  (Z.of_N (ssl_rawBytesReceived s) + Z.of_nat (length (pending s))
   - Z.of_N (ssl_wireBytesRead s))%Z.

(** What holds between two notifications of a session on a connection
    accepted with context [ctx], event base [evb] and descriptor [fd]: an
    engine that still owes a notification is the one the helper points at,
    it is the only one, it runs on [evb] over [fd], and the completion
    callback has not been invoked. *)
Record session_inv (ctx : option SSLContext) (evb : EventBase) (fd : Z) (w : World)
  : Prop := mkSessionInv {
  inv_fizz : forall p t,
      fizzHeap w !! p = Some t -> fz_handshakeCallback t = true ->
      exists h cb,
        this_ w = Some h /\ transport_ h = Some p /\ sslSocket_ h = None /\
        callback_ h = Some cb /\ sslContext_ h = ctx /\
        as_evb (fz_socket t) = evb /\ as_fd (fz_socket t) = fd /\
        completions (trace w) = 0 /\ count is_create_ssl (trace w) = 0;
  inv_ssl : forall p s,
      sslHeap w !! p = Some s -> ssl_handshakeCallback s = true ->
      exists h cb,
        this_ w = Some h /\ sslSocket_ h = Some p /\ transport_ h = None /\
        callback_ h = Some cb /\ ssl_ctx s = ctx /\
        ssl_evb s = evb /\ ssl_fd s = fd /\
        completions (trace w) = 0 /\
        exists hello,
          In (EvSetPreReceivedData p (Some hello)) (trace w) /\
          replay_balance s = Z.of_nat (length hello);
  inv_ext : forall h e,
      this_ w = Some h -> extension_ h = Some e -> is_Some (extHeap w !! e);
  inv_fizz_protocol : forall p t,
      fizzHeap w !! p = Some t -> fz_handshakeCallback t = true ->
      fz_securityProtocol t = fizz_protocol_type;
  inv_ssl_protocol : forall p s,
      sslHeap w !! p = Some s -> ssl_handshakeCallback s = true ->
      ssl_securityProtocol s = ssl_protocol_type
}.

(** The members no method assigns to after [start]. *)
Definition helper_const (w w' : World) : Prop :=
  forall h', this_ w' = Some h' ->
  exists h, this_ w = Some h /\
            acceptTime_ h' = acceptTime_ h /\ sslError_ h' = sslError_ h /\
            loggingCallback_ h' = loggingCallback_ h /\
            callback_ h' = callback_ h /\ sslContext_ h' = sslContext_ h.

(** What one notification changes. *)
Definition step_post (ctx : option SSLContext) (evb : EventBase) (fd : Z)
    (n : Notification) (w w' : World) : Prop :=
  session_inv ctx evb fd w' /\
  completions (trace w') = completions (trace w) + (if is_terminal n then 1 else 0) /\
  count is_create_ssl (trace w') =
    count is_create_ssl (trace w) + (if is_fallback n then 1 else 0) /\
  (is_terminal n = true -> quiescent w') /\
  (is_terminal n = false -> is_fallback n = false ->
   this_ w' = this_ w /\ trace w' = trace w /\ tinfo w' = tinfo w) /\
  (clock w <= clock w')%Z /\
  helper_const w w'.

(** The completion calls of a trace, in order. *)
Fixpoint completion_events (tr : list Event) : list Event :=
  match tr with
  | [] => []
  | e :: tr' =>
      if is_completion e then e :: completion_events tr' else completion_events tr'
  end.

Definition is_success (n : Notification) : bool :=
  match n with
  | FizzSuccess _ | SslSuc _ => true
  | _ => false
  end.

Definition is_failure (n : Notification) : bool :=
  match n with
  | FizzError _ _ | SslErr _ _ => true
  | _ => false
  end.

Definition is_replay (e : Event) : bool :=
  match e with
  | EvSetPreReceivedData _ _ => true
  | _ => false
  end.

Definition is_ssl_accept (e : Event) : bool :=
  match e with
  | EvSslAccept _ => true
  | _ => false
  end.

(** The descriptor is held by one of the two engines and not the other. *)
Definition one_engine_owns (fd : Z) (w : World) : bool :=
  xorb (modern_owns fd w) (classic_owns fd w).

(** The same world with another logging callback (or none) in the helper. *)
Definition set_loggingCallback_ (x : option LoggingCallback) (h : Helper) : Helper :=
  mkHelper (callback_ h) (sslContext_ h) (context_ h) (tokenBindingContext_ h)
           (extension_ h) (transport_ h) (sslSocket_ h) x (acceptTime_ h) (sslError_ h).

Definition with_logger (lc : option LoggingCallback) (w : World) : World :=
  set_this (set_loggingCallback_ lc <$> this_ w) w.

(** ** Further notions: what the engines negotiated, who is notified *)

(** The key parameter the helper's extension holds, if any. *)
Definition negotiated_param (h : Helper) (w : World) : option N :=
  match extension_ h with
  | Some e => match extHeap w !! e with
              | Some x => ext_negotiatedKeyParam x
              | None => None
              end
  | None => None
  end.

(** The server name the modern engine logged, if any. *)
Definition client_sni (t : AsyncFizzServer) : option string :=
  match fz_handshakeLogging t with
  | Some hl => clientSni hl
  | None => None
  end.

Definition logger_set (w : World) : bool :=
  match this_ w with
  | Some h => match loggingCallback_ h with
              | Some _ => true
              | None => false
              end
  | None => false
  end.

Definition no_success (ns : list Notification) : bool :=
  forallb (fun n => negb (is_success n)) ns.

Definition no_failure (ns : list Notification) : bool :=
  forallb (fun n => negb (is_failure n)) ns.

Fixpoint modern_terminal_count (ns : list Notification) : nat :=
  match ns with
  | [] => 0
  | n :: ns' => (if is_modern_terminal n then 1 else 0) + modern_terminal_count ns'
  end.

(** The engine object behind the transport handed to the callback. *)
Definition transport_fd (T : Transport) (w : World) : option Z :=
  match T with
  | FizzT p => (fun t => as_fd (fz_socket t)) <$> fizzHeap w !! p
  | SslT p => ssl_fd <$> sslHeap w !! p
  end.

Definition transport_evb (T : Transport) (w : World) : option EventBase :=
  match T with
  | FizzT p => (fun t => as_evb (fz_socket t)) <$> fizzHeap w !! p
  | SslT p => ssl_evb <$> sslHeap w !! p
  end.

Definition notifier (n : Notification) : option Transport :=
  match n with
  | FizzIO p _ _ | FizzNegotiated p _ _ _ | FizzSuccess p | FizzError p _
  | FizzFallback p _ => Some (FizzT p)
  | SslRead p _ | SslWrite p _ | SslNegotiated p _ | SslSuc p | SslErr p _ =>
      Some (SslT p)
  | Tick _ => None
  end.

(** The helper and the modern engine that owes a notification hold the
    same extension. *)
Definition ext_inv (ext0 : option ptr) (w : World) : Prop :=
  (forall h, this_ w = Some h -> extension_ h = ext0) /\
  (forall p t, fizzHeap w !! p = Some t -> fz_handshakeCallback t = true ->
               fz_extensions t = ext0).

(** The extension [start] leaves in the helper. *)
Definition started_extension (h : Helper) (w : World) : option ptr :=
  match tokenBindingContext_ h with
  | Some _ => Some (nextPtr w)
  | None => extension_ h
  end.
(** ** Concrete sessions to run things on *)

Definition sample_callback : Callback := mkCallback 1%N true.
Definition sample_logger : LoggingCallback := mkLoggingCallback 1%N false.
Definition sample_hello : IOBuf := [Byte.x16; Byte.x03; Byte.x01].

Definition sample_helper (lc : option LoggingCallback) : Helper :=
  mkHelper None None 1%N None None None None lc 1000000000%Z NO_ERROR.

Definition sample_socket : AsyncSSLSocket :=
  mkAsyncSSLSocket (Some 5%N) 9%N 7%Z None false false false EmptyString 0%N 0%N 0%N
                   SecClassicTLS.

(** A helper constructed at clock 1 s for the accepted socket at address 1
    (descriptor 7), with verbose logging on. *)
Definition sample_world (lc : option LoggingCallback) : World :=
  mkWorld (Some (sample_helper lc)) empty_tinfo ∅ {[ 1%positive := sample_socket ]} ∅
          2%positive 1000000000%Z 3 [].

Definition sock1 : ptr := 1%positive.
Definition fizz2 : ptr := 2%positive.
Definition ssl3 : ptr := 3%positive.

(** The world a sample session ends in. *)
Definition sample_run (lc : option LoggingCallback) (ns : list Notification) : World :=
  default (sample_world lc) (session sock1 sample_callback ns (sample_world lc)).

Definition boom : exception_wrapper := mkException "boom"%string.

(** Modern engine at address 2, classic socket at address 3. *)
Definition modern_script : list Notification :=
  [Tick 5000000; FizzIO fizz2 10 20].

Definition fallback_script : list Notification :=
  [Tick 5000000; FizzIO fizz2 3 0; FizzFallback fizz2 sample_hello;
   SslRead ssl3 5; Tick 7000000; SslWrite ssl3 9].

Definition other : exception_wrapper := mkException "other"%string.

(** Two failing modern sessions that differ in the bytes sent and in the
    cause only. *)
Definition failing_script_a : list Notification :=
  [Tick 5000000; FizzIO fizz2 10 20; FizzError fizz2 boom].
Definition failing_script_b : list Notification :=
  [Tick 5000000; FizzIO fizz2 10 99; FizzError fizz2 other].

(** A session in which the classic engine fails before it has taken any
    input: the modern engine had read the three bytes of [sample_hello]. *)
Definition early_classic_failure : list Notification :=
  [Tick 5000000; FizzIO fizz2 3 0; FizzFallback fizz2 sample_hello;
   SslErr ssl3 boom].

(** A logging callback that throws. *)
Definition throwing_logger : LoggingCallback := mkLoggingCallback 9%N true.

(** The sample helper constructed with another accept instant. *)
Definition sample_helper_at (a : time_point) : Helper :=
  mkHelper None None 1%N None None None None None a NO_ERROR.

Definition sample_world_at (a : time_point) : World :=
  mkWorld (Some (sample_helper_at a)) empty_tinfo ∅ {[ 1%positive := sample_socket ]} ∅
          2%positive 1000000000%Z 3 [].

Definition sample_run_at (a : time_point) (ns : list Notification) : World :=
  default (sample_world_at a) (session sock1 sample_callback ns (sample_world_at a)).

(** An accept instant 1.5 ms after the clock, and one at the lower end of
    the clock's range. *)
Definition late_accept : time_point := 1001500000%Z.
Definition lowest_accept : time_point := (- 2 ^ 63)%Z.

(** A helper with a token-binding context configured. *)
Definition sample_helper_tb : Helper :=
  mkHelper None None 1%N (Some 4%N) None None None None 1000000000%Z NO_ERROR.

Definition sample_world_tb : World :=
  mkWorld (Some sample_helper_tb) empty_tinfo ∅ {[ 1%positive := sample_socket ]} ∅
          2%positive 1000000000%Z 3 [].

(** With the extension allocated at address 2, the modern engine is at 3. *)
Definition fizz3 : ptr := 3%positive.

Definition sample_run_tb (ns : list Notification) : World :=
  default sample_world_tb (session sock1 sample_callback ns sample_world_tb).

Definition negotiated_script : list Notification :=
  [Tick 5000000;
   FizzNegotiated fizz3 "h2" (Some (mkHandshakeLogging (Some "example.org"%string)))
                  (Some 258%N);
   FizzSuccess fizz3].

Definition keeping_callback : Callback := mkCallback 2%N false.
(** ** Symbolic execution of the methods *)

Ltac psimpl :=
  cbn [this_ tinfo fizzHeap sslHeap extHeap nextPtr clock vlogLevel trace
       callback_ sslContext_ context_ tokenBindingContext_ extension_ transport_
       sslSocket_ loggingCallback_ acceptTime_ sslError_ cb_deletesHelper cb_id
       acceptTime secure securityType sslSetupTime sslServerName
       negotiatedTokenBindingKeyParameters
       set_acceptTime set_secure set_securityType set_sslSetupTime set_sslServerName
       set_negotiatedTokenBindingKeyParameters fillSSLTransportInfoFields
       fz_handshakeLogging fz_socket fz_appProto fz_rawBytesReceived
       fz_rawBytesWritten fz_handshakeCallback fz_context fz_extensions
       ssl_ctx ssl_evb ssl_fd ssl_preReceivedData ssl_parseClientHello
       ssl_cacheAddrOnFailure ssl_handshakeCallback ssl_appProto
       ssl_rawBytesReceived ssl_rawBytesWritten ssl_wireBytesRead
       fz_securityProtocol ssl_securityProtocol lc_fails lc_id
       AsyncFizzServer_getSecurityProtocol AsyncSSLSocket_getSecurityProtocol
       as_fd as_evb as_addrCached clientSni ext_negotiatedKeyParam ext_context
       set_transport_ set_sslSocket_ set_callback_ set_sslContext_ set_extension_
       set_this set_tinfo set_fizzHeap set_sslHeap set_extHeap set_nextPtr set_clock
       set_trace l_evb l_fd fmap option_fmap option_map app] in *.

Ltac mred :=
  cbv [start createFizzServer AsyncSocket_from new_AsyncFizzServer
       AsyncFizzServer_accept cacheAddresses as_set_addrCached alloc terminate lc_fails
       fizzHandshakeSuccess fizzHandshakeError handshakeSuc handshakeErr
       fizzHandshakeAttemptFallback fallback_upto fallback_stmts exec_stmts
       detachNetworkSocket createSSLSocket new_AsyncSSLSocket setPreReceivedData
       enableClientHelloParsing forceCacheAddrOnFailure sslAccept
       logFizzHandshakeSuccess logFizzHandshakeError connectionReady connectionError
       deleteThis destroy_unique destroyFizzServer destroySSLSocket close_if_attached
       updFizz updSSL negotiateKeyParam
       vlog when member this assign assign_tinfo nonnull derefFizz derefSSL derefExt
       storeFizz storeSSL storeExt steady_clock_now gets modify emit bind ret fault
       exec set_this set_tinfo set_fizzHeap set_sslHeap set_extHeap set_nextPtr
       set_clock set_trace
       this_ tinfo fizzHeap sslHeap extHeap nextPtr clock vlogLevel trace
       callback_ sslContext_ context_ tokenBindingContext_ extension_ transport_
       sslSocket_ loggingCallback_ acceptTime_ sslError_ cb_deletesHelper
       fz_handshakeLogging fz_socket fz_appProto fz_extensions as_fd as_evb
       fz_set_socket fz_set_handshakeCallback as_set_fd
       ssl_set_preReceivedData ssl_set_parseClientHello ssl_set_cacheAddrOnFailure
       ssl_set_handshakeCallback ssl_preReceivedData ssl_fd ssl_evb ssl_ctx
       ssl_appProto clientSni ext_negotiatedKeyParam l_evb l_fd
       set_transport_ set_sslSocket_ set_callback_ set_sslContext_ set_extension_
       fmap option_fmap option_map take negb].

(** Alternate unfolding with the rewriting of the heap lookups at hand. *)
Ltac mstep :=
  mred;
  repeat (progress
            (repeat match goal with
                    | H : _ !! _ = _ |- _ => rewrite H
                    | H : (_ <=? _)%nat = _ |- _ => rewrite H
                    | H : (_ =? _)%Z = _ |- _ => rewrite H
                    | H : String.eqb _ _ = _ |- _ => rewrite H
                    end;
             rewrite ?lookup_insert_eq, ?Z.eqb_refl);
          mred).

(** ** The 64-bit clock *)

Ltac pow64 :=
  change (2 ^ 63)%Z with 9223372036854775808%Z in *;
  change (2 ^ 64)%Z with 18446744073709551616%Z in *.

Lemma int64_small z : (- 2 ^ 63 <= z < 2 ^ 63)%Z -> int64 z = z.
Proof.
  intros H. unfold int64. pow64. rewrite Z.mod_small by lia. lia.
Qed.

Lemma int64_range z : (- 2 ^ 63 <= int64 z < 2 ^ 63)%Z.
Proof.
  unfold int64. pow64.
  pose proof (Z.mod_pos_bound (z + 9223372036854775808) 18446744073709551616).
  lia.
Qed.

(** Subtracting from the clock's reading is subtracting from the clock, up
    to the 64 bits. *)
Lemma time_sub_now c a : time_sub (int64 c) a = int64 (c - a).
Proof.
  unfold time_sub, int64. f_equal.
  replace ((c + 2 ^ 63) mod 2 ^ 64 - 2 ^ 63 - a + 2 ^ 63)%Z
    with ((c + 2 ^ 63) mod 2 ^ 64 - a)%Z by ring.
  rewrite Zminus_mod_idemp_l. f_equal. ring.
Qed.

Lemma duration_cast_ms_nonneg d : (0 <= d)%Z -> (0 <= duration_cast_ms d)%Z.
Proof. intros H. unfold duration_cast_ms. apply Z.quot_pos; lia. Qed.

Lemma duration_cast_ms_mono a b :
  (a <= b)%Z -> (duration_cast_ms a <= duration_cast_ms b)%Z.
Proof. intros H. unfold duration_cast_ms. apply Z.quot_le_mono; lia. Qed.

(** ** Counting events *)

Lemma count_app f (a b : list Event) : count f (a ++ b) = count f a + count f b.
Proof. induction a as [|e a IH]; cbn; [reflexivity | rewrite IH; lia]. Qed.

Lemma completions_app (a b : list Event) :
  completions (a ++ b) = completions a + completions b.
Proof. apply count_app. Qed.

(** ** What each method does *)

Lemma fizzHandshakeSuccess_run w h p t cb :
  this_ w = Some h ->
  fizzHeap w !! p = Some t ->
  callback_ h = Some cb ->
  sslSocket_ h = None ->
  (forall e, extension_ h = Some e -> is_Some (extHeap w !! e)) ->
  lc_returns (loggingCallback_ h) = true ->
  exists w',
    fizzHandshakeSuccess p w = Some (tt, w') /\
    this_ w' = (if cb_deletesHelper cb then None else Some (set_transport_ None h)) /\
    fizzHeap w' = fizzHeap w /\ sslHeap w' = sslHeap w /\ extHeap w' = extHeap w /\
    clock w' = clock w /\
    trace w' = trace w
      ++ match loggingCallback_ h with
         | Some l => [EvLogFizzHandshakeSuccess l p]
         | None => []
         end
      ++ (if (3 <=? vlogLevel w)%nat then [EvVlog VFizzHandshakeSuccess] else [])
      ++ [EvConnectionReady cb (FizzT <$> transport_ h) (fz_appProto t) TLS NO_ERROR] /\
    acceptTime (tinfo w') = acceptTime_ h /\
    secure (tinfo w') = true /\
    securityType (tinfo w') = AsyncFizzServer_getSecurityProtocol t /\
    sslSetupTime (tinfo w') = duration_cast_ms (int64 (clock w - acceptTime_ h)).
Proof.
  destruct w as [th ti fh sh eh np ck vl tr]; psimpl.
  intros -> Hp Hcb Hs He Hlc.
  destruct h as [cbk sc cx tb ex tp sp lc at_ er]; psimpl; subst.
  destruct t as [so fc fe fcb ap hl rx tx pr].
  destruct cb as [ci del].
  assert (Hlc' : match lc with Some l => lc_fails l = false | None => True end).
  { destruct lc as [[li []]|]; [discriminate | reflexivity | exact I]. }
  clear Hlc.
  assert (Hex : match ex with
                | Some e => exists x, eh !! e = Some x
                | None => True
                end).
  { destruct ex as [e|]; [destruct (He e eq_refl) as [x Hx]; eauto | exact I]. }
  clear He.
  destruct ex as [e|]; [destruct Hex as [[ec [k|]] Hx] | ];
    destruct lc as [[li lf]|]; psimpl; subst;
    destruct (3 <=? vl)%nat eqn:Hv, hl as [[[sni|]]|], del;
    mstep; (eexists; split; [reflexivity|]); psimpl;
    rewrite <- ?app_assoc, ?time_sub_now; repeat split.
Qed.

Lemma fizzHandshakeError_run w h p t cb ex :
  this_ w = Some h ->
  fizzHeap w !! p = Some t ->
  callback_ h = Some cb ->
  transport_ h = Some p ->
  sslSocket_ h = None ->
  lc_returns (loggingCallback_ h) = true ->
  exists w',
    fizzHandshakeError p ex w = Some (tt, w') /\
    this_ w' = (if cb_deletesHelper cb then None else Some h) /\
    tinfo w' = tinfo w /\
    fizzHeap w' = (if cb_deletesHelper cb then delete p (fizzHeap w) else fizzHeap w) /\
    sslHeap w' = sslHeap w /\ extHeap w' = extHeap w /\ clock w' = clock w /\
    trace w' = trace w
      ++ match loggingCallback_ h with
         | Some l => [EvLogFizzHandshakeError l p ex]
         | None => []
         end
      ++ (if (3 <=? vlogLevel w)%nat
          then [EvVlog (VFizzHandshakeError
                          (duration_cast_ms (int64 (clock w - acceptTime_ h)))
                          (fz_rawBytesReceived t) (fz_rawBytesWritten t) (what ex))]
          else [])
      ++ [EvConnectionError cb (Some (FizzT p))
            (FizzHandshakeException (sslError_ h)
               (duration_cast_ms (int64 (clock w - acceptTime_ h))) (fz_rawBytesReceived t))
            (sslError_ h)]
      ++ (if cb_deletesHelper cb && negb (as_fd (fz_socket t) =? NO_FD)%Z
          then [EvCloseFd (as_fd (fz_socket t))]
          else []).
Proof.
  destruct w as [th ti fh sh eh np ck vl tr]; psimpl.
  intros -> Hp Hcb Htp Hs Hlc.
  destruct h as [cbk sc cx tb e tp sp lc at_ er]; psimpl; subst.
  destruct t as [[evb fd ca] fc fe fcb ap hl rx tx pr].
  destruct cb as [ci del].
  assert (Hlc' : match lc with Some l => lc_fails l = false | None => True end).
  { destruct lc as [[li []]|]; [discriminate | reflexivity | exact I]. }
  clear Hlc.
  destruct lc as [[li lf]|]; psimpl; subst;
    destruct (3 <=? vl)%nat eqn:Hv, del, (fd =? NO_FD)%Z eqn:Hfd;
    mstep; (eexists; split; [reflexivity|]); psimpl;
    rewrite ?Hfd; cbn [negb andb];
    rewrite <- ?app_assoc, ?app_nil_r, ?time_sub_now;
    repeat split.
Qed.

Lemma handshakeSuc_run w h p s cb :
  this_ w = Some h ->
  sslHeap w !! p = Some s ->
  callback_ h = Some cb ->
  transport_ h = None ->
  exists w',
    handshakeSuc p w = Some (tt, w') /\
    this_ w' = (if cb_deletesHelper cb then None else Some (set_sslSocket_ None h)) /\
    fizzHeap w' = fizzHeap w /\ sslHeap w' = sslHeap w /\ extHeap w' = extHeap w /\
    clock w' = clock w /\
    trace w' = trace w
      ++ (if (3 <=? vlogLevel w)%nat
          then [EvVlog (if negb (String.eqb (ssl_appProto s) EmptyString)
                        then VClientSelectedNextProtocol (ssl_appProto s)
                        else VClientDidNotSelect)]
          else [])
      ++ [EvConnectionReady cb (SslT <$> sslSocket_ h) (ssl_appProto s) TLS NO_ERROR] /\
    tinfo w' =
      fillSSLTransportInfoFields s
        (set_sslSetupTime (duration_cast_ms (int64 (clock w - acceptTime_ h)))
           (set_acceptTime (acceptTime_ h) (tinfo w))).
Proof.
  destruct w as [th ti fh sh eh np ck vl tr]; psimpl.
  intros -> Hp Hcb Htp.
  destruct h as [cbk sc cx tb e tp sp lc at_ er]; psimpl; subst.
  destruct s as [c evb fd pre pc ca hc ap rx tx wr pr].
  destruct cb as [ci del].
  destruct (3 <=? vl)%nat eqn:Hv, del, (String.eqb ap EmptyString) eqn:Hap;
    mstep; cbn [negb]; mstep;
    (eexists; split; [reflexivity|]); psimpl; rewrite ?Hap; cbn [negb];
    rewrite <- ?app_assoc, ?time_sub_now; repeat split.
Qed.

Lemma handshakeErr_run w h p s cb ex :
  this_ w = Some h ->
  sslHeap w !! p = Some s ->
  callback_ h = Some cb ->
  sslSocket_ h = Some p ->
  transport_ h = None ->
  exists w',
    handshakeErr p ex w = Some (tt, w') /\
    this_ w' = (if cb_deletesHelper cb then None else Some h) /\
    tinfo w' = tinfo w /\
    fizzHeap w' = fizzHeap w /\
    sslHeap w' = (if cb_deletesHelper cb then delete p (sslHeap w) else sslHeap w) /\
    extHeap w' = extHeap w /\ clock w' = clock w /\
    trace w' = trace w
      ++ (if (3 <=? vlogLevel w)%nat
          then [EvVlog (VSSLHandshakeError
                          (duration_cast_ms (int64 (clock w - acceptTime_ h)))
                          (ssl_rawBytesReceived s) (ssl_rawBytesWritten s) (what ex))]
          else [])
      ++ [EvConnectionError cb (Some (SslT p))
            (SSLException (sslError_ h)
               (duration_cast_ms (int64 (clock w - acceptTime_ h))) (ssl_rawBytesReceived s))
            (sslError_ h)]
      ++ (if cb_deletesHelper cb && negb (ssl_fd s =? NO_FD)%Z
          then [EvCloseFd (ssl_fd s)]
          else []).
Proof.
  destruct w as [th ti fh sh eh np ck vl tr]; psimpl.
  intros -> Hp Hcb Hsp Htp.
  destruct h as [cbk sc cx tb e tp sp lc at_ er]; psimpl; subst.
  destruct s as [c evb fd pre pc ca hc ap rx tx wr pr].
  destruct cb as [ci del].
  destruct (3 <=? vl)%nat eqn:Hv, del, (fd =? NO_FD)%Z eqn:Hfd;
    mstep; (eexists; split; [reflexivity|]); psimpl;
    rewrite ?Hfd; cbn [negb andb];
    rewrite <- ?app_assoc, ?app_nil_r, ?time_sub_now;
    repeat split.
Qed.

Lemma fizzHandshakeAttemptFallback_run w h p t hello :
  this_ w = Some h ->
  transport_ h = Some p ->
  sslSocket_ h = None ->
  fizzHeap w !! p = Some t ->
  exists w',
    fizzHandshakeAttemptFallback hello w = Some (tt, w') /\
    this_ w' = Some (set_sslSocket_ (Some (nextPtr w)) (set_transport_ None h)) /\
    tinfo w' = tinfo w /\
    fizzHeap w' = delete p (fizzHeap w) /\
    sslHeap w' = <[nextPtr w := fallback_socket h t hello]> (sslHeap w) /\
    extHeap w' = extHeap w /\ clock w' = clock w /\
    trace w' = trace w
      ++ (if (3 <=? vlogLevel w)%nat then [EvVlog VFallbackToOpenSSL] else [])
      ++ fallback_events p (nextPtr w) h t hello.
Proof.
  destruct w as [th ti fh sh eh np ck vl tr]; psimpl.
  intros -> Htp Hsp Hp.
  destruct h as [cbk sc cx tb e tp sp lc at_ er]; psimpl; subst.
  destruct t as [[evb fd ca] fc fe fcb ap hl rx tx pr].
  unfold fallback_socket, fallback_events; psimpl.
  destruct (3 <=? vl)%nat eqn:Hv;
    mstep; (eexists; split; [reflexivity|]); psimpl;
    rewrite ?delete_insert_eq, ?insert_insert_eq, <- ?app_assoc; repeat split.
Qed.

Lemma start_run w h sock s cb :
  this_ w = Some h ->
  sslHeap w !! sock = Some s ->
  transport_ h = None ->
  exists w' q,
    start sock cb w = Some (tt, w') /\
    this_ w' = Some (set_transport_ (Some q)
                       (set_extension_
                          (match tokenBindingContext_ h with
                           | Some _ => Some (nextPtr w)
                           | None => extension_ h
                           end)
                          (set_sslContext_ (ssl_ctx s)
                             (set_callback_ (Some cb) h)))) /\
    tinfo w' = tinfo w /\
    fizzHeap w' =
      <[q := mkAsyncFizzServer (mkAsyncSocket (ssl_evb s) (ssl_fd s) true)
               (context_ h)
               (match tokenBindingContext_ h with
                | Some _ => Some (nextPtr w)
                | None => extension_ h
                end)
               true EmptyString None 0%N 0%N fizz_protocol_type]> (fizzHeap w) /\
    sslHeap w' = delete sock (sslHeap w) /\
    extHeap w' = match tokenBindingContext_ h with
                 | Some c => <[nextPtr w := mkExtension c None]> (extHeap w)
                 | None => extHeap w
                 end /\
    clock w' = clock w /\
    trace w' = trace w
      ++ [EvCacheAddresses;
          EvCreateFizzServer q (mkAsyncSocket (ssl_evb s) (ssl_fd s) true) (context_ h)
            (match tokenBindingContext_ h with
             | Some _ => Some (nextPtr w)
             | None => extension_ h
             end);
          EvFizzAccept q].
Proof.
  destruct w as [th ti fh sh eh np ck vl tr]; psimpl.
  intros -> Hs Htp.
  destruct h as [cbk sc cx tb e tp sp lc at_ er]; psimpl; subst.
  destruct s as [c evb fd pre pc ca hc ap rx tx wr pr].
  destruct tb as [c'|]; mstep;
    (eexists; eexists; split; [reflexivity|]); psimpl;
    rewrite ?insert_insert_eq, <- ?app_assoc; repeat split.
Qed.

(** A logging callback that throws ends the run in the two methods that
    call it, before anything else is done. *)
Lemma fizzHandshakeSuccess_throws w h p l :
  this_ w = Some h -> loggingCallback_ h = Some l -> lc_fails l = true ->
  fizzHandshakeSuccess p w = None.
Proof.
  destruct w as [th ti fh sh eh np ck vl tr]; psimpl.
  intros -> Hl Hf.
  destruct h as [cbk sc cx tb e tp sp lc at_ er]; psimpl; subst.
  destruct l as [li lf]; psimpl; subst.
  mred. destruct (fh !! p); reflexivity.
Qed.

Lemma fizzHandshakeError_throws w h p ex l :
  this_ w = Some h -> loggingCallback_ h = Some l -> lc_fails l = true ->
  fizzHandshakeError p ex w = None.
Proof.
  destruct w as [th ti fh sh eh np ck vl tr]; psimpl.
  intros -> Hl Hf.
  destruct h as [cbk sc cx tb e tp sp lc at_ er]; psimpl; subst.
  destruct l as [li lf]; psimpl; subst.
  mred. destruct (fh !! p); reflexivity.
Qed.

(** The states between the statements of the fallback. *)
Lemma fallback_upto_run w h p t hello fd k :
  this_ w = Some h ->
  transport_ h = Some p ->
  sslSocket_ h = None ->
  fizzHeap w !! p = Some t ->
  as_fd (fz_socket t) = fd ->
  fd <> NO_FD ->
  k <= 9 ->
  exists l w',
    fallback_upto k hello w = Some (l, w') /\
    count is_close (trace w') = count is_close (trace w) /\
    (k <= 2 ->
       modern_owns fd w' = true /\ classic_owns fd w' = false /\ l_fd l = None) /\
    (3 <= k <= 4 ->
       modern_owns fd w' = false /\ classic_owns fd w' = false /\ l_fd l = Some fd) /\
    (4 <= k -> fizzHeap w' !! p = None) /\
    (5 <= k ->
       modern_owns fd w' = false /\ classic_owns fd w' = true /\
       exists q s, classic_engine w' = Some s /\ ssl_fd s = fd /\
                   count is_create_ssl (trace w') = S (count is_create_ssl (trace w)) /\
                   In (EvCreateSSLSocket q (sslContext_ h) (as_evb (fz_socket t)) fd)
                      (trace w')).
Proof.
  destruct w as [th ti fh sh eh np ck vl tr]; psimpl.
  intros -> Htp Hsp Hp Hfd Hne Hk.
  destruct h as [cbk sc cx tb e tp sp lc at_ er]; psimpl; subst.
  destruct t as [[evb fd' ca] fc fe fcb ap hl rx tx pr]; psimpl.
  assert (Hne' : (NO_FD =? fd')%Z = false) by (apply Z.eqb_neq; congruence).
  assert (Hcnt : forall a b : list Event,
             count is_close b = 0 -> count is_close (a ++ b) = count is_close a).
  { intros a b Hb. rewrite count_app, Hb. lia. }
  do 10 (destruct k as [|k];
         [ destruct (3 <=? vl)%nat eqn:Hv;
           unfold modern_owns, classic_owns, modern_engine, classic_engine;
           mstep; (eexists; eexists; split; [reflexivity|]); psimpl;
           rewrite ?lookup_insert_eq, ?lookup_delete_eq, ?Hp; psimpl;
           rewrite ?Z.eqb_refl, ?Hne';
           (split; [ rewrite <- ?app_assoc; try reflexivity; apply Hcnt; reflexivity |]);
           (repeat split; intros; try lia; try reflexivity);
           (eexists; eexists; repeat split;
            [ rewrite <- ?app_assoc, count_app; cbn; lia
            | rewrite <- ?app_assoc; apply in_or_app; right; cbn; tauto ])
         | ]).
  lia.
Qed.

(** ** The session invariant *)

Lemma fizz_awaiting_true p w :
  fizz_awaiting p w = true ->
  exists t, fizzHeap w !! p = Some t /\ fz_handshakeCallback t = true.
Proof.
  unfold fizz_awaiting. destruct (fizzHeap w !! p) as [t|]; [eauto | discriminate].
Qed.

Lemma ssl_awaiting_true p w :
  ssl_awaiting p w = true ->
  exists s, sslHeap w !! p = Some s /\ ssl_handshakeCallback s = true.
Proof.
  unfold ssl_awaiting. destruct (sslHeap w !! p) as [s|]; [eauto | discriminate].
Qed.

Lemma quiescentb_spec w : quiescentb w = true -> quiescent w.
Proof.
  unfold quiescentb, quiescent. intros H.
  apply andb_true_iff in H as [Hf Hs].
  rewrite forallb_forall in Hf, Hs. split.
  - intros p t Hp.
    assert (Hin : In (p, t) (map_to_list (fizzHeap w))).
    { apply list_elem_of_In, elem_of_map_to_list. exact Hp. }
    specialize (Hf _ Hin). cbn in Hf. destruct (fz_handshakeCallback t); [discriminate | reflexivity].
  - intros p s Hp.
    assert (Hin : In (p, s) (map_to_list (sslHeap w))).
    { apply list_elem_of_In, elem_of_map_to_list. exact Hp. }
    specialize (Hs _ Hin). cbn in Hs. destruct (ssl_handshakeCallback s); [discriminate | reflexivity].
Qed.

Lemma quiescent_enabled n w :
  quiescent w -> enabled n w = true -> is_tick n = true.
Proof.
  intros [Hf Hs] He. destruct n; cbn in *; try reflexivity.
  all: try (apply fizz_awaiting_true in He as (t & Ht & Hc);
            rewrite (Hf _ _ Ht) in Hc; discriminate).
  all: apply ssl_awaiting_true in He as (s & Ht & Hc);
       rewrite (Hs _ _ Ht) in Hc; discriminate.
Qed.

Lemma quiescent_inv ctx evb fd w :
  quiescent w ->
  (forall h e, this_ w = Some h -> extension_ h = Some e -> is_Some (extHeap w !! e)) ->
  session_inv ctx evb fd w.
Proof.
  intros [Hf Hs] He. constructor; [ | | exact He | | ].
  - intros p t Hp Hc. rewrite (Hf _ _ Hp) in Hc. discriminate.
  - intros p s Hp Hc. rewrite (Hs _ _ Hp) in Hc. discriminate.
  - intros p t Hp Hc. rewrite (Hf _ _ Hp) in Hc. discriminate.
  - intros p s Hp Hc. rewrite (Hs _ _ Hp) in Hc. discriminate.
Qed.

Section Invariant.
Variables (ctx : option SSLContext) (evb : EventBase) (fd : Z).
Variable w : World.
Hypothesis Hinv : session_inv ctx evb fd w.

(** An engine that owes a notification is alone. *)
Lemma fizz_alone p t q tq :
  fizzHeap w !! p = Some t -> fz_handshakeCallback t = true ->
  fizzHeap w !! q = Some tq -> fz_handshakeCallback tq = true -> q = p.
Proof.
  intros Hp Hc Hq Hcq.
  destruct (inv_fizz _ _ _ _ Hinv _ _ Hp Hc) as (h & cb & Hh & Ht & _).
  destruct (inv_fizz _ _ _ _ Hinv _ _ Hq Hcq) as (h' & cb' & Hh' & Ht' & _).
  congruence.
Qed.

Lemma ssl_alone p s q sq :
  sslHeap w !! p = Some s -> ssl_handshakeCallback s = true ->
  sslHeap w !! q = Some sq -> ssl_handshakeCallback sq = true -> q = p.
Proof.
  intros Hp Hc Hq Hcq.
  destruct (inv_ssl _ _ _ _ Hinv _ _ Hp Hc) as (h & cb & Hh & Ht & _).
  destruct (inv_ssl _ _ _ _ Hinv _ _ Hq Hcq) as (h' & cb' & Hh' & Ht' & _).
  congruence.
Qed.

Lemma fizz_excludes_ssl p t q sq :
  fizzHeap w !! p = Some t -> fz_handshakeCallback t = true ->
  sslHeap w !! q = Some sq -> ssl_handshakeCallback sq = true -> False.
Proof.
  intros Hp Hc Hq Hcq.
  destruct (inv_fizz _ _ _ _ Hinv _ _ Hp Hc) as (h & cb & Hh & _ & Hs & _).
  destruct (inv_ssl _ _ _ _ Hinv _ _ Hq Hcq) as (h' & cb' & Hh' & Hs' & _).
  congruence.
Qed.

(** Engine-internal progress keeps the invariant. *)
Lemma inv_upd_fizz p t t' :
  fizzHeap w !! p = Some t ->
  fz_handshakeCallback t' = fz_handshakeCallback t ->
  fz_socket t' = fz_socket t ->
  fz_securityProtocol t' = fz_securityProtocol t ->
  session_inv ctx evb fd (set_fizzHeap (<[p:=t']> (fizzHeap w)) w).
Proof.
  intros Hp Hc Hs Hpr. constructor; psimpl.
  - intros q tq Hq Hcq. destruct (decide (p = q)) as [->|Hne].
    + rewrite lookup_insert_eq in Hq. injection Hq as <-.
      rewrite Hc in Hcq. rewrite Hs.
      exact (inv_fizz _ _ _ _ Hinv _ _ Hp Hcq).
    + rewrite lookup_insert_ne in Hq by exact Hne.
      exact (inv_fizz _ _ _ _ Hinv _ _ Hq Hcq).
  - exact (inv_ssl _ _ _ _ Hinv).
  - exact (inv_ext _ _ _ _ Hinv).
  - intros q tq Hq Hcq. destruct (decide (p = q)) as [->|Hne].
    + rewrite lookup_insert_eq in Hq. injection Hq as <-.
      rewrite Hc in Hcq. rewrite Hpr.
      exact (inv_fizz_protocol _ _ _ _ Hinv _ _ Hp Hcq).
    + rewrite lookup_insert_ne in Hq by exact Hne.
      exact (inv_fizz_protocol _ _ _ _ Hinv _ _ Hq Hcq).
  - exact (inv_ssl_protocol _ _ _ _ Hinv).
Qed.

Lemma inv_upd_ssl p s s' :
  sslHeap w !! p = Some s ->
  ssl_handshakeCallback s' = ssl_handshakeCallback s ->
  ssl_ctx s' = ssl_ctx s -> ssl_evb s' = ssl_evb s -> ssl_fd s' = ssl_fd s ->
  replay_balance s' = replay_balance s ->
  ssl_securityProtocol s' = ssl_securityProtocol s ->
  session_inv ctx evb fd (set_sslHeap (<[p:=s']> (sslHeap w)) w).
Proof.
  intros Hp Hc H1 H2 H3 H4 Hpr. constructor; psimpl.
  - exact (inv_fizz _ _ _ _ Hinv).
  - intros q sq Hq Hcq. destruct (decide (p = q)) as [->|Hne].
    + rewrite lookup_insert_eq in Hq. injection Hq as <-.
      rewrite Hc in Hcq. rewrite H1, H2, H3, H4.
      exact (inv_ssl _ _ _ _ Hinv _ _ Hp Hcq).
    + rewrite lookup_insert_ne in Hq by exact Hne.
      exact (inv_ssl _ _ _ _ Hinv _ _ Hq Hcq).
  - exact (inv_ext _ _ _ _ Hinv).
  - exact (inv_fizz_protocol _ _ _ _ Hinv).
  - intros q sq Hq Hcq. destruct (decide (p = q)) as [->|Hne].
    + rewrite lookup_insert_eq in Hq. injection Hq as <-.
      rewrite Hc in Hcq. rewrite Hpr.
      exact (inv_ssl_protocol _ _ _ _ Hinv _ _ Hp Hcq).
    + rewrite lookup_insert_ne in Hq by exact Hne.
      exact (inv_ssl_protocol _ _ _ _ Hinv _ _ Hq Hcq).
Qed.

Lemma inv_upd_ext e x :
  session_inv ctx evb fd (set_extHeap (<[e:=x]> (extHeap w)) w).
Proof.
  constructor; psimpl.
  - exact (inv_fizz _ _ _ _ Hinv).
  - exact (inv_ssl _ _ _ _ Hinv).
  - intros h e' Hh He'. destruct (decide (e = e')) as [->|Hne].
    + rewrite lookup_insert_eq. eauto.
    + rewrite lookup_insert_ne by exact Hne. exact (inv_ext _ _ _ _ Hinv _ _ Hh He').
  - exact (inv_fizz_protocol _ _ _ _ Hinv).
  - exact (inv_ssl_protocol _ _ _ _ Hinv).
Qed.

Lemma inv_tick c : session_inv ctx evb fd (set_clock c w).
Proof.
  constructor; psimpl;
    [exact (inv_fizz _ _ _ _ Hinv) | exact (inv_ssl _ _ _ _ Hinv)
     | exact (inv_ext _ _ _ _ Hinv) | exact (inv_fizz_protocol _ _ _ _ Hinv)
     | exact (inv_ssl_protocol _ _ _ _ Hinv)].
Qed.

(** Once the modern engine [p] has notified, nothing is owed any more, in
    any world whose engines are among the old ones, [p] apart. *)
Lemma quiescent_after_fizz p t w' :
  fizzHeap w !! p = Some t -> fz_handshakeCallback t = true ->
  (forall q tq, fizzHeap w' !! q = Some tq -> fz_handshakeCallback tq = true ->
                q <> p /\ fizzHeap w !! q = Some tq) ->
  sslHeap w' = sslHeap w ->
  quiescent w'.
Proof.
  intros Hp Hc Hsub Hssl. split.
  - intros q tq Hq. destruct (fz_handshakeCallback tq) eqn:Hcq; [|reflexivity].
    destruct (Hsub _ _ Hq Hcq) as [Hne Hq'].
    exfalso. apply Hne. exact (fizz_alone _ _ _ _ Hp Hc Hq' Hcq).
  - intros q sq Hq. rewrite Hssl in Hq.
    destruct (ssl_handshakeCallback sq) eqn:Hcq; [|reflexivity].
    exfalso. exact (fizz_excludes_ssl _ _ _ _ Hp Hc Hq Hcq).
Qed.

Lemma quiescent_after_ssl p s w' :
  sslHeap w !! p = Some s -> ssl_handshakeCallback s = true ->
  (forall q sq, sslHeap w' !! q = Some sq -> ssl_handshakeCallback sq = true ->
                q <> p /\ sslHeap w !! q = Some sq) ->
  fizzHeap w' = fizzHeap w ->
  quiescent w'.
Proof.
  intros Hp Hc Hsub Hfz. split.
  - intros q tq Hq. rewrite Hfz in Hq.
    destruct (fz_handshakeCallback tq) eqn:Hcq; [|reflexivity].
    exfalso. exact (fizz_excludes_ssl _ _ _ _ Hq Hcq Hp Hc).
  - intros q sq Hq. destruct (ssl_handshakeCallback sq) eqn:Hcq; [|reflexivity].
    destruct (Hsub _ _ Hq Hcq) as [Hne Hq'].
    exfalso. apply Hne. exact (ssl_alone _ _ _ _ Hp Hc Hq' Hcq).
Qed.
End Invariant.

(** Dropping the observer of [p]: what is still flagged is an old engine
    other than [p]. *)
Lemma flagged_after_drop (fh : gmap ptr AsyncFizzServer) p t q tq :
  <[p:=fz_set_handshakeCallback false t]> fh !! q = Some tq ->
  fz_handshakeCallback tq = true -> q <> p /\ fh !! q = Some tq.
Proof.
  intros Hq Hc. destruct (decide (p = q)) as [->|Hne].
  - rewrite lookup_insert_eq in Hq. injection Hq as <-. discriminate.
  - rewrite lookup_insert_ne in Hq by exact Hne. split; [congruence | exact Hq].
Qed.

Lemma flagged_after_drop_ssl (sh : gmap ptr AsyncSSLSocket) p s q sq :
  <[p:=ssl_set_handshakeCallback false s]> sh !! q = Some sq ->
  ssl_handshakeCallback sq = true -> q <> p /\ sh !! q = Some sq.
Proof.
  intros Hq Hc. destruct (decide (p = q)) as [->|Hne].
  - rewrite lookup_insert_eq in Hq. injection Hq as <-. discriminate.
  - rewrite lookup_insert_ne in Hq by exact Hne. split; [congruence | exact Hq].
Qed.

Lemma exec_updFizz {A} p f (m : M A) w t :
  fizzHeap w !! p = Some t ->
  exec (updFizz p f ;> m) w = exec m (set_fizzHeap (<[p:=f t]> (fizzHeap w)) w).
Proof.
  intros Hp. cbv [exec bind updFizz derefFizz storeFizz modify].
  rewrite Hp. reflexivity.
Qed.

Lemma exec_updSSL {A} p f (m : M A) w s :
  sslHeap w !! p = Some s ->
  exec (updSSL p f ;> m) w = exec m (set_sslHeap (<[p:=f s]> (sslHeap w)) w).
Proof.
  intros Hp. cbv [exec bind updSSL derefSSL storeSSL modify].
  rewrite Hp. reflexivity.
Qed.

Lemma exec_updFizz_only p f w t :
  fizzHeap w !! p = Some t ->
  exec (updFizz p f) w = Some (set_fizzHeap (<[p:=f t]> (fizzHeap w)) w).
Proof.
  intros Hp. cbv [exec bind updFizz derefFizz storeFizz modify].
  rewrite Hp. reflexivity.
Qed.

Lemma exec_updSSL_only p f w s :
  sslHeap w !! p = Some s ->
  exec (updSSL p f) w = Some (set_sslHeap (<[p:=f s]> (sslHeap w)) w).
Proof.
  intros Hp. cbv [exec bind updSSL derefSSL storeSSL modify].
  rewrite Hp. reflexivity.
Qed.

(** ** A logging callback that throws *)

Lemma logger_returns_lc w h :
  this_ w = Some h -> logger_returns w = true -> lc_returns (loggingCallback_ h) = true.
Proof. unfold logger_returns. intros ->. auto. Qed.

(** A modern terminal notification delivered to a helper whose logging
    callback throws ends the run. *)
Lemma step_throws n w : observer_returns n w = false -> step n w = None.
Proof.
  unfold observer_returns, logger_returns. intros H.
  apply orb_false_iff in H as [Hn Hl]. apply negb_false_iff in Hn.
  destruct (this_ w) as [h|] eqn:Hh; [|discriminate].
  destruct (loggingCallback_ h) as [l|] eqn:Hlc; [|discriminate].
  cbn [lc_returns] in Hl. apply negb_false_iff in Hl.
  unfold step. destruct (enabled n w) eqn:He; [|reflexivity].
  destruct n; try discriminate; cbn [enabled deliver] in *.
  - destruct (fizz_awaiting_true _ _ He) as (t & Hp & _).
    rewrite (exec_updFizz _ _ _ _ _ Hp). unfold exec.
    rewrite (fizzHandshakeSuccess_throws
               (set_fizzHeap (<[p:=fz_set_handshakeCallback false t]> (fizzHeap w)) w)
               h p l Hh Hlc Hl). reflexivity.
  - destruct (fizz_awaiting_true _ _ He) as (t & Hp & _).
    rewrite (exec_updFizz _ _ _ _ _ Hp). unfold exec.
    rewrite (fizzHandshakeError_throws
               (set_fizzHeap (<[p:=fz_set_handshakeCallback false t]> (fizzHeap w)) w)
               h p ex l Hh Hlc Hl). reflexivity.
Qed.

Lemma step_returns n w w' : step n w = Some w' -> observer_returns n w = true.
Proof.
  intros Hs. destruct (observer_returns n w) eqn:H; [reflexivity|].
  rewrite (step_throws _ _ H) in Hs. discriminate.
Qed.

Lemma observer_returns_modern n w :
  is_modern_terminal n = true -> observer_returns n w = logger_returns w.
Proof. unfold observer_returns. intros ->. reflexivity. Qed.

Lemma observer_returns_other n w :
  is_modern_terminal n = false -> observer_returns n w = true.
Proof. unfold observer_returns. intros ->. reflexivity. Qed.

Ltac count_trace :=
  unfold completions in *;
  repeat match goal with
         | H : trace _ = _ |- _ => rewrite H
         end;
  rewrite ?count_app;
  repeat match goal with
         | |- context [match ?x with _ => _ end] => destruct x
         end;
  cbn [count is_completion is_create_ssl is_close is_log]; lia.

Lemma replay_balance_read k s : replay_balance (ssl_read k s) = replay_balance s.
Proof.
  unfold replay_balance, ssl_read, pending.
  cbn [ssl_rawBytesReceived ssl_wireBytesRead ssl_preReceivedData].
  destruct (ssl_preReceivedData s) as [pre|];
    cbn [fmap option_fmap option_map default id length];
    rewrite ?length_drop; lia.
Qed.

Lemma helper_const_same w w' : this_ w' = this_ w -> helper_const w w'.
Proof.
  intros H h' Hh'. rewrite H in Hh'. exists h'. repeat split; assumption.
Qed.

Lemma helper_const_trans w1 w2 w3 :
  helper_const w1 w2 -> helper_const w2 w3 -> helper_const w1 w3.
Proof.
  intros H12 H23 h3 Hh3.
  destruct (H23 _ Hh3) as (h2 & Hh2 & ? & ? & ? & ? & ?).
  destruct (H12 _ Hh2) as (h1 & Hh1 & ? & ? & ? & ? & ?).
  exists h1. repeat split; congruence.
Qed.

(** After a method whose last act is the completion callback, the helper
    is gone or differs in its engine pointers only. *)
Lemma helper_const_after w w' h (f : Helper -> Helper) (del : bool) :
  this_ w = Some h ->
  this_ w' = (if del then None else Some (f h)) ->
  acceptTime_ (f h) = acceptTime_ h -> sslError_ (f h) = sslError_ h ->
  loggingCallback_ (f h) = loggingCallback_ h ->
  callback_ (f h) = callback_ h -> sslContext_ (f h) = sslContext_ h ->
  helper_const w w'.
Proof.
  intros Hh Hthis H1 H2 H3 H4 H5 h' Hh'. rewrite Hthis in Hh'.
  destruct del; [discriminate|]. injection Hh' as <-.
  exists h. repeat split; assumption.
Qed.

Section Steps.
Variables (ctx : option SSLContext) (evb : EventBase) (fd : Z).
Variable w : World.
Hypothesis Hinv : session_inv ctx evb fd w.

Lemma step_env_post n w' :
  is_terminal n = false -> is_fallback n = false ->
  session_inv ctx evb fd w' ->
  this_ w' = this_ w -> trace w' = trace w -> tinfo w' = tinfo w ->
  (clock w <= clock w')%Z ->
  step_post ctx evb fd n w w'.
Proof.
  intros Ht Hf Hi H1 H2 H3 H4. unfold step_post. rewrite Ht, Hf, H2.
  split; [exact Hi|]. split; [lia|]. split; [lia|].
  split; [intros; congruence|]. split; [intros; auto|].
  split; [exact H4 | apply helper_const_same, H1].
Qed.

Lemma step_Tick d :
  exists w', step (Tick d) w = Some w' /\ step_post ctx evb fd (Tick d) w w'.
Proof.
  eexists. split; [reflexivity|].
  apply step_env_post; try reflexivity; [apply inv_tick, Hinv | cbn; lia].
Qed.

Lemma step_FizzIO p rx tx :
  fizz_awaiting p w = true ->
  exists w', step (FizzIO p rx tx) w = Some w' /\
             step_post ctx evb fd (FizzIO p rx tx) w w'.
Proof.
  intros He. destruct (fizz_awaiting_true _ _ He) as (t & Hp & Hc).
  eexists. split.
  - unfold step. cbn [enabled deliver]. rewrite He.
    apply (exec_updFizz_only _ _ _ _ Hp).
  - apply step_env_post; try reflexivity.
    eapply inv_upd_fizz; eauto.
Qed.

Lemma step_FizzNegotiated p a hl k :
  fizz_awaiting p w = true ->
  exists w', step (FizzNegotiated p a hl k) w = Some w' /\
             step_post ctx evb fd (FizzNegotiated p a hl k) w w'.
Proof.
  intros He. destruct (fizz_awaiting_true _ _ He) as (t & Hp & Hc).
  assert (Hi : session_inv ctx evb fd
                 (set_fizzHeap (<[p:=fz_negotiated a hl t]> (fizzHeap w)) w)).
  { eapply inv_upd_fizz; eauto. }
  unfold step. cbn [enabled deliver]. rewrite He.
  rewrite (exec_updFizz _ _ _ _ _ Hp).
  cbv [exec negotiateKeyParam bind derefFizz storeExt modify ret]. psimpl.
  rewrite lookup_insert_eq. cbn [fz_negotiated fz_extensions].
  destruct (fz_extensions t) as [e|]; cbv beta; psimpl;
    [destruct (extHeap w !! e) as [x|] eqn:Hx |];
    (eexists; split; [reflexivity|]);
    apply step_env_post; try reflexivity; try exact Hi.
  apply (inv_upd_ext _ _ _ _ Hi).
Qed.

Lemma step_FizzSuccess p :
  fizz_awaiting p w = true ->
  logger_returns w = true ->
  exists w', step (FizzSuccess p) w = Some w' /\
             step_post ctx evb fd (FizzSuccess p) w w'.
Proof.
  intros He Hlog. destruct (fizz_awaiting_true _ _ He) as (t & Hp & Hc).
  destruct (inv_fizz _ _ _ _ Hinv _ _ Hp Hc)
    as (h & cb & Hh & Htp & Hsp & Hcb & _).
  destruct (fizzHandshakeSuccess_run
              (set_fizzHeap (<[p:=fz_set_handshakeCallback false t]> (fizzHeap w)) w)
              h p (fz_set_handshakeCallback false t) cb)
    as (w' & Hrun & Hthis & Hfh & Hsh & Heh & Hck & Htr & _);
    psimpl; try assumption.
  { apply lookup_insert_eq. }
  { intros e He'. exact (inv_ext _ _ _ _ Hinv _ _ Hh He'). }
  { exact (logger_returns_lc _ _ Hh Hlog). }
  exists w'. split.
  - unfold step. cbn [enabled deliver]. rewrite He.
    rewrite (exec_updFizz _ _ _ _ _ Hp). unfold exec. rewrite Hrun. reflexivity.
  - assert (Hq : quiescent w').
    { eapply quiescent_after_fizz; eauto.
      intros q tq Hq. rewrite Hfh in Hq. eapply flagged_after_drop; eauto. }
    unfold step_post. cbn [is_terminal is_fallback].
    split; [|split; [|split; [|split; [|split; [|split]]]]].
    + apply quiescent_inv; [exact Hq|].
      intros h' e Hh' He'. rewrite Heh. rewrite Hthis in Hh'.
      destruct (cb_deletesHelper cb); [discriminate|]. injection Hh' as <-.
      exact (inv_ext _ _ _ _ Hinv _ _ Hh He').
    + count_trace.
    + count_trace.
    + intros _. exact Hq.
    + discriminate.
    + rewrite Hck. reflexivity.
    + apply (helper_const_after _ _ h (fun x => set_transport_ None x) (cb_deletesHelper cb));
        [exact Hh | exact Hthis | reflexivity..].
Qed.

Lemma step_FizzError p ex :
  fizz_awaiting p w = true ->
  logger_returns w = true ->
  exists w', step (FizzError p ex) w = Some w' /\
             step_post ctx evb fd (FizzError p ex) w w'.
Proof.
  intros He Hlog. destruct (fizz_awaiting_true _ _ He) as (t & Hp & Hc).
  destruct (inv_fizz _ _ _ _ Hinv _ _ Hp Hc)
    as (h & cb & Hh & Htp & Hsp & Hcb & _).
  destruct (fizzHandshakeError_run
              (set_fizzHeap (<[p:=fz_set_handshakeCallback false t]> (fizzHeap w)) w)
              h p (fz_set_handshakeCallback false t) cb ex)
    as (w' & Hrun & Hthis & Hti & Hfh & Hsh & Heh & Hck & Htr);
    psimpl; try assumption.
  { apply lookup_insert_eq. }
  { exact (logger_returns_lc _ _ Hh Hlog). }
  exists w'. split.
  - unfold step. cbn [enabled deliver]. rewrite He.
    rewrite (exec_updFizz _ _ _ _ _ Hp). unfold exec. rewrite Hrun. reflexivity.
  - assert (Hq : quiescent w').
    { eapply quiescent_after_fizz; eauto.
      intros q tq Hq Hcq. rewrite Hfh in Hq.
      destruct (cb_deletesHelper cb).
      - apply lookup_delete_Some in Hq as [Hne Hq].
        eapply flagged_after_drop; eauto.
      - eapply flagged_after_drop; eauto. }
    unfold step_post. cbn [is_terminal is_fallback].
    split; [|split; [|split; [|split; [|split; [|split]]]]].
    + apply quiescent_inv; [exact Hq|].
      intros h' e Hh' He'. rewrite Heh. rewrite Hthis in Hh'.
      destruct (cb_deletesHelper cb); [discriminate|]. injection Hh' as <-.
      exact (inv_ext _ _ _ _ Hinv _ _ Hh He').
    + count_trace.
    + count_trace.
    + intros _. exact Hq.
    + discriminate.
    + rewrite Hck. reflexivity.
    + apply (helper_const_after _ _ h (fun x => x) (cb_deletesHelper cb));
        [exact Hh | exact Hthis | reflexivity..].
Qed.

Lemma step_FizzFallback p hello :
  fizz_awaiting p w = true ->
  exists w', step (FizzFallback p hello) w = Some w' /\
             step_post ctx evb fd (FizzFallback p hello) w w' /\
             classic_engine w' =
               Some (mkAsyncSSLSocket ctx evb fd (Some hello) true true true
                                      EmptyString 0%N 0%N 0%N ssl_protocol_type) /\
             exists h, this_ w' = Some h /\ sslSocket_ h = Some (nextPtr w).
Proof.
  intros He. destruct (fizz_awaiting_true _ _ He) as (t & Hp & Hc).
  destruct (inv_fizz _ _ _ _ Hinv _ _ Hp Hc)
    as (h & cb & Hh & Htp & Hsp & Hcb & Hctx & Hevb & Hfd & Hcompl & Hcr).
  destruct (fizzHandshakeAttemptFallback_run
              (set_fizzHeap (<[p:=fz_set_handshakeCallback false t]> (fizzHeap w)) w)
              h p (fz_set_handshakeCallback false t) (Some hello))
    as (w' & Hrun & Hthis & Hti & Hfh & Hsh & Heh & Hck & Htr);
    psimpl; try assumption.
  { apply lookup_insert_eq. }
  unfold fallback_events in Htr.
  unfold fallback_socket in Hsh. cbn [fz_set_handshakeCallback fz_socket] in Hsh.
  rewrite Hctx, Hevb, Hfd in Hsh.
  exists w'. split; [|split; [|split]].
  - unfold step. cbn [enabled deliver]. rewrite He.
    rewrite (exec_updFizz _ _ _ _ _ Hp). unfold exec. rewrite Hrun. reflexivity.
  - unfold step_post. cbn [is_terminal is_fallback].
    split; [|split; [|split; [|split; [|split; [|split]]]]].
    + constructor.
      * intros q tq Hq Hcq. exfalso. rewrite Hfh in Hq.
        apply lookup_delete_Some in Hq as [Hne Hq].
        destruct (flagged_after_drop _ _ _ _ _ Hq Hcq) as [_ Hq'].
        apply Hne. symmetry. exact (fizz_alone _ _ _ _ Hinv _ _ _ _ Hp Hc Hq' Hcq).
      * intros q sq Hq Hcq. rewrite Hsh in Hq.
        destruct (decide (nextPtr w = q)) as [<-|Hne].
        -- rewrite lookup_insert_eq in Hq. injection Hq as <-.
           eexists. exists cb. split; [exact Hthis|]. psimpl.
           split; [reflexivity|]. split; [reflexivity|]. split; [exact Hcb|].
           split; [reflexivity|]. split; [reflexivity|]. split; [reflexivity|].
           split; [count_trace|].
           exists hello. split; [|unfold replay_balance, pending; cbn; lia].
           rewrite Htr. apply in_or_app. right. apply in_or_app. right.
           cbn. tauto.
        -- rewrite lookup_insert_ne in Hq by exact Hne.
           exfalso. exact (fizz_excludes_ssl _ _ _ _ Hinv _ _ _ _ Hp Hc Hq Hcq).
      * intros h' e Hh' He'. rewrite Heh. rewrite Hthis in Hh'.
        injection Hh' as <-. psimpl.
        exact (inv_ext _ _ _ _ Hinv _ _ Hh He').
      * intros q tq Hq Hcq. exfalso. rewrite Hfh in Hq.
        apply lookup_delete_Some in Hq as [Hne Hq].
        destruct (flagged_after_drop _ _ _ _ _ Hq Hcq) as [_ Hq'].
        apply Hne. symmetry. exact (fizz_alone _ _ _ _ Hinv _ _ _ _ Hp Hc Hq' Hcq).
      * intros q sq Hq Hcq. rewrite Hsh in Hq.
        destruct (decide (nextPtr w = q)) as [<-|Hne].
        -- rewrite lookup_insert_eq in Hq. injection Hq as <-. reflexivity.
        -- rewrite lookup_insert_ne in Hq by exact Hne.
           exfalso. exact (fizz_excludes_ssl _ _ _ _ Hinv _ _ _ _ Hp Hc Hq Hcq).
    + count_trace.
    + count_trace.
    + discriminate.
    + discriminate.
    + rewrite Hck. reflexivity.
    + apply (helper_const_after _ _ h
               (fun x => set_sslSocket_ (Some (nextPtr w)) (set_transport_ None x))
               false); [exact Hh | exact Hthis | reflexivity..].
  - unfold classic_engine. rewrite Hthis. psimpl. rewrite Hsh.
    apply lookup_insert_eq.
  - eexists. split; [exact Hthis | reflexivity].
Qed.

Lemma step_SslRead p k :
  ssl_awaiting p w = true ->
  exists w', step (SslRead p k) w = Some w' /\
             step_post ctx evb fd (SslRead p k) w w'.
Proof.
  intros He. destruct (ssl_awaiting_true _ _ He) as (s & Hp & Hc).
  eexists. split.
  - unfold step. cbn [enabled deliver]. rewrite He.
    apply (exec_updSSL_only _ _ _ _ Hp).
  - apply step_env_post; try reflexivity.
    eapply inv_upd_ssl; eauto. apply replay_balance_read.
Qed.

Lemma step_SslWrite p k :
  ssl_awaiting p w = true ->
  exists w', step (SslWrite p k) w = Some w' /\
             step_post ctx evb fd (SslWrite p k) w w'.
Proof.
  intros He. destruct (ssl_awaiting_true _ _ He) as (s & Hp & Hc).
  eexists. split.
  - unfold step. cbn [enabled deliver]. rewrite He.
    apply (exec_updSSL_only _ _ _ _ Hp).
  - apply step_env_post; try reflexivity.
    eapply inv_upd_ssl; eauto.
Qed.

Lemma step_SslNegotiated p a :
  ssl_awaiting p w = true ->
  exists w', step (SslNegotiated p a) w = Some w' /\
             step_post ctx evb fd (SslNegotiated p a) w w'.
Proof.
  intros He. destruct (ssl_awaiting_true _ _ He) as (s & Hp & Hc).
  eexists. split.
  - unfold step. cbn [enabled deliver]. rewrite He.
    apply (exec_updSSL_only _ _ _ _ Hp).
  - apply step_env_post; try reflexivity.
    eapply inv_upd_ssl; eauto.
Qed.

Lemma step_SslSuc p :
  ssl_awaiting p w = true ->
  exists w', step (SslSuc p) w = Some w' /\ step_post ctx evb fd (SslSuc p) w w'.
Proof.
  intros He. destruct (ssl_awaiting_true _ _ He) as (s & Hp & Hc).
  destruct (inv_ssl _ _ _ _ Hinv _ _ Hp Hc)
    as (h & cb & Hh & Hsp & Htp & Hcb & _).
  destruct (handshakeSuc_run
              (set_sslHeap (<[p:=ssl_set_handshakeCallback false s]> (sslHeap w)) w)
              h p (ssl_set_handshakeCallback false s) cb)
    as (w' & Hrun & Hthis & Hfh & Hsh & Heh & Hck & Htr & _);
    psimpl; try assumption.
  { apply lookup_insert_eq. }
  exists w'. split.
  - unfold step. cbn [enabled deliver]. rewrite He.
    rewrite (exec_updSSL _ _ _ _ _ Hp). unfold exec. rewrite Hrun. reflexivity.
  - assert (Hq : quiescent w').
    { eapply quiescent_after_ssl; eauto.
      intros q sq Hq. rewrite Hsh in Hq. eapply flagged_after_drop_ssl; eauto. }
    unfold step_post. cbn [is_terminal is_fallback].
    split; [|split; [|split; [|split; [|split; [|split]]]]].
    + apply quiescent_inv; [exact Hq|].
      intros h' e Hh' He'. rewrite Heh. rewrite Hthis in Hh'.
      destruct (cb_deletesHelper cb); [discriminate|]. injection Hh' as <-.
      exact (inv_ext _ _ _ _ Hinv _ _ Hh He').
    + count_trace.
    + count_trace.
    + intros _. exact Hq.
    + discriminate.
    + rewrite Hck. reflexivity.
    + apply (helper_const_after _ _ h (fun x => set_sslSocket_ None x) (cb_deletesHelper cb));
        [exact Hh | exact Hthis | reflexivity..].
Qed.

Lemma step_SslErr p ex :
  ssl_awaiting p w = true ->
  exists w', step (SslErr p ex) w = Some w' /\
             step_post ctx evb fd (SslErr p ex) w w'.
Proof.
  intros He. destruct (ssl_awaiting_true _ _ He) as (s & Hp & Hc).
  destruct (inv_ssl _ _ _ _ Hinv _ _ Hp Hc)
    as (h & cb & Hh & Hsp & Htp & Hcb & _).
  destruct (handshakeErr_run
              (set_sslHeap (<[p:=ssl_set_handshakeCallback false s]> (sslHeap w)) w)
              h p (ssl_set_handshakeCallback false s) cb ex)
    as (w' & Hrun & Hthis & Hti & Hfh & Hsh & Heh & Hck & Htr);
    psimpl; try assumption.
  { apply lookup_insert_eq. }
  exists w'. split.
  - unfold step. cbn [enabled deliver]. rewrite He.
    rewrite (exec_updSSL _ _ _ _ _ Hp). unfold exec. rewrite Hrun. reflexivity.
  - assert (Hq : quiescent w').
    { eapply quiescent_after_ssl; eauto.
      intros q sq Hq Hcq. rewrite Hsh in Hq.
      destruct (cb_deletesHelper cb).
      - apply lookup_delete_Some in Hq as [Hne Hq].
        eapply flagged_after_drop_ssl; eauto.
      - eapply flagged_after_drop_ssl; eauto. }
    unfold step_post. cbn [is_terminal is_fallback].
    split; [|split; [|split; [|split; [|split; [|split]]]]].
    + apply quiescent_inv; [exact Hq|].
      intros h' e Hh' He'. rewrite Heh. rewrite Hthis in Hh'.
      destruct (cb_deletesHelper cb); [discriminate|]. injection Hh' as <-.
      exact (inv_ext _ _ _ _ Hinv _ _ Hh He').
    + count_trace.
    + count_trace.
    + intros _. exact Hq.
    + discriminate.
    + rewrite Hck. reflexivity.
    + apply (helper_const_after _ _ h (fun x => x) (cb_deletesHelper cb));
        [exact Hh | exact Hthis | reflexivity..].
Qed.

(** Every notification an engine may send is handled without fault and
    keeps the invariant, unless it makes the helper call a logging callback
    that throws. *)
Lemma step_ok n :
  enabled n w = true ->
  observer_returns n w = true ->
  exists w', step n w = Some w' /\ step_post ctx evb fd n w w'.
Proof.
  destruct n; cbn [enabled]; intros He Hobs.
  - apply step_Tick.
  - apply step_FizzIO, He.
  - apply step_FizzNegotiated, He.
  - apply step_FizzSuccess; [exact He | exact Hobs].
  - apply step_FizzError; [exact He | exact Hobs].
  - destruct (step_FizzFallback p clientHello He) as (w' & H1 & H2 & _). eauto.
  - apply step_SslRead, He.
  - apply step_SslWrite, He.
  - apply step_SslNegotiated, He.
  - apply step_SslSuc, He.
  - apply step_SslErr, He.
Qed.
End Steps.

Lemma step_enabled n w w' : step n w = Some w' -> enabled n w = true.
Proof. unfold step. destruct (enabled n w); [reflexivity | discriminate]. Qed.

Lemma step_inv ctx evb fd n w w' :
  session_inv ctx evb fd w -> step n w = Some w' -> step_post ctx evb fd n w w'.
Proof.
  intros Hinv Hs.
  destruct (step_ok _ _ _ _ Hinv n (step_enabled _ _ _ Hs) (step_returns _ _ _ Hs))
    as (w'' & Hs' & Hp).
  congruence.
Qed.

(** ** Whole sessions *)

Lemma run_app a b w :
  run (a ++ b) w = match run a w with
                   | Some w1 => run b w1
                   | None => None
                   end.
Proof.
  revert w. induction a as [|n a IH]; intros w; cbn [run app]; [reflexivity|].
  destruct (step n w) as [w1|]; [apply IH | reflexivity].
Qed.

(** With nothing owed, only the clock moves. *)
Lemma step_quiescent n w w' :
  quiescent w -> step n w = Some w' ->
  is_tick n = true /\ quiescent w' /\
  this_ w' = this_ w /\ trace w' = trace w /\ tinfo w' = tinfo w /\
  fizzHeap w' = fizzHeap w /\ sslHeap w' = sslHeap w /\ (clock w <= clock w')%Z.
Proof.
  intros Hq Hs.
  pose proof (quiescent_enabled _ _ Hq (step_enabled _ _ _ Hs)) as Ht.
  destruct n; try discriminate.
  cbv [step enabled deliver exec modify] in Hs. injection Hs as <-. psimpl.
  split; [reflexivity|]. split; [exact Hq|].
  repeat split; try reflexivity. lia.
Qed.

Lemma run_quiescent ns : forall w w',
  quiescent w -> run ns w = Some w' ->
  forallb is_tick ns = true /\ terminal_count ns = 0 /\ quiescent w' /\
  this_ w' = this_ w /\ trace w' = trace w /\ tinfo w' = tinfo w /\
  fizzHeap w' = fizzHeap w /\ sslHeap w' = sslHeap w /\ (clock w <= clock w')%Z.
Proof.
  induction ns as [|n ns IH]; intros w w' Hq Hr; cbn [run] in Hr.
  - injection Hr as <-. split; [reflexivity|]. split; [reflexivity|].
    split; [exact Hq|]. repeat split; try reflexivity.
  - destruct (step n w) as [w1|] eqn:Hs; [|discriminate].
    destruct (step_quiescent _ _ _ Hq Hs) as (Ht & Hq1 & H1 & H2 & H3 & H4 & H5 & H6).
    destruct (IH _ _ Hq1 Hr) as (Hall & Htc & Hq' & H1' & H2' & H3' & H4' & H5' & H6').
    cbn [forallb terminal_count]. rewrite Ht, Hall.
    destruct n; try discriminate. cbn [is_terminal].
    split; [reflexivity|]. split; [exact Htc|]. split; [exact Hq'|].
    repeat split; try congruence. lia.
Qed.

Lemma run_ok ctx evb fd ns : forall w w',
  session_inv ctx evb fd w -> run ns w = Some w' ->
  session_inv ctx evb fd w' /\
  completions (trace w') = completions (trace w) + terminal_count ns /\
  terminal_count ns <= 1 /\
  (terminal_count ns = 1 -> quiescent w') /\
  count is_create_ssl (trace w) <= count is_create_ssl (trace w') /\
  (clock w <= clock w')%Z /\
  helper_const w w'.
Proof.
  induction ns as [|n ns IH]; intros w w' Hinv Hr; cbn [run] in Hr.
  - injection Hr as <-. cbn [terminal_count].
    split; [exact Hinv|]. split; [lia|]. split; [lia|]. split; [discriminate|].
    split; [lia|]. split; [lia|]. apply helper_const_same. reflexivity.
  - destruct (step n w) as [w1|] eqn:Hs; [|discriminate].
    destruct (step_inv _ _ _ _ _ _ Hinv Hs) as (Hi1 & Hc1 & Hcr1 & Hq1 & _ & Hck1 & Hhc1).
    cbn [terminal_count].
    destruct (is_terminal n) eqn:Hterm.
    + specialize (Hq1 eq_refl).
      destruct (run_quiescent _ _ _ Hq1 Hr)
        as (_ & Htc & Hq' & Hth & Htr & _ & _ & _ & Hck').
      rewrite Htc, Htr.
      split; [|split; [|split; [|split; [|split; [|split]]]]];
        try lia; try (intros; assumption).
      * apply quiescent_inv; [exact Hq'|].
        destruct (IH _ _ Hi1 Hr) as (Hi' & _). exact (inv_ext _ _ _ _ Hi').
      * eapply helper_const_trans; [exact Hhc1 | apply helper_const_same, Hth].
    + destruct (IH _ _ Hi1 Hr) as (Hi' & Hc' & Hle & Hq' & Hcr' & Hck' & Hhc').
      split; [|split; [|split; [|split; [|split; [|split]]]]];
        try assumption; try lia.
      eapply helper_const_trans; eassumption.
Qed.

Lemma initial_spec sock w :
  initial sock w = true ->
  exists h s,
    this_ w = Some h /\ sslHeap w !! sock = Some s /\
    transport_ h = None /\ sslSocket_ h = None /\
    (forall e, extension_ h = Some e -> is_Some (extHeap w !! e)) /\
    quiescent w /\ trace w = [].
Proof.
  unfold initial. destruct (this_ w) as [h|]; [|discriminate].
  intros H.
  apply andb_true_iff in H as [H Htr].
  apply andb_true_iff in H as [H Hq].
  apply andb_true_iff in H as [H Hext].
  apply andb_true_iff in H as [H Hsock].
  apply andb_true_iff in H as [Htp Hsp].
  apply bool_decide_eq_true_1 in Htp, Hsp, Hsock.
  destruct Hsock as [s Hs].
  exists h, s.
  split; [reflexivity|]. split; [exact Hs|]. split; [exact Htp|].
  split; [exact Hsp|]. split; [|split].
  - intros e He. rewrite He in Hext. apply bool_decide_eq_true_1 in Hext. exact Hext.
  - apply quiescentb_spec, Hq.
  - destruct (trace w); [reflexivity | discriminate].
Qed.

Lemma start_ok sock cb w :
  initial sock w = true ->
  exists h s w1 q,
    this_ w = Some h /\ sslHeap w !! sock = Some s /\
    exec (start sock cb) w = Some w1 /\
    session_inv (ssl_ctx s) (ssl_evb s) (ssl_fd s) w1 /\
    (exists a e, trace w1 = [EvCacheAddresses; EvCreateFizzServer q a (context_ h) e;
                             EvFizzAccept q]) /\
    fizz_awaiting q w1 = true /\
    tinfo w1 = tinfo w /\ clock w1 = clock w /\
    exists h1, this_ w1 = Some h1 /\ callback_ h1 = Some cb /\
               sslContext_ h1 = ssl_ctx s /\
               acceptTime_ h1 = acceptTime_ h /\ sslError_ h1 = sslError_ h /\
               loggingCallback_ h1 = loggingCallback_ h.
Proof.
  intros Hinit.
  destruct (initial_spec _ _ Hinit) as (h & s & Hh & Hs & Htp & Hsp & Hext & [Hqf Hqs] & Htr).
  destruct (start_run w h sock s cb Hh Hs Htp)
    as (w1 & q & Hrun & Hthis & Hti & Hfh & Hsh & Heh & Hck & Htr1).
  exists h, s, w1, q. split; [exact Hh|]. split; [exact Hs|].
  split; [unfold exec; rewrite Hrun; reflexivity|].
  rewrite Htr in Htr1. cbn [app] in Htr1.
  split; [|split; [eexists; eexists; exact Htr1
                  |split; [|split; [exact Hti|split; [exact Hck|]]]]].
  - constructor.
    + intros p t Hp Hc. rewrite Hfh in Hp.
      destruct (decide (q = p)) as [<-|Hne].
      * rewrite lookup_insert_eq in Hp. injection Hp as <-.
        eexists. exists cb. split; [exact Hthis|]. psimpl.
        rewrite Htr1. repeat split; try assumption; reflexivity.
      * rewrite lookup_insert_ne in Hp by exact Hne.
        rewrite (Hqf _ _ Hp) in Hc. discriminate.
    + intros p s' Hp Hc. rewrite Hsh in Hp.
      apply lookup_delete_Some in Hp as [_ Hp].
      rewrite (Hqs _ _ Hp) in Hc. discriminate.
    + intros h1 e Hh1 He. rewrite Hthis in Hh1. injection Hh1 as <-.
      psimpl. rewrite Heh.
      destruct (tokenBindingContext_ h) as [c|].
      * injection He as <-. rewrite lookup_insert_eq. eauto.
      * apply Hext, He.
    + intros p t Hp Hc. rewrite Hfh in Hp.
      destruct (decide (q = p)) as [<-|Hne].
      * rewrite lookup_insert_eq in Hp. injection Hp as <-. reflexivity.
      * rewrite lookup_insert_ne in Hp by exact Hne.
        rewrite (Hqf _ _ Hp) in Hc. discriminate.
    + intros p s' Hp Hc. rewrite Hsh in Hp.
      apply lookup_delete_Some in Hp as [_ Hp].
      rewrite (Hqs _ _ Hp) in Hc. discriminate.
  - unfold fizz_awaiting. rewrite Hfh, lookup_insert_eq. reflexivity.
  - eexists. split; [exact Hthis|]. psimpl. repeat split.
Qed.

(** ** What the four terminal notifications leave behind *)

Lemma step_deliver n w w' :
  step n w = Some w' -> enabled n w = true /\ exec (deliver n) w = Some w'.
Proof.
  unfold step. destruct (enabled n w); [auto | discriminate].
Qed.

Section Results.
Variables (ctx : option SSLContext) (evb : EventBase) (fd : Z).
Variable w : World.
Hypothesis Hinv : session_inv ctx evb fd w.

Lemma FizzSuccess_result p w' :
  step (FizzSuccess p) w = Some w' ->
  exists h t cb,
    this_ w = Some h /\ fizzHeap w !! p = Some t /\ callback_ h = Some cb /\
    transport_ h = Some p /\ sslSocket_ h = None /\
    this_ w' = (if cb_deletesHelper cb then None else Some (set_transport_ None h)) /\
    trace w' = trace w
      ++ match loggingCallback_ h with
         | Some l => [EvLogFizzHandshakeSuccess l p]
         | None => []
         end
      ++ (if (3 <=? vlogLevel w)%nat then [EvVlog VFizzHandshakeSuccess] else [])
      ++ [EvConnectionReady cb (Some (FizzT p)) (fz_appProto t) TLS NO_ERROR] /\
    acceptTime (tinfo w') = acceptTime_ h /\
    secure (tinfo w') = true /\
    securityType (tinfo w') = AsyncFizzServer_getSecurityProtocol t /\
    sslSetupTime (tinfo w') = duration_cast_ms (int64 (clock w - acceptTime_ h)) /\
    completions (trace w) = 0.
Proof.
  intros Hs. destruct (step_deliver _ _ _ Hs) as [He Hd]. cbn [enabled deliver] in *.
  destruct (fizz_awaiting_true _ _ He) as (t & Hp & Hc).
  destruct (inv_fizz _ _ _ _ Hinv _ _ Hp Hc)
    as (h & cb & Hh & Htp & Hsp & Hcb & _ & _ & _ & Hzero & _).
  destruct (fizzHandshakeSuccess_run
              (set_fizzHeap (<[p:=fz_set_handshakeCallback false t]> (fizzHeap w)) w)
              h p (fz_set_handshakeCallback false t) cb)
    as (w2 & Hrun & Hthis & Hfh & Hsh & Heh & Hck & Htr & Ha & Hb & Hty & Hst);
    psimpl; try assumption.
  { apply lookup_insert_eq. }
  { intros e He'. exact (inv_ext _ _ _ _ Hinv _ _ Hh He'). }
  { exact (logger_returns_lc _ _ Hh (step_returns _ _ _ Hs)). }
  rewrite (exec_updFizz _ _ _ _ _ Hp) in Hd. unfold exec in Hd. rewrite Hrun in Hd.
  injection Hd as <-.
  exists h, t, cb. rewrite Htp in Htr. cbn [fz_set_handshakeCallback fz_appProto] in Htr.
  repeat split; assumption.
Qed.

Lemma FizzError_result p ex w' :
  step (FizzError p ex) w = Some w' ->
  exists h t cb,
    this_ w = Some h /\ fizzHeap w !! p = Some t /\ callback_ h = Some cb /\
    transport_ h = Some p /\ sslSocket_ h = None /\
    this_ w' = (if cb_deletesHelper cb then None else Some h) /\
    tinfo w' = tinfo w /\ sslHeap w' = sslHeap w /\
    trace w' = trace w
      ++ match loggingCallback_ h with
         | Some l => [EvLogFizzHandshakeError l p ex]
         | None => []
         end
      ++ (if (3 <=? vlogLevel w)%nat
          then [EvVlog (VFizzHandshakeError
                          (duration_cast_ms (int64 (clock w - acceptTime_ h)))
                          (fz_rawBytesReceived t) (fz_rawBytesWritten t) (what ex))]
          else [])
      ++ [EvConnectionError cb (Some (FizzT p))
            (FizzHandshakeException (sslError_ h)
               (duration_cast_ms (int64 (clock w - acceptTime_ h))) (fz_rawBytesReceived t))
            (sslError_ h)]
      ++ (if cb_deletesHelper cb && negb (as_fd (fz_socket t) =? NO_FD)%Z
          then [EvCloseFd (as_fd (fz_socket t))]
          else []) /\
    completions (trace w) = 0 /\ count is_create_ssl (trace w) = 0.
Proof.
  intros Hs. destruct (step_deliver _ _ _ Hs) as [He Hd]. cbn [enabled deliver] in *.
  destruct (fizz_awaiting_true _ _ He) as (t & Hp & Hc).
  destruct (inv_fizz _ _ _ _ Hinv _ _ Hp Hc)
    as (h & cb & Hh & Htp & Hsp & Hcb & _ & _ & _ & Hzero & Hnocreate).
  destruct (fizzHandshakeError_run
              (set_fizzHeap (<[p:=fz_set_handshakeCallback false t]> (fizzHeap w)) w)
              h p (fz_set_handshakeCallback false t) cb ex)
    as (w2 & Hrun & Hthis & Hti & Hfh & Hsh & Heh & Hck & Htr);
    psimpl; try assumption.
  { apply lookup_insert_eq. }
  { exact (logger_returns_lc _ _ Hh (step_returns _ _ _ Hs)). }
  rewrite (exec_updFizz _ _ _ _ _ Hp) in Hd. unfold exec in Hd. rewrite Hrun in Hd.
  injection Hd as <-.
  exists h, t, cb.
  cbn [fz_set_handshakeCallback fz_rawBytesReceived fz_rawBytesWritten fz_socket] in Htr.
  repeat split; assumption.
Qed.

Lemma SslSuc_result p w' :
  step (SslSuc p) w = Some w' ->
  exists h s cb,
    this_ w = Some h /\ sslHeap w !! p = Some s /\ callback_ h = Some cb /\
    sslSocket_ h = Some p /\ transport_ h = None /\
    this_ w' = (if cb_deletesHelper cb then None else Some (set_sslSocket_ None h)) /\
    trace w' = trace w
      ++ (if (3 <=? vlogLevel w)%nat
          then [EvVlog (if negb (String.eqb (ssl_appProto s) EmptyString)
                        then VClientSelectedNextProtocol (ssl_appProto s)
                        else VClientDidNotSelect)]
          else [])
      ++ [EvConnectionReady cb (Some (SslT p)) (ssl_appProto s) TLS NO_ERROR] /\
    acceptTime (tinfo w') = acceptTime_ h /\
    secure (tinfo w') = true /\
    securityType (tinfo w') = AsyncSSLSocket_getSecurityProtocol s /\
    sslSetupTime (tinfo w') = duration_cast_ms (int64 (clock w - acceptTime_ h)) /\
    completions (trace w) = 0.
Proof.
  intros Hs. destruct (step_deliver _ _ _ Hs) as [He Hd]. cbn [enabled deliver] in *.
  destruct (ssl_awaiting_true _ _ He) as (s & Hp & Hc).
  destruct (inv_ssl _ _ _ _ Hinv _ _ Hp Hc)
    as (h & cb & Hh & Hsp & Htp & Hcb & _ & _ & _ & Hzero & _).
  destruct (handshakeSuc_run
              (set_sslHeap (<[p:=ssl_set_handshakeCallback false s]> (sslHeap w)) w)
              h p (ssl_set_handshakeCallback false s) cb)
    as (w2 & Hrun & Hthis & Hfh & Hsh & Heh & Hck & Htr & Hti);
    psimpl; try assumption.
  { apply lookup_insert_eq. }
  rewrite (exec_updSSL _ _ _ _ _ Hp) in Hd. unfold exec in Hd. rewrite Hrun in Hd.
  injection Hd as <-.
  exists h, s, cb. rewrite Hsp in Htr.
  cbn [ssl_set_handshakeCallback ssl_appProto] in Htr.
  rewrite Hti. psimpl.
  repeat split; assumption.
Qed.

Lemma SslErr_result p ex w' :
  step (SslErr p ex) w = Some w' ->
  exists h s cb,
    this_ w = Some h /\ sslHeap w !! p = Some s /\ callback_ h = Some cb /\
    sslSocket_ h = Some p /\ transport_ h = None /\
    this_ w' = (if cb_deletesHelper cb then None else Some h) /\
    tinfo w' = tinfo w /\
    trace w' = trace w
      ++ (if (3 <=? vlogLevel w)%nat
          then [EvVlog (VSSLHandshakeError
                          (duration_cast_ms (int64 (clock w - acceptTime_ h)))
                          (ssl_rawBytesReceived s) (ssl_rawBytesWritten s) (what ex))]
          else [])
      ++ [EvConnectionError cb (Some (SslT p))
            (SSLException (sslError_ h)
               (duration_cast_ms (int64 (clock w - acceptTime_ h))) (ssl_rawBytesReceived s))
            (sslError_ h)]
      ++ (if cb_deletesHelper cb && negb (ssl_fd s =? NO_FD)%Z
          then [EvCloseFd (ssl_fd s)]
          else []) /\
    completions (trace w) = 0 /\
    exists hello,
      In (EvSetPreReceivedData p (Some hello)) (trace w) /\
      replay_balance s = Z.of_nat (length hello).
Proof.
  intros Hs. destruct (step_deliver _ _ _ Hs) as [He Hd]. cbn [enabled deliver] in *.
  destruct (ssl_awaiting_true _ _ He) as (s & Hp & Hc).
  destruct (inv_ssl _ _ _ _ Hinv _ _ Hp Hc)
    as (h & cb & Hh & Hsp & Htp & Hcb & _ & _ & _ & Hzero & Hreplay).
  destruct (handshakeErr_run
              (set_sslHeap (<[p:=ssl_set_handshakeCallback false s]> (sslHeap w)) w)
              h p (ssl_set_handshakeCallback false s) cb ex)
    as (w2 & Hrun & Hthis & Hti & Hfh & Hsh & Heh & Hck & Htr);
    psimpl; try assumption.
  { apply lookup_insert_eq. }
  rewrite (exec_updSSL _ _ _ _ _ Hp) in Hd. unfold exec in Hd. rewrite Hrun in Hd.
  injection Hd as <-.
  exists h, s, cb.
  cbn [ssl_set_handshakeCallback ssl_rawBytesReceived ssl_rawBytesWritten ssl_fd] in Htr.
  repeat split; assumption.
Qed.
End Results.

(** A session, seen from its end. *)
Lemma session_reach sock cb ns w0 w' :
  initial sock w0 = true ->
  session sock cb ns w0 = Some w' ->
  exists h0 s0,
    this_ w0 = Some h0 /\ sslHeap w0 !! sock = Some s0 /\
    session_inv (ssl_ctx s0) (ssl_evb s0) (ssl_fd s0) w' /\
    completions (trace w') = terminal_count ns /\
    terminal_count ns <= 1 /\
    (terminal_count ns = 1 -> quiescent w') /\
    (clock w0 <= clock w')%Z /\
    (forall h', this_ w' = Some h' ->
                callback_ h' = Some cb /\ sslContext_ h' = ssl_ctx s0 /\
                acceptTime_ h' = acceptTime_ h0 /\ sslError_ h' = sslError_ h0 /\
                loggingCallback_ h' = loggingCallback_ h0).
Proof.
  intros Hinit Hses. unfold session in Hses.
  destruct (start_ok sock cb w0 Hinit)
    as (h0 & s0 & w1 & q & Hh0 & Hs0 & Hstart & Hinv & (a0 & e0 & Htr) & Haw & Hti & Hck
        & h1 & Hh1 & Hcb1 & Hctx1 & Hat1 & Her1 & Hlc1).
  rewrite Hstart in Hses.
  destruct (run_ok _ _ _ _ _ _ Hinv Hses) as (Hi' & Hc' & Hle & Hq' & _ & Hck' & Hhc).
  exists h0, s0. rewrite Htr in Hc'. cbn in Hc'.
  split; [exact Hh0|]. split; [exact Hs0|]. split; [exact Hi'|].
  split; [exact Hc'|]. split; [exact Hle|]. split; [exact Hq'|].
  split; [lia|].
  intros h' Hh'. destruct (Hhc _ Hh') as (h & Hh & ? & ? & ? & ? & ?).
  rewrite Hh1 in Hh. injection Hh as <-.
  repeat split; congruence.
Qed.

Lemma session_snoc sock cb ns n w0 w' :
  session sock cb (ns ++ [n]) w0 = Some w' ->
  exists w1, session sock cb ns w0 = Some w1 /\ step n w1 = Some w'.
Proof.
  unfold session. destruct (exec (start sock cb) w0) as [ws|]; [|discriminate].
  rewrite run_app. destruct (run ns ws) as [w1|]; [|discriminate].
  cbn [run]. destruct (step n w1) as [w2|] eqn:Hs; [|discriminate].
  intros H. injection H as <-. eauto.
Qed.

Lemma modern_pending_spec p w :
  modern_pending p w = true ->
  exists h t cb,
    this_ w = Some h /\ transport_ h = Some p /\ sslSocket_ h = None /\
    callback_ h = Some cb /\ fizzHeap w !! p = Some t /\
    (forall e, extension_ h = Some e -> is_Some (extHeap w !! e)).
Proof.
  unfold modern_pending. destruct (this_ w) as [h|]; [|discriminate].
  intros H.
  apply andb_true_iff in H as [H Hext].
  apply andb_true_iff in H as [H Hheap].
  apply andb_true_iff in H as [H Hcb].
  apply andb_true_iff in H as [Htp Hsp].
  apply bool_decide_eq_true_1 in Htp, Hsp, Hcb, Hheap.
  destruct Hcb as [cb Hcb]. destruct Hheap as [t Ht].
  exists h, t, cb. repeat split; try assumption.
  intros e He. rewrite He in Hext. apply bool_decide_eq_true_1 in Hext. exact Hext.
Qed.

Lemma classic_pending_spec p w :
  classic_pending p w = true ->
  exists h s cb,
    this_ w = Some h /\ sslSocket_ h = Some p /\ transport_ h = None /\
    callback_ h = Some cb /\ sslHeap w !! p = Some s.
Proof.
  unfold classic_pending. destruct (this_ w) as [h|]; [|discriminate].
  intros H.
  apply andb_true_iff in H as [H Hheap].
  apply andb_true_iff in H as [H Hcb].
  apply andb_true_iff in H as [Hsp Htp].
  apply bool_decide_eq_true_1 in Htp, Hsp, Hcb, Hheap.
  destruct Hcb as [cb Hcb]. destruct Hheap as [s Hs].
  exists h, s, cb. repeat split; assumption.
Qed.

Lemma completion_events_app a b :
  completion_events (a ++ b) = completion_events a ++ completion_events b.
Proof.
  induction a as [|e a IH]; cbn [app completion_events]; [reflexivity|].
  destruct (is_completion e); cbn [app]; rewrite IH; reflexivity.
Qed.

Lemma completion_events_none tr :
  completions tr = 0 -> completion_events tr = [].
Proof.
  unfold completions. induction tr as [|e tr IH]; cbn [count completion_events];
    [reflexivity|].
  destruct (is_completion e); [discriminate | exact IH].
Qed.

(** ** The completion callback fires exactly once *)

(** C1. In every session, the number of completion calls
    ([connectionReady] or [connectionError]) equals the number of terminal
    notifications delivered, which is at most one; every notification an
    engine may still send is handled without fault and adds one completion
    call exactly when it is one of the four terminal ones, unless it makes
    the helper call a logging callback that throws, in which case the run
    ends there; and once the terminal notification has been handled nothing
    but the clock can move: the helper, the trace and the [TransportInfo]
    stay as they are. *)
Theorem completion_exactly_once sock cb ns w0 w' :
  initial sock w0 = true ->
  session sock cb ns w0 = Some w' ->
  completions (trace w') = terminal_count ns /\
  terminal_count ns <= 1 /\
  (forall n, enabled n w' = true -> observer_returns n w' = true ->
     exists w'', step n w' = Some w'' /\
       completions (trace w'') =
         completions (trace w') + (if is_terminal n then 1 else 0)) /\
  (forall n, observer_returns n w' = false -> step n w' = None) /\
  (terminal_count ns = 1 ->
     forall n w'', step n w' = Some w'' ->
       is_tick n = true /\ this_ w'' = this_ w' /\ trace w'' = trace w' /\
       tinfo w'' = tinfo w').
Proof.
  intros Hinit Hses.
  destruct (session_reach _ _ _ _ _ Hinit Hses)
    as (h0 & s0 & _ & _ & Hinv & Hc & Hle & Hq & _).
  split; [exact Hc|]. split; [exact Hle|]. split; [|split].
  - intros n He Hobs.
    destruct (step_ok _ _ _ _ Hinv n He Hobs) as (w'' & Hs & _ & Hc'' & _).
    eauto.
  - intros n. apply step_throws.
  - intros Hone n w'' Hs.
    destruct (step_quiescent _ _ _ (Hq Hone) Hs) as (Ht & _ & H1 & H2 & H3 & _).
    auto.
Qed.

Lemma completion_exactly_once_witness :
  initial sock1 (sample_world None) = true /\
  session sock1 sample_callback (fallback_script ++ [SslSuc ssl3]) (sample_world None)
    = Some (sample_run None (fallback_script ++ [SslSuc ssl3])) /\
  completions (trace (sample_run None (fallback_script ++ [SslSuc ssl3]))) = 1.
Proof.
  assert (H1 : initial sock1 (sample_world None) = true) by (vm_compute; reflexivity).
  assert (H2 : session sock1 sample_callback (fallback_script ++ [SslSuc ssl3])
                 (sample_world None)
               = Some (sample_run None (fallback_script ++ [SslSuc ssl3])))
    by (vm_compute; reflexivity).
  split; [exact H1|]. split; [exact H2|].
  exact (proj1 (completion_exactly_once _ _ _ _ _ H1 H2)).
Defined.

(** ** The fallback hands the bytes over *)

(** C2. When the fallback is called with a buffer, the classic socket it
    leaves behind has exactly that buffer as pre-received data: the same
    bytes in the same order.  [setPreReceivedData] is called once, with that
    buffer, before [sslAccept]; and an engine that then takes [n] bytes of
    input takes them from the buffer first: nothing comes from the
    descriptor until the buffer is used up. *)
Theorem fallback_replays_buffer w p hello :
  modern_pending p w = true ->
  exists w' q s pre,
    exec (fizzHandshakeAttemptFallback (Some hello)) w = Some w' /\
    classic_engine w' = Some s /\
    ssl_preReceivedData s = Some hello /\
    trace w' = trace w ++ pre
      ++ [EvSetPreReceivedData q (Some hello); EvEnableClientHelloParsing q;
          EvForceCacheAddrOnFailure q true; EvSslAccept q] /\
    count is_replay pre = 0 /\ count is_ssl_accept pre = 0 /\
    (forall n, n <= length hello ->
       pending (ssl_read n s) = drop n hello /\
       ssl_wireBytesRead (ssl_read n s) = 0%N) /\
    (forall n,
       ssl_rawBytesReceived (ssl_read n s) = N.of_nat n /\
       ssl_wireBytesRead (ssl_read n s) = N.of_nat (n - length hello)).
Proof.
  intros Hpend.
  destruct (modern_pending_spec _ _ Hpend) as (h & t & cb & Hh & Htp & Hsp & _ & Ht & _).
  destruct (fizzHandshakeAttemptFallback_run w h p t (Some hello) Hh Htp Hsp Ht)
    as (w' & Hrun & Hthis & _ & _ & Hsh & _ & _ & Htr).
  exists w', (nextPtr w), (fallback_socket h t (Some hello)),
    ((if (3 <=? vlogLevel w)%nat then [EvVlog VFallbackToOpenSSL] else [])
       ++ [EvDetachNetworkSocket p (as_fd (fz_socket t));
           EvCreateSSLSocket (nextPtr w) (sslContext_ h) (as_evb (fz_socket t))
                             (as_fd (fz_socket t))]).
  split; [unfold exec; rewrite Hrun; reflexivity|].
  split; [unfold classic_engine; rewrite Hthis; psimpl; rewrite Hsh;
          apply lookup_insert_eq|].
  split; [reflexivity|].
  split; [rewrite Htr; unfold fallback_events; rewrite <- !app_assoc; reflexivity|].
  split; [rewrite count_app; destruct (3 <=? vlogLevel w)%nat; reflexivity|].
  split; [rewrite count_app; destruct (3 <=? vlogLevel w)%nat; reflexivity|].
  split.
  - intros n Hn. unfold ssl_read, pending, fallback_socket. psimpl.
    split; [reflexivity|]. cbn [default id].
    replace (n - length hello) with 0 by lia. reflexivity.
  - intros n. unfold ssl_read, pending, fallback_socket. psimpl. cbn [default id].
    split; [lia | reflexivity].
Qed.

Lemma fallback_replays_buffer_witness :
  modern_pending fizz2 (sample_run None modern_script) = true /\
  exists w' s,
    exec (fizzHandshakeAttemptFallback (Some sample_hello))
         (sample_run None modern_script) = Some w' /\
    classic_engine w' = Some s /\
    ssl_preReceivedData s = Some sample_hello.
Proof.
  assert (H : modern_pending fizz2 (sample_run None modern_script) = true)
    by (vm_compute; reflexivity).
  split; [exact H|].
  destruct (fallback_replays_buffer _ _ sample_hello H)
    as (w' & q & s & pre & H1 & H2 & H3 & _).
  exists w', s. repeat split; assumption.
Defined.

(** ** The fallback hands the descriptor over *)

(** C3, as stated, fails between the detach and [createSSLSocket]: in the
    sample session the modern engine holds descriptor 7, and after the third
    statement of the fallback the modern engine has given it up while no
    classic socket exists yet, so it is not true that one of the two engines
    holds it after every statement. *)
Lemma descriptor_between_engines :
  modern_owns 7 (sample_run None modern_script) = true /\
  ~ (forall k l w',
       k <= 9 ->
       fallback_upto k (Some sample_hello) (sample_run None modern_script)
         = Some (l, w') ->
       one_engine_owns 7 w' = true).
Proof.
  split; [vm_compute; reflexivity|].
  intros H.
  assert (Hrun : exists l w',
             fallback_upto 3 (Some sample_hello) (sample_run None modern_script)
               = Some (l, w') /\ one_engine_owns 7 w' = false).
  { eexists. eexists. split; vm_compute; reflexivity. }
  destruct Hrun as (l & w' & Hrun & Hnone).
  rewrite (H 3 l w' ltac:(lia) Hrun) in Hnone. discriminate.
Qed.

(** C3, amended.  Through the fallback the descriptor keeps its value and
    is never closed.  It is held by the modern engine up to the detach, by
    the local variable [fd] alone from the detach until [createSSLSocket]
    (the modern engine is destroyed in between), and by the classic socket,
    constructed with that very value, from then on; never by both engines. *)
Theorem fallback_moves_descriptor w p hello fd k :
  modern_pending p w = true ->
  modern_owns fd w = true ->
  fd <> NO_FD ->
  k <= 9 ->
  exists l w',
    fallback_upto k hello w = Some (l, w') /\
    count is_close (trace w') = count is_close (trace w) /\
    modern_owns fd w' && classic_owns fd w' = false /\
    (k <= 2 ->
       modern_owns fd w' = true /\ classic_owns fd w' = false /\ l_fd l = None) /\
    (3 <= k <= 4 ->
       modern_owns fd w' = false /\ classic_owns fd w' = false /\ l_fd l = Some fd) /\
    (4 <= k -> fizzHeap w' !! p = None) /\
    (5 <= k ->
       modern_owns fd w' = false /\ classic_owns fd w' = true /\
       exists s, classic_engine w' = Some s /\ ssl_fd s = fd /\
                 count is_create_ssl (trace w') = S (count is_create_ssl (trace w))).
Proof.
  intros Hpend Hown Hne Hk.
  destruct (modern_pending_spec _ _ Hpend) as (h & t & cb & Hh & Htp & Hsp & _ & Ht & _).
  assert (Hfd : as_fd (fz_socket t) = fd).
  { unfold modern_owns, modern_engine in Hown. rewrite Hh, Htp, Ht in Hown.
    apply Z.eqb_eq, Hown. }
  destruct (fallback_upto_run w h p t hello fd k Hh Htp Hsp Ht Hfd Hne Hk)
    as (l & w' & Hrun & Hcl & H02 & H34 & H4 & H5).
  exists l, w'. split; [exact Hrun|]. split; [exact Hcl|].
  split; [|split; [exact H02|split; [exact H34|split; [exact H4|]]]].
  - destruct (le_lt_dec k 2) as [Hle|Hgt].
    + destruct (H02 Hle) as (_ & -> & _). apply andb_false_r.
    + destruct (le_lt_dec k 4) as [Hle4|Hgt4].
      * destruct H34 as (-> & _); [lia | reflexivity].
      * destruct H5 as (-> & _); [lia | reflexivity].
  - intros H. destruct (H5 H) as (H5a & H5b & q & s & Hs & Hsfd & Hcnt & _).
    split; [exact H5a|]. split; [exact H5b|]. exists s. auto.
Qed.

Lemma fallback_moves_descriptor_witness :
  modern_pending fizz2 (sample_run None modern_script) = true /\
  modern_owns 7 (sample_run None modern_script) = true /\
  7%Z <> NO_FD /\ 9 <= 9 /\
  exists l w',
    fallback_upto 9 (Some sample_hello) (sample_run None modern_script)
      = Some (l, w') /\
    classic_owns 7 w' = true.
Proof.
  assert (H1 : modern_pending fizz2 (sample_run None modern_script) = true)
    by (vm_compute; reflexivity).
  assert (H2 : modern_owns 7 (sample_run None modern_script) = true)
    by (vm_compute; reflexivity).
  assert (H3 : 7%Z <> NO_FD) by (unfold NO_FD; lia).
  assert (H4 : 9 <= 9) by lia.
  split; [exact H1|]. split; [exact H2|]. split; [exact H3|]. split; [exact H4|].
  destruct (fallback_moves_descriptor _ _ (Some sample_hello) _ _ H1 H2 H3 H4)
    as (l & w' & Hrun & _ & _ & _ & _ & _ & H5).
  exists l, w'. split; [exact Hrun|].
  destruct (H5 ltac:(lia)) as (_ & Hc & _). exact Hc.
Defined.

(** ** What a success records *)

(** C4, as stated, fails: nothing in the helper keeps the setup time from
    being negative.  With an accept instant 1.5 ms after the clock the
    sample session that succeeds at once records -1 ms; with an accept
    instant at the lower end of the clock's range the 64-bit subtraction
    overflows and the session records a negative time as well. *)
Lemma setup_time_can_be_negative :
  initial sock1 (sample_world_at late_accept) = true /\
  session sock1 sample_callback ([] ++ [FizzSuccess fizz2]) (sample_world_at late_accept)
    = Some (sample_run_at late_accept [FizzSuccess fizz2]) /\
  sslSetupTime (tinfo (sample_run_at late_accept [FizzSuccess fizz2])) = (-1)%Z /\
  sslSetupTime (tinfo (sample_run_at lowest_accept [FizzSuccess fizz2]))
    = (-9223372035854)%Z /\
  ~ (forall sock cb ns n w0 w',
       initial sock w0 = true ->
       is_success n = true ->
       session sock cb (ns ++ [n]) w0 = Some w' ->
       (0 <= sslSetupTime (tinfo w'))%Z).
Proof.
  assert (H1 : initial sock1 (sample_world_at late_accept) = true)
    by (vm_compute; reflexivity).
  assert (H2 : session sock1 sample_callback ([] ++ [FizzSuccess fizz2])
                 (sample_world_at late_accept)
               = Some (sample_run_at late_accept [FizzSuccess fizz2]))
    by (vm_compute; reflexivity).
  assert (H3 : sslSetupTime (tinfo (sample_run_at late_accept [FizzSuccess fizz2]))
               = (-1)%Z) by (vm_compute; reflexivity).
  split; [exact H1|]. split; [exact H2|]. split; [exact H3|].
  split; [vm_compute; reflexivity|].
  intros H.
  pose proof (H sock1 sample_callback [] (FizzSuccess fizz2) _ _ H1 eq_refl H2) as H'.
  rewrite H3 in H'. lia.
Qed.

(** C4, amended.  When a success arrives in a session, on the modern engine
    or, after a fallback, on the classic one, the handler runs to its end
    and records as [sslSetupTime] the clock minus the helper's accept
    instant, subtracted in 64 bits and truncated to whole milliseconds, and
    as [acceptTime] the accept instant; a fallback earlier in the session
    changes nothing to this.  When the accept instant is not later than the
    clock and less than 2^63 ns before it, this is the time elapsed since
    the accept instant, and it is not negative.  (A logging callback that
    throws ends the run before anything is recorded.) *)
Theorem setup_time_from_accept sock cb ns n w0 h0 w1 :
  initial sock w0 = true ->
  this_ w0 = Some h0 ->
  session sock cb ns w0 = Some w1 ->
  is_success n = true ->
  enabled n w1 = true ->
  (observer_returns n w1 = true ->
   exists w',
     step n w1 = Some w' /\
     sslSetupTime (tinfo w') = duration_cast_ms (int64 (clock w1 - acceptTime_ h0)) /\
     acceptTime (tinfo w') = acceptTime_ h0 /\
     ((acceptTime_ h0 <= clock w1 < acceptTime_ h0 + 2 ^ 63)%Z ->
      sslSetupTime (tinfo w') = duration_cast_ms (clock w1 - acceptTime_ h0) /\
      (0 <= sslSetupTime (tinfo w'))%Z)) /\
  (observer_returns n w1 = false -> step n w1 = None).
Proof.
  intros Hinit Hh0 Hses Hn Hen. split; [|apply step_throws].
  intros Hobs.
  destruct (session_reach _ _ _ _ _ Hinit Hses)
    as (h0' & s0 & Hh0' & _ & Hinv & _ & _ & _ & Hck & Hconst).
  rewrite Hh0 in Hh0'. injection Hh0' as <-.
  destruct (step_ok _ _ _ _ Hinv n Hen Hobs) as (w' & Hstep & _).
  exists w'. split; [exact Hstep|].
  assert (Hgoal : exists h, this_ w1 = Some h /\
            acceptTime (tinfo w') = acceptTime_ h /\
            sslSetupTime (tinfo w')
              = duration_cast_ms (int64 (clock w1 - acceptTime_ h))).
  { destruct n; try discriminate.
    - destruct (FizzSuccess_result _ _ _ _ Hinv _ _ Hstep)
        as (h & t & cb' & Hh & _ & _ & _ & _ & _ & _ & Ha & _ & _ & Hst & _).
      eauto.
    - destruct (SslSuc_result _ _ _ _ Hinv _ _ Hstep)
        as (h & s & cb' & Hh & _ & _ & _ & _ & _ & _ & Ha & _ & _ & Hst & _).
      eauto. }
  destruct Hgoal as (h & Hh & Ha & Hst).
  destruct (Hconst _ Hh) as (_ & _ & Hacc & _).
  rewrite Hst, Ha, Hacc.
  split; [reflexivity|]. split; [reflexivity|].
  intros Hrange. rewrite int64_small by (pow64; lia).
  split; [reflexivity | apply duration_cast_ms_nonneg; lia].
Qed.

Lemma setup_time_from_accept_witness :
  (initial sock1 (sample_world None) = true /\
   this_ (sample_world None) = Some (sample_helper None) /\
   session sock1 sample_callback modern_script (sample_world None)
     = Some (sample_run None modern_script) /\
   is_success (FizzSuccess fizz2) = true /\
   enabled (FizzSuccess fizz2) (sample_run None modern_script) = true /\
   exists w',
     step (FizzSuccess fizz2) (sample_run None modern_script) = Some w' /\
     sslSetupTime (tinfo w') = 5%Z) /\
  (session sock1 sample_callback fallback_script (sample_world None)
     = Some (sample_run None fallback_script) /\
   is_success (SslSuc ssl3) = true /\
   enabled (SslSuc ssl3) (sample_run None fallback_script) = true /\
   exists w',
     step (SslSuc ssl3) (sample_run None fallback_script) = Some w' /\
     sslSetupTime (tinfo w') = 12%Z /\ (0 <= sslSetupTime (tinfo w'))%Z).
Proof.
  assert (H1 : initial sock1 (sample_world None) = true) by (vm_compute; reflexivity).
  assert (H2 : this_ (sample_world None) = Some (sample_helper None)) by reflexivity.
  assert (H3 : session sock1 sample_callback modern_script (sample_world None)
               = Some (sample_run None modern_script)) by (vm_compute; reflexivity).
  assert (H4 : is_success (FizzSuccess fizz2) = true) by reflexivity.
  assert (H5 : enabled (FizzSuccess fizz2) (sample_run None modern_script) = true)
    by (vm_compute; reflexivity).
  assert (H6 : session sock1 sample_callback fallback_script (sample_world None)
               = Some (sample_run None fallback_script)) by (vm_compute; reflexivity).
  assert (H7 : is_success (SslSuc ssl3) = true) by reflexivity.
  assert (H8 : enabled (SslSuc ssl3) (sample_run None fallback_script) = true)
    by (vm_compute; reflexivity).
  split.
  - repeat (split; [assumption|]).
    destruct (proj1 (setup_time_from_accept _ _ _ _ _ _ _ H1 H2 H3 H4 H5))
      as (w' & Hs & Hst & _); [vm_compute; reflexivity|].
    exists w'. split; [exact Hs|]. rewrite Hst. vm_compute. reflexivity.
  - repeat (split; [assumption|]).
    destruct (proj1 (setup_time_from_accept _ _ _ _ _ _ _ H1 H2 H6 H7 H8))
      as (w' & Hs & Hst & _ & Hpos); [vm_compute; reflexivity|].
    exists w'. split; [exact Hs|].
    split; [rewrite Hst; vm_compute; reflexivity|].
    apply Hpos. vm_compute. split; [discriminate | reflexivity].
Defined.

Ltac completion_trace Htr Hzero :=
  rewrite Htr, !completion_events_app, (completion_events_none _ Hzero);
  repeat match goal with
         | |- context [match ?x with _ => _ end] => destruct x
         end;
  reflexivity.

(** C5. When a success arrives in a session, the handler runs to its end
    and the recorded [securityType] is that of the engine whose success it
    is.  When [fizzHandshakeSuccess] runs it is what the modern transport
    reports, which is the modern type; the helper then holds no classic
    socket and hands the modern transport to [connectionReady].  When
    [handshakeSuc] runs it is what the classic socket reports, which is the
    classic type; the helper then holds no modern transport and hands the
    classic socket over.  In both cases [secure] is set.  (A logging
    callback that throws ends the run before anything is recorded.) *)
Theorem security_type_matches_engine sock cb ns n w0 w1 :
  initial sock w0 = true ->
  session sock cb ns w0 = Some w1 ->
  is_success n = true ->
  enabled n w1 = true ->
  (observer_returns n w1 = true ->
   exists w',
     step n w1 = Some w' /\
     secure (tinfo w') = true /\
     match n with
     | FizzSuccess p =>
         exists t,
           modern_engine w1 = Some t /\ classic_engine w1 = None /\
           securityType (tinfo w') = AsyncFizzServer_getSecurityProtocol t /\
           securityType (tinfo w') = SecModernTLS /\
           securityType (tinfo w') <> SecClassicTLS /\
           completion_events (trace w')
             = [EvConnectionReady cb (Some (FizzT p)) (fz_appProto t) TLS NO_ERROR]
     | SslSuc p =>
         exists s,
           classic_engine w1 = Some s /\ modern_engine w1 = None /\
           securityType (tinfo w') = AsyncSSLSocket_getSecurityProtocol s /\
           securityType (tinfo w') = SecClassicTLS /\
           securityType (tinfo w') <> SecModernTLS /\
           completion_events (trace w')
             = [EvConnectionReady cb (Some (SslT p)) (ssl_appProto s) TLS NO_ERROR]
     | _ => False
     end) /\
  (observer_returns n w1 = false -> step n w1 = None).
Proof.
  intros Hinit Hses Hn Hen. split; [|apply step_throws].
  intros Hobs.
  destruct (session_reach _ _ _ _ _ Hinit Hses)
    as (h0 & s0 & _ & _ & Hinv & _ & _ & _ & _ & Hconst).
  destruct (step_ok _ _ _ _ Hinv n Hen Hobs) as (w' & Hstep & _).
  exists w'. split; [exact Hstep|].
  destruct n; try discriminate; cbn [enabled] in Hen.
  - destruct (FizzSuccess_result _ _ _ _ Hinv _ _ Hstep)
      as (h & t & cb' & Hh & Ht & Hcb & Htp & Hsp & _ & Htr & _ & Hsec & Hty & _ & Hzero).
    destruct (Hconst _ Hh) as (Hcb' & _). rewrite Hcb' in Hcb. injection Hcb as <-.
    destruct (fizz_awaiting_true _ _ Hen) as (t' & Ht' & Hc).
    rewrite Ht in Ht'. injection Ht' as <-.
    pose proof (inv_fizz_protocol _ _ _ _ Hinv _ _ Ht Hc) as Hpr.
    split; [exact Hsec|]. exists t.
    split; [unfold modern_engine; rewrite Hh, Htp; exact Ht|].
    split; [unfold classic_engine; rewrite Hh, Hsp; reflexivity|].
    split; [exact Hty|].
    unfold AsyncFizzServer_getSecurityProtocol in Hty. rewrite Hpr in Hty.
    split; [exact Hty|]. split; [rewrite Hty; discriminate|].
    completion_trace Htr Hzero.
  - destruct (SslSuc_result _ _ _ _ Hinv _ _ Hstep)
      as (h & s & cb' & Hh & Hs & Hcb & Hsp & Htp & _ & Htr & _ & Hsec & Hty & _ & Hzero).
    destruct (Hconst _ Hh) as (Hcb' & _). rewrite Hcb' in Hcb. injection Hcb as <-.
    destruct (ssl_awaiting_true _ _ Hen) as (s' & Hs' & Hc).
    rewrite Hs in Hs'. injection Hs' as <-.
    pose proof (inv_ssl_protocol _ _ _ _ Hinv _ _ Hs Hc) as Hpr.
    split; [exact Hsec|]. exists s.
    split; [unfold classic_engine; rewrite Hh, Hsp; exact Hs|].
    split; [unfold modern_engine; rewrite Hh, Htp; reflexivity|].
    split; [exact Hty|].
    unfold AsyncSSLSocket_getSecurityProtocol in Hty. rewrite Hpr in Hty.
    split; [exact Hty|]. split; [rewrite Hty; discriminate|].
    completion_trace Htr Hzero.
Qed.

Lemma security_type_matches_engine_witness :
  (initial sock1 (sample_world None) = true /\
   session sock1 sample_callback modern_script (sample_world None)
     = Some (sample_run None modern_script) /\
   is_success (FizzSuccess fizz2) = true /\
   enabled (FizzSuccess fizz2) (sample_run None modern_script) = true /\
   exists w',
     step (FizzSuccess fizz2) (sample_run None modern_script) = Some w' /\
     securityType (tinfo w') = SecModernTLS) /\
  (session sock1 sample_callback fallback_script (sample_world None)
     = Some (sample_run None fallback_script) /\
   is_success (SslSuc ssl3) = true /\
   enabled (SslSuc ssl3) (sample_run None fallback_script) = true /\
   exists w',
     step (SslSuc ssl3) (sample_run None fallback_script) = Some w' /\
     securityType (tinfo w') = SecClassicTLS).
Proof.
  assert (H1 : initial sock1 (sample_world None) = true) by (vm_compute; reflexivity).
  assert (H3 : session sock1 sample_callback modern_script (sample_world None)
               = Some (sample_run None modern_script)) by (vm_compute; reflexivity).
  assert (H4 : is_success (FizzSuccess fizz2) = true) by reflexivity.
  assert (H5 : enabled (FizzSuccess fizz2) (sample_run None modern_script) = true)
    by (vm_compute; reflexivity).
  assert (H6 : session sock1 sample_callback fallback_script (sample_world None)
               = Some (sample_run None fallback_script)) by (vm_compute; reflexivity).
  assert (H7 : is_success (SslSuc ssl3) = true) by reflexivity.
  assert (H8 : enabled (SslSuc ssl3) (sample_run None fallback_script) = true)
    by (vm_compute; reflexivity).
  split.
  - repeat (split; [assumption|]).
    destruct (proj1 (security_type_matches_engine _ _ _ _ _ _ H1 H3 H4 H5))
      as (w' & Hs & _ & t & _ & _ & _ & Hty & _); [vm_compute; reflexivity|].
    exists w'. split; [exact Hs | exact Hty].
  - repeat (split; [assumption|]).
    destruct (proj1 (security_type_matches_engine _ _ _ _ _ _ H1 H6 H7 H8))
      as (w' & Hs & _ & s & _ & _ & _ & Hty & _); [vm_compute; reflexivity|].
    exists w'. split; [exact Hs | exact Hty].
Defined.

(** ** A failure of the modern engine *)

(** C8. In every session in which the modern engine reports an error, the
    one completion call is [connectionError], on the modern transport, with
    a [FizzHandshakeException]; no classic socket has been constructed by
    then, and none is afterwards, whatever happens next. *)
Theorem modern_error_no_classic sock cb ns p ex w0 w' :
  initial sock w0 = true ->
  session sock cb (ns ++ [FizzError p ex]) w0 = Some w' ->
  (exists e err,
     completion_events (trace w') = [EvConnectionError cb (Some (FizzT p)) e err] /\
     exn_phase e = ModernHandshake) /\
  count is_create_ssl (trace w') = 0 /\
  classic_engine w' = None /\
  forall ms w'',
    run ms w' = Some w'' ->
    count is_create_ssl (trace w'') = 0 /\ classic_engine w'' = None.
Proof.
  intros Hinit Hses.
  destruct (session_snoc _ _ _ _ _ _ Hses) as (w1 & Hses1 & Hstep).
  destruct (session_reach _ _ _ _ _ Hinit Hses1)
    as (h0 & s0 & _ & _ & Hinv & _ & _ & _ & _ & Hconst).
  destruct (session_reach _ _ _ _ _ Hinit Hses)
    as (_ & _ & _ & _ & _ & _ & Hle & Hq & _).
  destruct (FizzError_result _ _ _ _ Hinv _ _ _ Hstep)
    as (h & t & cb' & Hh & Ht & Hcb & Htp & Hsp & Hthis & _ & _ & Htr & Hzero & Hnone).
  destruct (Hconst _ Hh) as (Hcb' & _). rewrite Hcb' in Hcb. injection Hcb as <-.
  assert (Hcreate : count is_create_ssl (trace w') = 0).
  { rewrite Htr, !count_app, Hnone.
    destruct (loggingCallback_ h), (3 <=? vlogLevel w1)%nat,
      (cb_deletesHelper cb && negb (as_fd (fz_socket t) =? NO_FD)%Z); reflexivity. }
  assert (Hclassic : classic_engine w' = None).
  { unfold classic_engine. rewrite Hthis.
    destruct (cb_deletesHelper cb); [reflexivity|]. rewrite Hsp. reflexivity. }
  split; [|split; [exact Hcreate|split; [exact Hclassic|]]].
  - eexists. eexists. split; [completion_trace Htr Hzero | reflexivity].
  - intros ms w'' Hrun.
    assert (Hone : terminal_count (ns ++ [FizzError p ex]) = 1).
    { assert (Hge : 1 <= terminal_count (ns ++ [FizzError p ex])).
      { clear. induction ns as [|a ns IH]; cbn; [lia|]. destruct (is_terminal a); lia. }
      lia. }
    destruct (run_quiescent _ _ _ (Hq Hone) Hrun)
      as (_ & _ & _ & Hth & Htr' & _ & _ & Hsh & _).
    split; [rewrite Htr'; exact Hcreate|].
    unfold classic_engine in *. rewrite Hth, Hsh. exact Hclassic.
Qed.

Lemma modern_error_no_classic_witness :
  initial sock1 (sample_world None) = true /\
  session sock1 sample_callback (modern_script ++ [FizzError fizz2 boom])
          (sample_world None)
    = Some (sample_run None (modern_script ++ [FizzError fizz2 boom])) /\
  count is_create_ssl
        (trace (sample_run None (modern_script ++ [FizzError fizz2 boom]))) = 0.
Proof.
  assert (H1 : initial sock1 (sample_world None) = true) by (vm_compute; reflexivity).
  assert (H2 : session sock1 sample_callback (modern_script ++ [FizzError fizz2 boom])
                 (sample_world None)
               = Some (sample_run None (modern_script ++ [FizzError fizz2 boom])))
    by (vm_compute; reflexivity).
  repeat (split; [assumption|]).
  exact (proj1 (proj2 (modern_error_no_classic _ _ _ _ _ _ _ H1 H2))).
Defined.

(** ** The classic socket runs where the connection was accepted *)

(** C10. In every session that falls back, the classic socket is built
    with the SSL context [start] read off the accepted socket and kept in
    [sslContext_], and on the event base of the modern transport at that
    moment, which is the event base of the accepted socket; it also gets the
    accepted socket's descriptor, and the buffer as pre-received data. *)
Theorem fallback_same_context sock cb ns p hello w0 s0 w' :
  initial sock w0 = true ->
  sslHeap w0 !! sock = Some s0 ->
  session sock cb (ns ++ [FizzFallback p hello]) w0 = Some w' ->
  exists w1 h1 t s,
    session sock cb ns w0 = Some w1 /\
    this_ w1 = Some h1 /\ modern_engine w1 = Some t /\
    classic_engine w' = Some s /\
    sslContext_ h1 = ssl_ctx s0 /\
    ssl_ctx s = sslContext_ h1 /\
    ssl_evb s = as_evb (fz_socket t) /\
    ssl_ctx s = ssl_ctx s0 /\ ssl_evb s = ssl_evb s0 /\ ssl_fd s = ssl_fd s0 /\
    ssl_preReceivedData s = Some hello.
Proof.
  intros Hinit Hs0 Hses.
  destruct (session_snoc _ _ _ _ _ _ Hses) as (w1 & Hses1 & Hstep).
  destruct (session_reach _ _ _ _ _ Hinit Hses1)
    as (h0 & s0' & _ & Hs0' & Hinv & _).
  rewrite Hs0 in Hs0'. injection Hs0' as <-.
  pose proof (step_enabled _ _ _ Hstep) as He. cbn [enabled] in He.
  destruct (fizz_awaiting_true _ _ He) as (t & Ht & Hc).
  destruct (inv_fizz _ _ _ _ Hinv _ _ Ht Hc)
    as (h1 & cb' & Hh1 & Htp & _ & _ & Hctx & Hevb & Hfd & _).
  destruct (step_FizzFallback _ _ _ _ Hinv p hello He)
    as (w'' & Hstep' & _ & Hclassic & _).
  rewrite Hstep in Hstep'. injection Hstep' as <-.
  exists w1, h1, t. eexists.
  split; [exact Hses1|]. split; [exact Hh1|].
  split; [unfold modern_engine; rewrite Hh1, Htp; exact Ht|].
  split; [exact Hclassic|]. cbn.
  repeat split; congruence.
Qed.

Lemma fallback_same_context_witness :
  initial sock1 (sample_world None) = true /\
  sslHeap (sample_world None) !! sock1 = Some sample_socket /\
  session sock1 sample_callback (modern_script ++ [FizzFallback fizz2 sample_hello])
          (sample_world None)
    = Some (sample_run None (modern_script ++ [FizzFallback fizz2 sample_hello])) /\
  exists s,
    classic_engine
      (sample_run None (modern_script ++ [FizzFallback fizz2 sample_hello])) = Some s /\
    ssl_ctx s = Some 5%N /\ ssl_evb s = 9%N.
Proof.
  assert (H1 : initial sock1 (sample_world None) = true) by (vm_compute; reflexivity).
  assert (H2 : sslHeap (sample_world None) !! sock1 = Some sample_socket)
    by (vm_compute; reflexivity).
  assert (H3 : session sock1 sample_callback
                 (modern_script ++ [FizzFallback fizz2 sample_hello])
                 (sample_world None)
               = Some (sample_run None
                         (modern_script ++ [FizzFallback fizz2 sample_hello])))
    by (vm_compute; reflexivity).
  repeat (split; [assumption|]).
  destruct (fallback_same_context _ _ _ _ _ _ _ _ H1 H2 H3)
    as (w1 & h1 & t & s & _ & _ & _ & Hs & _ & _ & _ & Hctx & Hevb & _).
  exists s. split; [exact Hs|]. split; [exact Hctx | exact Hevb].
Defined.

(** ** What a failure reports *)

(** C6, as stated, fails twice.  The error handed to [connectionError] has
    no room for the bytes sent nor for the cause: the two sample sessions
    that differ in nothing else report the very same error, so neither can
    be read off it.  And after a fallback the count is the classic socket's
    own: a classic engine that fails before it has taken any input reports
    0 bytes, though the modern attempt had read three. *)
Lemma error_omits_sent_and_cause :
  ~ (exists (sent_of : HandshakeException -> N)
            (cause_of : HandshakeException -> string),
       (forall cbk T e err,
          In (EvConnectionError cbk T e err) (trace (sample_run None failing_script_a)) ->
          sent_of e = 20%N /\ cause_of e = what boom) /\
       (forall cbk T e err,
          In (EvConnectionError cbk T e err) (trace (sample_run None failing_script_b)) ->
          sent_of e = 99%N /\ cause_of e = what other)) /\
  completion_events (trace (sample_run None early_classic_failure))
    = [EvConnectionError sample_callback (Some (SslT ssl3))
                         (SSLException NO_ERROR 5%Z 0%N) NO_ERROR].
Proof.
  split; [|vm_compute; reflexivity].
  intros (sent_of & cause_of & Ha & Hb).
  assert (Hina : In (EvConnectionError sample_callback (Some (FizzT fizz2))
                       (FizzHandshakeException NO_ERROR 5%Z 10%N) NO_ERROR)
                    (trace (sample_run None failing_script_a))).
  { vm_compute. repeat (first [left; reflexivity | right]). }
  assert (Hinb : In (EvConnectionError sample_callback (Some (FizzT fizz2))
                       (FizzHandshakeException NO_ERROR 5%Z 10%N) NO_ERROR)
                    (trace (sample_run None failing_script_b))).
  { vm_compute. repeat (first [left; reflexivity | right]). }
  destruct (Ha _ _ _ _ Hina) as [Ha' _]. destruct (Hb _ _ _ _ Hinb) as [Hb' _].
  rewrite Ha' in Hb'. discriminate.
Qed.

(** C6, amended.  When a failure arrives in a session, the handler runs to
    its end and the one completion call is [connectionError] with the
    helper's transport, with [sslError_], and with an exception whose class
    is the phase (the Fizz class from [fizzHandshakeError], the SSL class
    from [handshakeErr]) and which carries [sslError_], the latency and the
    received-bytes counter the failing engine reports when the handler runs.
    The latency is the clock minus the helper's accept instant, subtracted
    in 64 bits and truncated to whole milliseconds: the time elapsed since
    the accept instant when that instant is not later than the clock and
    less than 2^63 ns before it.  The bytes sent and the cause appear in the
    verbose log line only.  After a fallback the counter is the classic
    socket's own: the helper keeps no count of what the modern engine had
    read.  (A logging callback that throws ends the run before any
    completion call.) *)
Theorem failure_report sock cb ns n w0 h0 w1 :
  initial sock w0 = true ->
  this_ w0 = Some h0 ->
  session sock cb ns w0 = Some w1 ->
  is_failure n = true ->
  enabled n w1 = true ->
  (observer_returns n w1 = true ->
   exists w' e T,
     step n w1 = Some w' /\
     completion_events (trace w') = [EvConnectionError cb (Some T) e (sslError_ h0)] /\
     exn_error e = sslError_ h0 /\
     exn_latency e = duration_cast_ms (int64 (clock w1 - acceptTime_ h0)) /\
     ((acceptTime_ h0 <= clock w1 < acceptTime_ h0 + 2 ^ 63)%Z ->
      exn_latency e = duration_cast_ms (clock w1 - acceptTime_ h0)) /\
     match n with
     | FizzError p ex =>
         T = FizzT p /\ exn_phase e = ModernHandshake /\
         exists t,
           modern_engine w1 = Some t /\
           exn_bytesRead e = fz_rawBytesReceived t /\
           ((3 <=? vlogLevel w1)%nat = true ->
            In (EvVlog (VFizzHandshakeError (exn_latency e) (fz_rawBytesReceived t)
                                            (fz_rawBytesWritten t) (what ex)))
               (trace w'))
     | SslErr p ex =>
         T = SslT p /\ exn_phase e = ClassicHandshake /\
         exists s,
           classic_engine w1 = Some s /\ modern_engine w1 = None /\
           exn_bytesRead e = ssl_rawBytesReceived s /\
           ((3 <=? vlogLevel w1)%nat = true ->
            In (EvVlog (VSSLHandshakeError (exn_latency e) (ssl_rawBytesReceived s)
                                           (ssl_rawBytesWritten s) (what ex)))
               (trace w'))
     | _ => False
     end) /\
  (observer_returns n w1 = false -> step n w1 = None).
Proof.
  intros Hinit Hh0 Hses Hn Hen. split; [|apply step_throws].
  intros Hobs.
  destruct (session_reach _ _ _ _ _ Hinit Hses)
    as (h0' & s0 & Hh0' & _ & Hinv & _ & _ & _ & _ & Hconst).
  rewrite Hh0 in Hh0'. injection Hh0' as <-.
  destruct (step_ok _ _ _ _ Hinv n Hen Hobs) as (w' & Hstep & _).
  exists w'.
  destruct n; try discriminate.
  - destruct (FizzError_result _ _ _ _ Hinv _ _ _ Hstep)
      as (h & t & cb' & Hh & Ht & Hcb & Htp & _ & _ & _ & _ & Htr & Hzero & _).
    destruct (Hconst _ Hh) as (Hcb' & _ & Hat & Herr & _).
    rewrite Hcb' in Hcb. injection Hcb as <-. rewrite Hat, Herr in Htr.
    eexists. eexists. split; [exact Hstep|].
    split; [completion_trace Htr Hzero|].
    cbn [exn_error exn_latency exn_phase exn_bytesRead].
    split; [reflexivity|]. split; [reflexivity|].
    split; [intros Hrange; rewrite int64_small by (pow64; lia); reflexivity|].
    split; [reflexivity|]. split; [reflexivity|].
    exists t.
    split; [unfold modern_engine; rewrite Hh, Htp; exact Ht|].
    split; [reflexivity|].
    intros Hv. rewrite Htr, Hv.
    apply in_or_app. right. apply in_or_app. right. left. reflexivity.
  - destruct (SslErr_result _ _ _ _ Hinv _ _ _ Hstep)
      as (h & s & cb' & Hh & Hs & Hcb & Hsp & Htp & _ & _ & Htr & Hzero & _).
    destruct (Hconst _ Hh) as (Hcb' & _ & Hat & Herr & _).
    rewrite Hcb' in Hcb. injection Hcb as <-. rewrite Hat, Herr in Htr.
    eexists. eexists. split; [exact Hstep|].
    split; [completion_trace Htr Hzero|].
    cbn [exn_error exn_latency exn_phase exn_bytesRead].
    split; [reflexivity|]. split; [reflexivity|].
    split; [intros Hrange; rewrite int64_small by (pow64; lia); reflexivity|].
    split; [reflexivity|]. split; [reflexivity|].
    exists s.
    split; [unfold classic_engine; rewrite Hh, Hsp; exact Hs|].
    split; [unfold modern_engine; rewrite Hh, Htp; reflexivity|].
    split; [reflexivity|].
    intros Hv. rewrite Htr, Hv.
    apply in_or_app. right. left. reflexivity.
Qed.

Lemma failure_report_witness :
  (initial sock1 (sample_world None) = true /\
   this_ (sample_world None) = Some (sample_helper None) /\
   session sock1 sample_callback modern_script (sample_world None)
     = Some (sample_run None modern_script) /\
   is_failure (FizzError fizz2 boom) = true /\
   enabled (FizzError fizz2 boom) (sample_run None modern_script) = true /\
   exists w' e,
     step (FizzError fizz2 boom) (sample_run None modern_script) = Some w' /\
     completion_events (trace w')
       = [EvConnectionError sample_callback (Some (FizzT fizz2)) e NO_ERROR] /\
     exn_latency e = 5%Z /\ exn_bytesRead e = 10%N) /\
  (session sock1 sample_callback fallback_script (sample_world None)
     = Some (sample_run None fallback_script) /\
   is_failure (SslErr ssl3 boom) = true /\
   enabled (SslErr ssl3 boom) (sample_run None fallback_script) = true /\
   exists w' e,
     step (SslErr ssl3 boom) (sample_run None fallback_script) = Some w' /\
     completion_events (trace w')
       = [EvConnectionError sample_callback (Some (SslT ssl3)) e NO_ERROR] /\
     exn_latency e = 12%Z /\ exn_bytesRead e = 5%N).
Proof.
  assert (H1 : initial sock1 (sample_world None) = true) by (vm_compute; reflexivity).
  assert (H2 : this_ (sample_world None) = Some (sample_helper None)) by reflexivity.
  assert (H3 : session sock1 sample_callback modern_script (sample_world None)
               = Some (sample_run None modern_script)) by (vm_compute; reflexivity).
  assert (H4 : is_failure (FizzError fizz2 boom) = true) by reflexivity.
  assert (H5 : enabled (FizzError fizz2 boom) (sample_run None modern_script) = true)
    by (vm_compute; reflexivity).
  assert (H6 : session sock1 sample_callback fallback_script (sample_world None)
               = Some (sample_run None fallback_script)) by (vm_compute; reflexivity).
  assert (H7 : is_failure (SslErr ssl3 boom) = true) by reflexivity.
  assert (H8 : enabled (SslErr ssl3 boom) (sample_run None fallback_script) = true)
    by (vm_compute; reflexivity).
  split.
  - repeat (split; [assumption|]).
    destruct (proj1 (failure_report _ _ _ _ _ _ _ H1 H2 H3 H4 H5))
      as (w' & e & T & Hs & Hev & _ & Hlat & _ & HT & _ & t & Ht & Hb & _);
      [vm_compute; reflexivity|].
    exists w', e. split; [exact Hs|]. subst T.
    split; [exact Hev|].
    split; [rewrite Hlat; vm_compute; reflexivity|].
    rewrite Hb.
    assert (Ht' : modern_engine (sample_run None modern_script)
                  = Some (mkAsyncFizzServer (mkAsyncSocket 9%N 7%Z true) 1%N None true
                            EmptyString None 10%N 20%N SecModernTLS))
      by (vm_compute; reflexivity).
    rewrite Ht' in Ht. injection Ht as <-. reflexivity.
  - repeat (split; [assumption|]).
    destruct (proj1 (failure_report _ _ _ _ _ _ _ H1 H2 H6 H7 H8))
      as (w' & e & T & Hs & Hev & _ & Hlat & _ & HT & _ & s & Hcl & _ & Hb & _);
      [vm_compute; reflexivity|].
    exists w', e. split; [exact Hs|]. subst T.
    split; [exact Hev|].
    split; [rewrite Hlat; vm_compute; reflexivity|].
    rewrite Hb.
    assert (Hcl' : ssl_rawBytesReceived
                     <$> classic_engine (sample_run None fallback_script) = Some 5%N)
      by (vm_compute; reflexivity).
    rewrite Hcl in Hcl'. injection Hcl' as ->. reflexivity.
Defined.

(** ** The logging callback *)

(** C7, as stated, fails twice.  On the classic path the logging callback
    is never called: with one set, the sample sessions that fall back and
    then succeed, or fail, complete without a single call to it.  And on the
    modern path its failure is not contained: with a logging callback that
    throws, the sample session in which the modern engine succeeds ends when
    the success is delivered, with no completion call made, while the same
    session without logging callback completes. *)
Lemma observer_skipped_or_fatal :
  (loggingCallback_ (sample_helper (Some sample_logger)) = Some sample_logger /\
   completions (trace (sample_run (Some sample_logger)
                                  (fallback_script ++ [SslSuc ssl3]))) = 1 /\
   count is_log (trace (sample_run (Some sample_logger)
                                   (fallback_script ++ [SslSuc ssl3]))) = 0 /\
   completions (trace (sample_run (Some sample_logger)
                                  (fallback_script ++ [SslErr ssl3 boom]))) = 1 /\
   count is_log (trace (sample_run (Some sample_logger)
                                   (fallback_script ++ [SslErr ssl3 boom]))) = 0) /\
  (lc_fails throwing_logger = true /\
   session sock1 sample_callback modern_script (sample_world (Some throwing_logger))
     = Some (sample_run (Some throwing_logger) modern_script) /\
   completions (trace (sample_run (Some throwing_logger) modern_script)) = 0 /\
   enabled (FizzSuccess fizz2) (sample_run (Some throwing_logger) modern_script)
     = true /\
   step (FizzSuccess fizz2) (sample_run (Some throwing_logger) modern_script) = None /\
   session sock1 sample_callback (modern_script ++ [FizzSuccess fizz2])
           (sample_world (Some throwing_logger)) = None /\
   completions (trace (sample_run None (modern_script ++ [FizzSuccess fizz2]))) = 1).
Proof.
  repeat match goal with |- _ /\ _ => split end; vm_compute; reflexivity.
Qed.

Lemma with_logger_modern lc p w :
  modern_pending p w = true ->
  exists h t cb,
    this_ w = Some h /\
    this_ (with_logger lc w) = Some (set_loggingCallback_ lc h) /\
    transport_ h = Some p /\ sslSocket_ h = None /\
    callback_ h = Some cb /\ fizzHeap w !! p = Some t /\
    (forall e, extension_ h = Some e -> is_Some (extHeap w !! e)).
Proof.
  intros H. destruct (modern_pending_spec _ _ H) as (h & t & cb & Hh & ? & ? & ? & ? & ?).
  exists h, t, cb. unfold with_logger. rewrite Hh. repeat split; assumption.
Qed.

Lemma with_logger_classic lc p w :
  classic_pending p w = true ->
  exists h s cb,
    this_ w = Some h /\
    this_ (with_logger lc w) = Some (set_loggingCallback_ lc h) /\
    sslSocket_ h = Some p /\ transport_ h = None /\
    callback_ h = Some cb /\ sslHeap w !! p = Some s.
Proof.
  intros H. destruct (classic_pending_spec _ _ H) as (h & s & cb & Hh & ? & ? & ? & ?).
  exists h, s, cb. unfold with_logger. rewrite Hh. repeat split; assumption.
Qed.

Ltac same_completions H1 H2 :=
  rewrite H1, H2, !completion_events_app;
  repeat match goal with
         | |- context [match ?x with _ => _ end] => destruct x
         end;
  reflexivity.

(** C7, amended.  On the modern path, with a logging callback set that
    returns, its success (or error) method is called first and the
    completion callback after it; the completion call and its arguments are
    the same whichever returning logging callback is set, or none.  A
    logging callback that throws is not contained: the two modern methods
    end there, and no completion call is made.  On the classic path the
    logging callback is not called at all, so that the completion call is
    the same whichever logging callback is set, a throwing one or none. *)
Theorem observer_before_completion w p ex (lc : LoggingCallback)
    (lc1 lc2 : option LoggingCallback) :
  (modern_pending p w = true ->
   (lc_fails lc = false ->
    (exists w', exec (fizzHandshakeSuccess p) (with_logger (Some lc) w) = Some w' /\
       exists mid e,
         trace w' = trace w ++ [EvLogFizzHandshakeSuccess lc p] ++ mid ++ [e] /\
         is_completion e = true /\ count is_completion mid = 0) /\
    (exists w', exec (fizzHandshakeError p ex) (with_logger (Some lc) w) = Some w' /\
       exists mid e post,
         trace w' = trace w ++ [EvLogFizzHandshakeError lc p ex] ++ mid ++ [e] ++ post /\
         is_completion e = true /\ count is_completion mid = 0)) /\
   (lc_fails lc = true ->
    exec (fizzHandshakeSuccess p) (with_logger (Some lc) w) = None /\
    exec (fizzHandshakeError p ex) (with_logger (Some lc) w) = None) /\
   (lc_returns lc1 = true -> lc_returns lc2 = true ->
    (exists w1 w2,
       exec (fizzHandshakeSuccess p) (with_logger lc1 w) = Some w1 /\
       exec (fizzHandshakeSuccess p) (with_logger lc2 w) = Some w2 /\
       completion_events (trace w1) = completion_events (trace w2)) /\
    (exists w1 w2,
       exec (fizzHandshakeError p ex) (with_logger lc1 w) = Some w1 /\
       exec (fizzHandshakeError p ex) (with_logger lc2 w) = Some w2 /\
       completion_events (trace w1) = completion_events (trace w2)))) /\
  (classic_pending p w = true ->
   (exists w1 w2,
      exec (handshakeSuc p) (with_logger lc1 w) = Some w1 /\
      exec (handshakeSuc p) (with_logger lc2 w) = Some w2 /\
      completion_events (trace w1) = completion_events (trace w2) /\
      count is_log (trace w1) = count is_log (trace w)) /\
   (exists w1 w2,
      exec (handshakeErr p ex) (with_logger lc1 w) = Some w1 /\
      exec (handshakeErr p ex) (with_logger lc2 w) = Some w2 /\
      completion_events (trace w1) = completion_events (trace w2) /\
      count is_log (trace w1) = count is_log (trace w))).
Proof.
  split.
  - intros Hpend.
    destruct (with_logger_modern (Some lc) _ _ Hpend)
      as (h & t & cb & Hh & Hl & Htp & Hsp & Hcb & Ht & Hext).
    destruct (with_logger_modern lc1 _ _ Hpend) as (h1 & t1 & cb1 & Hh1 & Hl1 & _).
    destruct (with_logger_modern lc2 _ _ Hpend) as (h2 & t2 & cb2 & Hh2 & Hl2 & _).
    rewrite Hh in Hh1, Hh2. injection Hh1 as <-. injection Hh2 as <-.
    split; [|split].
    + intros Hret.
      assert (Hlc : lc_returns (loggingCallback_ (set_loggingCallback_ (Some lc) h)) = true)
        by (cbn; rewrite Hret; reflexivity).
      destruct (fizzHandshakeSuccess_run _ _ p t cb Hl Ht Hcb Hsp Hext Hlc)
        as (ws & Hs & _ & _ & _ & _ & _ & Htrs & _).
      destruct (fizzHandshakeError_run _ _ p t cb ex Hl Ht Hcb Htp Hsp Hlc)
        as (we & He & _ & _ & _ & _ & _ & _ & Htre).
      unfold with_logger in Htrs, Htre. psimpl. split.
      * exists ws. split; [unfold exec; rewrite Hs; reflexivity|].
        eexists. eexists. split; [exact Htrs|].
        split; [reflexivity|].
        destruct (3 <=? vlogLevel w)%nat; reflexivity.
      * exists we. split; [unfold exec; rewrite He; reflexivity|].
        eexists. eexists. eexists. split; [exact Htre|].
        split; [reflexivity|].
        destruct (3 <=? vlogLevel w)%nat; reflexivity.
    + intros Hthrow. unfold exec.
      rewrite (fizzHandshakeSuccess_throws _ _ p lc Hl eq_refl Hthrow).
      rewrite (fizzHandshakeError_throws _ _ p ex lc Hl eq_refl Hthrow).
      split; reflexivity.
    + intros Hr1 Hr2.
      destruct (fizzHandshakeSuccess_run _ _ p t cb Hl1 Ht Hcb Hsp Hext Hr1)
        as (ws1 & Hs1 & _ & _ & _ & _ & _ & Htrs1 & _).
      destruct (fizzHandshakeSuccess_run _ _ p t cb Hl2 Ht Hcb Hsp Hext Hr2)
        as (ws2 & Hs2 & _ & _ & _ & _ & _ & Htrs2 & _).
      destruct (fizzHandshakeError_run _ _ p t cb ex Hl1 Ht Hcb Htp Hsp Hr1)
        as (we1 & He1 & _ & _ & _ & _ & _ & _ & Htre1).
      destruct (fizzHandshakeError_run _ _ p t cb ex Hl2 Ht Hcb Htp Hsp Hr2)
        as (we2 & He2 & _ & _ & _ & _ & _ & _ & Htre2).
      unfold with_logger in Htrs1, Htrs2, Htre1, Htre2. psimpl. split.
      * exists ws1, ws2.
        split; [unfold exec; rewrite Hs1; reflexivity|].
        split; [unfold exec; rewrite Hs2; reflexivity|].
        same_completions Htrs1 Htrs2.
      * exists we1, we2.
        split; [unfold exec; rewrite He1; reflexivity|].
        split; [unfold exec; rewrite He2; reflexivity|].
        same_completions Htre1 Htre2.
  - intros Hpend.
    destruct (with_logger_classic lc1 _ _ Hpend)
      as (h & s & cb & Hh & Hl1 & Hsp & Htp & Hcb & Hs).
    destruct (with_logger_classic lc2 _ _ Hpend) as (h2 & s2 & cb2 & Hh2 & Hl2 & _).
    rewrite Hh in Hh2. injection Hh2 as <-.
    destruct (handshakeSuc_run _ _ p s cb Hl1 Hs Hcb Htp)
      as (ws1 & Hs1 & _ & _ & _ & _ & _ & Htrs1 & _).
    destruct (handshakeSuc_run _ _ p s cb Hl2 Hs Hcb Htp)
      as (ws2 & Hs2 & _ & _ & _ & _ & _ & Htrs2 & _).
    destruct (handshakeErr_run _ _ p s cb ex Hl1 Hs Hcb Hsp Htp)
      as (we1 & He1 & _ & _ & _ & _ & _ & _ & Htre1).
    destruct (handshakeErr_run _ _ p s cb ex Hl2 Hs Hcb Hsp Htp)
      as (we2 & He2 & _ & _ & _ & _ & _ & _ & Htre2).
    unfold with_logger in Htrs1, Htrs2, Htre1, Htre2. psimpl.
    split.
    + exists ws1, ws2.
      split; [unfold exec; rewrite Hs1; reflexivity|].
      split; [unfold exec; rewrite Hs2; reflexivity|].
      split; [same_completions Htrs1 Htrs2|].
      rewrite Htrs1, !count_app.
      destruct (3 <=? vlogLevel w)%nat; cbn; lia.
    + exists we1, we2.
      split; [unfold exec; rewrite He1; reflexivity|].
      split; [unfold exec; rewrite He2; reflexivity|].
      split; [same_completions Htre1 Htre2|].
      rewrite Htre1, !count_app.
      destruct (3 <=? vlogLevel w)%nat,
        (cb_deletesHelper cb && negb (ssl_fd s =? NO_FD)%Z); cbn; lia.
Qed.

Lemma observer_before_completion_witness :
  modern_pending fizz2 (sample_run None modern_script) = true /\
  classic_pending ssl3 (sample_run None fallback_script) = true /\
  (exists w',
     exec (fizzHandshakeSuccess fizz2)
          (with_logger (Some sample_logger) (sample_run None modern_script)) = Some w') /\
  exec (fizzHandshakeSuccess fizz2)
       (with_logger (Some throwing_logger) (sample_run None modern_script)) = None /\
  (exists w1 w2,
     exec (handshakeSuc ssl3)
          (with_logger (Some throwing_logger) (sample_run None fallback_script))
       = Some w1 /\
     exec (handshakeSuc ssl3)
          (with_logger None (sample_run None fallback_script)) = Some w2 /\
     completion_events (trace w1) = completion_events (trace w2)).
Proof.
  assert (H1 : modern_pending fizz2 (sample_run None modern_script) = true)
    by (vm_compute; reflexivity).
  assert (H2 : classic_pending ssl3 (sample_run None fallback_script) = true)
    by (vm_compute; reflexivity).
  split; [exact H1|]. split; [exact H2|]. split; [|split].
  - destruct (proj1 (observer_before_completion
                       (sample_run None modern_script) fizz2 boom sample_logger
                       None None) H1) as (Hret & _).
    destruct (Hret eq_refl) as ((w' & Hw' & _) & _).
    exists w'. exact Hw'.
  - destruct (proj1 (observer_before_completion
                       (sample_run None modern_script) fizz2 boom throwing_logger
                       None None) H1) as (_ & Hthrow & _).
    exact (proj1 (Hthrow eq_refl)).
  - destruct (proj2 (observer_before_completion
                       (sample_run None fallback_script) ssl3 boom sample_logger
                       (Some throwing_logger) None) H2)
      as ((w1 & w2 & Ha & Hb & Hc & _) & _).
    exists w1, w2. repeat split; assumption.
Defined.

(** ** The callback may delete the helper *)

(** C9. With a completion callback that deletes the helper before it
    returns, each of the four methods still runs to its end without touching
    the deleted object (the two modern ones given that the logging callback
    they call first, if any, returns): it leaves the helper deleted, the
    completion call is the last call it makes (after it come only the
    descriptors closed by the deletion itself), and any read of a member
    placed after the callback would fault. *)
Theorem callback_is_last_access w h cb p ex :
  this_ w = Some h ->
  callback_ h = Some cb ->
  cb_deletesHelper cb = true ->
  (modern_pending p w = true -> logger_returns w = true ->
   (exists w', exec (fizzHandshakeSuccess p) w = Some w' /\ this_ w' = None /\
      exists pre e,
        trace w' = trace w ++ pre ++ [e] /\
        is_completion e = true /\ count is_completion pre = 0) /\
   (exists w', exec (fizzHandshakeError p ex) w = Some w' /\ this_ w' = None /\
      exists pre e post,
        trace w' = trace w ++ pre ++ [e] ++ post /\
        is_completion e = true /\ count is_completion pre = 0 /\
        forallb is_close post = true)) /\
  (classic_pending p w = true ->
   (exists w', exec (handshakeSuc p) w = Some w' /\ this_ w' = None /\
      exists pre e,
        trace w' = trace w ++ pre ++ [e] /\
        is_completion e = true /\ count is_completion pre = 0) /\
   (exists w', exec (handshakeErr p ex) w = Some w' /\ this_ w' = None /\
      exists pre e post,
        trace w' = trace w ++ pre ++ [e] ++ post /\
        is_completion e = true /\ count is_completion pre = 0 /\
        forallb is_close post = true)) /\
  (forall A (f : Helper -> A) t a stt err (ex' : HandshakeException),
     exec (connectionReady cb t a stt err ;> member f) w = None /\
     exec (connectionError cb t ex' err ;> member f) w = None).
Proof.
  intros Hh Hcb Hdel. split; [|split].
  - intros Hpend Hlog.
    pose proof (logger_returns_lc _ _ Hh Hlog) as Hlc.
    destruct (modern_pending_spec _ _ Hpend)
      as (h' & t & cb' & Hh' & Htp & Hsp & Hcb' & Ht & Hext).
    rewrite Hh in Hh'. injection Hh' as <-.
    rewrite Hcb in Hcb'. injection Hcb' as <-.
    destruct (fizzHandshakeSuccess_run _ _ p t cb Hh Ht Hcb Hsp Hext Hlc)
      as (ws & Hs & Hths & _ & _ & _ & _ & Htrs & _).
    destruct (fizzHandshakeError_run _ _ p t cb ex Hh Ht Hcb Htp Hsp Hlc)
      as (we & He & Hthe & _ & _ & _ & _ & _ & Htre).
    rewrite Hdel in Hths, Hthe. split.
    + exists ws. split; [unfold exec; rewrite Hs; reflexivity|].
      split; [exact Hths|].
      match type of Htrs with
      | _ = _ ++ ?A ++ ?B ++ [?E] => exists (A ++ B), E
      end.
      split; [rewrite Htrs, <- !app_assoc; reflexivity|].
      split; [reflexivity|].
      rewrite count_app.
      destruct (loggingCallback_ h), (3 <=? vlogLevel w)%nat; reflexivity.
    + exists we. split; [unfold exec; rewrite He; reflexivity|].
      split; [exact Hthe|].
      match type of Htre with
      | _ = _ ++ ?A ++ ?B ++ [?E] ++ ?P => exists (A ++ B), E, P
      end.
      split; [rewrite Htre, <- !app_assoc; reflexivity|].
      split; [reflexivity|]. split.
      * rewrite count_app.
        destruct (loggingCallback_ h), (3 <=? vlogLevel w)%nat; reflexivity.
      * destruct (cb_deletesHelper cb && negb (as_fd (fz_socket t) =? NO_FD)%Z);
          reflexivity.
  - intros Hpend.
    destruct (classic_pending_spec _ _ Hpend)
      as (h' & s & cb' & Hh' & Hsp & Htp & Hcb' & Hs).
    rewrite Hh in Hh'. injection Hh' as <-.
    rewrite Hcb in Hcb'. injection Hcb' as <-.
    destruct (handshakeSuc_run _ _ p s cb Hh Hs Hcb Htp)
      as (ws & Hrs & Hths & _ & _ & _ & _ & Htrs & _).
    destruct (handshakeErr_run _ _ p s cb ex Hh Hs Hcb Hsp Htp)
      as (we & Hre & Hthe & _ & _ & _ & _ & _ & Htre).
    rewrite Hdel in Hths, Hthe. split.
    + exists ws. split; [unfold exec; rewrite Hrs; reflexivity|].
      split; [exact Hths|].
      eexists. eexists. split; [exact Htrs|].
      split; [reflexivity|].
      destruct (3 <=? vlogLevel w)%nat; reflexivity.
    + exists we. split; [unfold exec; rewrite Hre; reflexivity|].
      split; [exact Hthe|].
      eexists. eexists. eexists.
      split; [exact Htre|].
      split; [reflexivity|]. split.
      * destruct (3 <=? vlogLevel w)%nat; reflexivity.
      * destruct (cb_deletesHelper cb && negb (ssl_fd s =? NO_FD)%Z); reflexivity.
  - intros A f t a stt err ex'.
    cbv [exec bind connectionReady connectionError emit modify when deleteThis
         this member ret].
    rewrite Hdel. psimpl. rewrite Hh.
    split.
    + destruct (destroy_unique destroySSLSocket (sslSocket_ h) _) as [[[] w1]|];
        [|reflexivity].
      destruct (destroy_unique destroyFizzServer (transport_ h) w1) as [[[] w2]|];
        reflexivity.
    + destruct (destroy_unique destroySSLSocket (sslSocket_ h) _) as [[[] w1]|];
        [|reflexivity].
      destruct (destroy_unique destroyFizzServer (transport_ h) w1) as [[[] w2]|];
        reflexivity.
Qed.

Lemma callback_is_last_access_witness :
  this_ (sample_run None modern_script)
    = Some (mkHelper (Some sample_callback) (Some 5%N) 1%N None None (Some fizz2) None
                     None 1000000000%Z NO_ERROR) /\
  cb_deletesHelper sample_callback = true /\
  modern_pending fizz2 (sample_run None modern_script) = true /\
  logger_returns (sample_run None modern_script) = true /\
  exists w',
    exec (fizzHandshakeError fizz2 boom) (sample_run None modern_script) = Some w' /\
    this_ w' = None.
Proof.
  assert (H1 : this_ (sample_run None modern_script)
               = Some (mkHelper (Some sample_callback) (Some 5%N) 1%N None None
                                (Some fizz2) None None 1000000000%Z NO_ERROR))
    by (vm_compute; reflexivity).
  assert (H2 : cb_deletesHelper sample_callback = true) by reflexivity.
  assert (H3 : modern_pending fizz2 (sample_run None modern_script) = true)
    by (vm_compute; reflexivity).
  assert (H4 : logger_returns (sample_run None modern_script) = true)
    by (vm_compute; reflexivity).
  split; [exact H1|]. split; [exact H2|]. split; [exact H3|]. split; [exact H4|].
  destruct (proj1 (callback_is_last_access _ _ _ fizz2 boom H1 eq_refl H2) H3 H4)
    as (_ & (w' & Hrun & Hthis & _)).
  exists w'. split; [exact Hrun | exact Hthis].
Defined.

(** * Further properties of the helper *)

(** ** [start] *)

(** X1. [start] stores the callback and the accepted socket's SSL context,
    moves the socket's descriptor and event base into a new modern
    transport built with [context_] and the helper's extension (a fresh
    token-binding extension exactly when a token-binding context is
    configured, shared between helper and transport), and leaves the
    accepted socket object destroyed with its descriptor not closed.  In
    order, it calls [cacheAddresses] on the new socket, constructs the
    transport over it and calls [accept(this)] on the transport; the
    [TransportInfo] is not touched. *)
Theorem start_builds_modern_transport w h sock s cb :
  this_ w = Some h ->
  sslHeap w !! sock = Some s ->
  transport_ h = None ->
  exists w' h' q t,
    exec (start sock cb) w = Some w' /\
    this_ w' = Some h' /\ transport_ h' = Some q /\ fizzHeap w' !! q = Some t /\
    callback_ h' = Some cb /\ sslContext_ h' = ssl_ctx s /\
    sslSocket_ h' = sslSocket_ h /\ acceptTime_ h' = acceptTime_ h /\
    fz_socket t = mkAsyncSocket (ssl_evb s) (ssl_fd s) true /\
    fz_context t = context_ h /\ fz_extensions t = extension_ h' /\
    fz_handshakeCallback t = true /\
    sslHeap w' !! sock = None /\
    tinfo w' = tinfo w /\
    trace w' = trace w
      ++ [EvCacheAddresses;
          EvCreateFizzServer q (fz_socket t) (fz_context t) (fz_extensions t);
          EvFizzAccept q] /\
    match tokenBindingContext_ h with
    | Some c =>
        exists e, extension_ h' = Some e /\ extHeap w' !! e = Some (mkExtension c None)
    | None => extension_ h' = extension_ h /\ extHeap w' = extHeap w
    end.
Proof.
  intros Hh Hs Htp.
  destruct (start_run w h sock s cb Hh Hs Htp)
    as (w' & q & Hrun & Hthis & Hti & Hfh & Hsh & Heh & _ & Htr).
  eexists w', _, q, _.
  split; [unfold exec; rewrite Hrun; reflexivity|].
  split; [exact Hthis|]. psimpl.
  split; [reflexivity|].
  split; [rewrite Hfh; apply lookup_insert_eq|]. psimpl.
  repeat (split; [reflexivity|]).
  split; [rewrite Hsh; apply lookup_delete_eq|].
  split; [exact Hti|]. split; [exact Htr|].
  destruct (tokenBindingContext_ h) as [c|].
  - eexists. split; [reflexivity|]. rewrite Heh. apply lookup_insert_eq.
  - split; [reflexivity | exact Heh].
Qed.

Lemma start_builds_modern_transport_witness :
  this_ sample_world_tb = Some sample_helper_tb /\
  sslHeap sample_world_tb !! sock1 = Some sample_socket /\
  transport_ sample_helper_tb = None /\
  exists w' h',
    exec (start sock1 sample_callback) sample_world_tb = Some w' /\
    this_ w' = Some h' /\ callback_ h' = Some sample_callback.
Proof.
  assert (H1 : this_ sample_world_tb = Some sample_helper_tb) by reflexivity.
  assert (H2 : sslHeap sample_world_tb !! sock1 = Some sample_socket)
    by (vm_compute; reflexivity).
  assert (H3 : transport_ sample_helper_tb = None) by reflexivity.
  repeat (split; [assumption|]).
  destruct (start_builds_modern_transport _ _ _ _ sample_callback H1 H2 H3)
    as (w' & h' & q & t & Hrun & Hthis & _ & _ & Hcb & _).
  exists w', h'. repeat split; assumption.
Defined.

(** ** A fallback needs the modern transport *)

Lemma fallback_null_transport w h hello :
  this_ w = Some h -> transport_ h = None ->
  fizzHandshakeAttemptFallback hello w = None.
Proof.
  destruct w as [th ti fh sh eh np ck vl tr]; psimpl.
  intros -> Htp.
  destruct h as [cbk sc cx tb e tp sp lc at_ er]; psimpl; subst.
  destruct (3 <=? vl)%nat eqn:Hv; mstep; reflexivity.
Qed.

(** X2. The fallback has no guard: it reads the event base and the
    descriptor through [transport_].  Once a fallback has run, [transport_]
    is null, so a second fallback request dereferences a null pointer; so
    does a fallback request on a helper that was never started. *)
Theorem second_fallback_faults w p hello hello' :
  modern_pending p w = true ->
  exists w',
    exec (fizzHandshakeAttemptFallback hello) w = Some w' /\
    fizzHandshakeAttemptFallback hello' w' = None /\
    forall w0 h0,
      this_ w0 = Some h0 -> transport_ h0 = None ->
      fizzHandshakeAttemptFallback hello' w0 = None.
Proof.
  intros Hpend.
  destruct (modern_pending_spec _ _ Hpend) as (h & t & cb & Hh & Htp & Hsp & _ & Ht & _).
  destruct (fizzHandshakeAttemptFallback_run w h p t hello Hh Htp Hsp Ht)
    as (w' & Hrun & Hthis & _).
  exists w'. split; [unfold exec; rewrite Hrun; reflexivity|].
  split; [|intros w0 h0; apply fallback_null_transport].
  eapply fallback_null_transport; [exact Hthis | reflexivity].
Qed.

Lemma second_fallback_faults_witness :
  modern_pending fizz2 (sample_run None modern_script) = true /\
  exists w',
    exec (fizzHandshakeAttemptFallback (Some sample_hello))
         (sample_run None modern_script) = Some w' /\
    fizzHandshakeAttemptFallback (Some sample_hello) w' = None.
Proof.
  assert (H : modern_pending fizz2 (sample_run None modern_script) = true)
    by (vm_compute; reflexivity).
  split; [exact H|].
  destruct (second_fallback_faults _ _ (Some sample_hello) (Some sample_hello) H)
    as (w' & H1 & H2 & _).
  exists w'. split; assumption.
Defined.

(** ** More of what the methods leave behind *)

Lemma fizzHandshakeSuccess_fills w h p t cb :
  this_ w = Some h ->
  fizzHeap w !! p = Some t ->
  callback_ h = Some cb ->
  sslSocket_ h = None ->
  (forall e, extension_ h = Some e -> is_Some (extHeap w !! e)) ->
  lc_returns (loggingCallback_ h) = true ->
  exists w',
    fizzHandshakeSuccess p w = Some (tt, w') /\
    negotiatedTokenBindingKeyParameters (tinfo w') =
      match negotiated_param h w with
      | Some k => Some (k mod 256)%N
      | None => negotiatedTokenBindingKeyParameters (tinfo w)
      end /\
    sslServerName (tinfo w') =
      match client_sni t with
      | Some n => Some n
      | None => sslServerName (tinfo w)
      end.
Proof.
  destruct w as [th ti fh sh eh np ck vl tr]; psimpl.
  intros -> Hp Hcb Hs He Hlc.
  destruct h as [cbk sc cx tb ex tp sp lc at_ er]; psimpl; subst.
  destruct t as [so fc fe fcb ap hl rx tx pr].
  destruct cb as [ci del].
  assert (Hlc' : match lc with Some l => lc_fails l = false | None => True end).
  { destruct lc as [[li []]|]; [discriminate | reflexivity | exact I]. }
  clear Hlc.
  assert (Hex : match ex with
                | Some e => exists x, eh !! e = Some x
                | None => True
                end).
  { destruct ex as [e|]; [destruct (He e eq_refl) as [x Hx]; eauto | exact I]. }
  clear He. unfold negotiated_param, client_sni. psimpl.
  destruct ex as [e|]; [destruct Hex as [[ec [k|]] Hx] | ];
    destruct lc as [[li lf]|]; psimpl; subst;
    destruct (3 <=? vl)%nat eqn:Hv, hl as [[[sni|]]|], del;
    mstep; (eexists; split; [reflexivity|]); psimpl; split; reflexivity.
Qed.

Section Frames.
Variables (ctx : option SSLContext) (evb : EventBase) (fd : Z).
Variable w : World.
Hypothesis Hinv : session_inv ctx evb fd w.

Lemma FizzSuccess_frame p w' :
  step (FizzSuccess p) w = Some w' ->
  exists h t cb,
    this_ w = Some h /\ fizzHeap w !! p = Some t /\ callback_ h = Some cb /\
    as_fd (fz_socket t) = fd /\ as_evb (fz_socket t) = evb /\
    this_ w' = (if cb_deletesHelper cb then None else Some (set_transport_ None h)) /\
    fizzHeap w' = <[p:=fz_set_handshakeCallback false t]> (fizzHeap w) /\
    sslHeap w' = sslHeap w /\
    negotiatedTokenBindingKeyParameters (tinfo w') =
      match negotiated_param h w with
      | Some k => Some (k mod 256)%N
      | None => negotiatedTokenBindingKeyParameters (tinfo w)
      end /\
    sslServerName (tinfo w') =
      match client_sni t with
      | Some n => Some n
      | None => sslServerName (tinfo w)
      end.
Proof.
  intros Hs. destruct (step_deliver _ _ _ Hs) as [He Hd]. cbn [enabled deliver] in *.
  destruct (fizz_awaiting_true _ _ He) as (t & Hp & Hc).
  destruct (inv_fizz _ _ _ _ Hinv _ _ Hp Hc)
    as (h & cb & Hh & Htp & Hsp & Hcb & _ & Hevb & Hfd & _).
  assert (Hext : forall e, extension_ h = Some e -> is_Some (extHeap w !! e)).
  { intros e He'. exact (inv_ext _ _ _ _ Hinv _ _ Hh He'). }
  destruct (fizzHandshakeSuccess_run
              (set_fizzHeap (<[p:=fz_set_handshakeCallback false t]> (fizzHeap w)) w)
              h p (fz_set_handshakeCallback false t) cb)
    as (w2 & Hrun & Hthis & Hfh & Hsh & _);
    psimpl; try assumption.
  { apply lookup_insert_eq. }
  { exact (logger_returns_lc _ _ Hh (step_returns _ _ _ Hs)). }
  destruct (fizzHandshakeSuccess_fills
              (set_fizzHeap (<[p:=fz_set_handshakeCallback false t]> (fizzHeap w)) w)
              h p (fz_set_handshakeCallback false t) cb)
    as (w3 & Hrun3 & Hparam & Hsni);
    psimpl; try assumption.
  { apply lookup_insert_eq. }
  { exact (logger_returns_lc _ _ Hh (step_returns _ _ _ Hs)). }
  rewrite Hrun in Hrun3. injection Hrun3 as <-.
  rewrite (exec_updFizz _ _ _ _ _ Hp) in Hd. unfold exec in Hd. rewrite Hrun in Hd.
  injection Hd as <-.
  exists h, t, cb.
  unfold negotiated_param in *. psimpl.
  unfold client_sni in *. cbn [fz_set_handshakeCallback fz_handshakeLogging] in Hsni.
  repeat split; assumption.
Qed.

Lemma SslSuc_frame p w' :
  step (SslSuc p) w = Some w' ->
  exists h s cb,
    this_ w = Some h /\ sslHeap w !! p = Some s /\ callback_ h = Some cb /\
    ssl_fd s = fd /\ ssl_evb s = evb /\
    this_ w' = (if cb_deletesHelper cb then None else Some (set_sslSocket_ None h)) /\
    sslHeap w' = <[p:=ssl_set_handshakeCallback false s]> (sslHeap w) /\
    fizzHeap w' = fizzHeap w.
Proof.
  intros Hs. destruct (step_deliver _ _ _ Hs) as [He Hd]. cbn [enabled deliver] in *.
  destruct (ssl_awaiting_true _ _ He) as (s & Hp & Hc).
  destruct (inv_ssl _ _ _ _ Hinv _ _ Hp Hc)
    as (h & cb & Hh & Hsp & Htp & Hcb & _ & Hevb & Hfd & _).
  destruct (handshakeSuc_run
              (set_sslHeap (<[p:=ssl_set_handshakeCallback false s]> (sslHeap w)) w)
              h p (ssl_set_handshakeCallback false s) cb)
    as (w2 & Hrun & Hthis & Hfh & Hsh & _);
    psimpl; try assumption.
  { apply lookup_insert_eq. }
  rewrite (exec_updSSL _ _ _ _ _ Hp) in Hd. unfold exec in Hd. rewrite Hrun in Hd.
  injection Hd as <-.
  exists h, s, cb. repeat split; assumption.
Qed.

Lemma FizzFallback_frame p hello w' :
  step (FizzFallback p hello) w = Some w' ->
  exists h t,
    this_ w = Some h /\ fizzHeap w !! p = Some t /\
    this_ w' = Some (set_sslSocket_ (Some (nextPtr w)) (set_transport_ None h)) /\
    tinfo w' = tinfo w /\ extHeap w' = extHeap w /\
    fizzHeap w' = delete p (fizzHeap w) /\
    sslHeap w' = <[nextPtr w := fallback_socket h t (Some hello)]> (sslHeap w) /\
    trace w' = trace w
      ++ (if (3 <=? vlogLevel w)%nat then [EvVlog VFallbackToOpenSSL] else [])
      ++ fallback_events p (nextPtr w) h t (Some hello).
Proof.
  intros Hs. destruct (step_deliver _ _ _ Hs) as [He Hd]. cbn [enabled deliver] in *.
  destruct (fizz_awaiting_true _ _ He) as (t & Hp & Hc).
  destruct (inv_fizz _ _ _ _ Hinv _ _ Hp Hc)
    as (h & cb & Hh & Htp & Hsp & Hcb & _).
  destruct (fizzHandshakeAttemptFallback_run
              (set_fizzHeap (<[p:=fz_set_handshakeCallback false t]> (fizzHeap w)) w)
              h p (fz_set_handshakeCallback false t) (Some hello))
    as (w2 & Hrun & Hthis & Hti & Hfh & Hsh & Heh & _ & Htr);
    psimpl; try assumption.
  { apply lookup_insert_eq. }
  rewrite (exec_updFizz _ _ _ _ _ Hp) in Hd. unfold exec in Hd. rewrite Hrun in Hd.
  injection Hd as <-.
  exists h, t. rewrite delete_insert_eq in Hfh.
  repeat split; assumption.
Qed.
End Frames.

Lemma terminal_count_app a b :
  terminal_count (a ++ b) = terminal_count a + terminal_count b.
Proof. induction a as [|n a IH]; cbn; [reflexivity | rewrite IH; lia]. Qed.

Lemma modern_terminal_count_le ns : modern_terminal_count ns <= terminal_count ns.
Proof.
  induction ns as [|n ns IH]; cbn; [lia|]. destruct n; cbn; lia.
Qed.

Lemma no_terminal_no_outcome ns :
  terminal_count ns = 0 -> no_success ns = true /\ no_failure ns = true.
Proof.
  induction ns as [|n ns IH]; cbn; [auto|].
  intros H. destruct n; cbn in *; try discriminate; apply IH; lia.
Qed.

Lemma logger_set_same w w' : this_ w' = this_ w -> logger_set w' = logger_set w.
Proof. unfold logger_set. intros ->. reflexivity. Qed.

(** What one notification adds to the log, closes, and writes. *)
Lemma step_frame ctx evb fd n w w' :
  session_inv ctx evb fd w -> step n w = Some w' ->
  (is_success n = false -> tinfo w' = tinfo w) /\
  (is_failure n = false -> count is_close (trace w') = count is_close (trace w)) /\
  count is_log (trace w') =
    count is_log (trace w) + (if is_modern_terminal n && logger_set w then 1 else 0) /\
  (is_terminal n = false -> logger_set w' = logger_set w).
Proof.
  intros Hinv Hs.
  assert (Henv : is_terminal n = false -> is_fallback n = false ->
                 (is_success n = false -> tinfo w' = tinfo w) /\
                 (is_failure n = false ->
                  count is_close (trace w') = count is_close (trace w)) /\
                 count is_log (trace w') =
                   count is_log (trace w)
                   + (if is_modern_terminal n && logger_set w then 1 else 0) /\
                 (is_terminal n = false -> logger_set w' = logger_set w)).
  { intros Ht Hf.
    destruct (step_inv _ _ _ _ _ _ Hinv Hs) as (_ & _ & _ & _ & Hsame & _).
    destruct (Hsame Ht Hf) as (Hth & Htr & Hti).
    rewrite Htr.
    assert (Hm : is_modern_terminal n = false) by (destruct n; try reflexivity; discriminate).
    rewrite Hm. cbn [andb].
    split; [auto|]. split; [auto|]. split; [lia|].
    intros _. apply logger_set_same, Hth. }
  destruct n; try (apply Henv; reflexivity).
  - destruct (FizzSuccess_result _ _ _ _ Hinv _ _ Hs)
      as (h & t & cb & Hh & _ & _ & _ & _ & _ & Htr & _).
    split; [discriminate|]. split; [intros _; count_trace|].
    split; [|discriminate].
    unfold logger_set. rewrite Hh. cbn [is_modern_terminal andb]. count_trace.
  - destruct (FizzError_result _ _ _ _ Hinv _ _ _ Hs)
      as (h & t & cb & Hh & _ & _ & _ & _ & _ & Hti & _ & Htr & _).
    split; [intros _; exact Hti|]. split; [discriminate|].
    split; [|discriminate].
    unfold logger_set. rewrite Hh. cbn [is_modern_terminal andb]. count_trace.
  - destruct (FizzFallback_frame _ _ _ _ Hinv _ _ _ Hs)
      as (h & t & Hh & _ & Hthis & Hti & _ & _ & _ & Htr).
    unfold fallback_events in Htr.
    split; [intros _; exact Hti|]. split; [intros _; count_trace|].
    split; [cbn [is_modern_terminal andb]; count_trace|].
    intros _. unfold logger_set. rewrite Hthis, Hh. reflexivity.
  - destruct (SslSuc_result _ _ _ _ Hinv _ _ Hs)
      as (h & s & cb & Hh & _ & _ & _ & _ & _ & Htr & _).
    split; [discriminate|]. split; [intros _; count_trace|].
    split; [|discriminate].
    cbn [is_modern_terminal andb]. count_trace.
  - destruct (SslErr_result _ _ _ _ Hinv _ _ _ Hs)
      as (h & s & cb & Hh & _ & _ & _ & _ & _ & Hti & Htr & _).
    split; [intros _; exact Hti|]. split; [discriminate|].
    split; [|discriminate].
    cbn [is_modern_terminal andb]. count_trace.
Qed.

Lemma run_frame ctx evb fd ns : forall w w',
  session_inv ctx evb fd w -> run ns w = Some w' ->
  (no_success ns = true -> tinfo w' = tinfo w) /\
  (no_failure ns = true -> count is_close (trace w') = count is_close (trace w)) /\
  count is_log (trace w') =
    count is_log (trace w) + (if logger_set w then modern_terminal_count ns else 0).
Proof.
  induction ns as [|n ns IH]; intros w w' Hinv Hr; cbn [run] in Hr.
  - injection Hr as <-. cbn [modern_terminal_count].
    repeat split; try reflexivity. destruct (logger_set w); lia.
  - destruct (step n w) as [w1|] eqn:Hs; [|discriminate].
    destruct (step_inv _ _ _ _ _ _ Hinv Hs) as (Hi1 & _ & _ & Hq1 & _).
    destruct (step_frame _ _ _ _ _ _ Hinv Hs) as (Hti & Hcl & Hlog & Hls).
    destruct (IH _ _ Hi1 Hr) as (Hti' & Hcl' & Hlog').
    split; [|split].
    + cbn [no_success forallb]. intros H. apply andb_true_iff in H as [Hn Hns].
      rewrite (Hti' Hns). apply Hti. destruct (is_success n); [discriminate|reflexivity].
    + cbn [no_failure forallb]. intros H. apply andb_true_iff in H as [Hn Hns].
      rewrite (Hcl' Hns). apply Hcl. destruct (is_failure n); [discriminate|reflexivity].
    + rewrite Hlog', Hlog. cbn [modern_terminal_count].
      destruct (is_terminal n) eqn:Hterm.
      * destruct (run_quiescent _ _ _ (Hq1 eq_refl) Hr) as (_ & Htc & _).
        pose proof (modern_terminal_count_le ns) as Hle.
        assert (Hz : modern_terminal_count ns = 0) by lia. rewrite Hz.
        destruct (is_modern_terminal n), (logger_set w), (logger_set w1); cbn; lia.
      * rewrite (Hls eq_refl).
        assert (Hm : is_modern_terminal n = false)
          by (destruct n; try reflexivity; discriminate).
        rewrite Hm. cbn [andb]. destruct (logger_set w); lia.
Qed.

(** The same, from the start of the session. *)
Lemma session_frame sock cb ns w0 w' :
  initial sock w0 = true ->
  session sock cb ns w0 = Some w' ->
  (no_success ns = true -> tinfo w' = tinfo w0) /\
  (no_failure ns = true -> count is_close (trace w') = 0) /\
  count is_log (trace w') = (if logger_set w0 then modern_terminal_count ns else 0).
Proof.
  intros Hinit Hses. unfold session in Hses.
  destruct (start_ok sock cb w0 Hinit)
    as (h0 & s0 & w1 & q & Hh0 & Hs0 & Hstart & Hinv & (a0 & e0 & Htr) & Haw & Hti & Hck
        & h1 & Hh1 & Hcb1 & Hctx1 & Hat1 & Her1 & Hlc1).
  rewrite Hstart in Hses.
  destruct (run_frame _ _ _ _ _ _ Hinv Hses) as (Hti' & Hcl' & Hlog').
  assert (Hls : logger_set w1 = logger_set w0).
  { unfold logger_set. rewrite Hh1, Hh0, Hlc1. reflexivity. }
  rewrite Htr, Hls in *. cbn in Hcl', Hlog'.
  split; [intros H; rewrite (Hti' H); exact Hti|]. split; assumption.
Qed.

(** ** Only a success writes the [TransportInfo] *)

(** X3. In a session in which no success has been delivered, the
    [TransportInfo] is exactly what it was before [start]: [start], the
    fallback and both error methods never write to it, so after a failure
    not even [acceptTime] is filled in. *)
Theorem transport_info_only_on_success sock cb ns w0 w' :
  initial sock w0 = true ->
  session sock cb ns w0 = Some w' ->
  no_success ns = true ->
  tinfo w' = tinfo w0.
Proof.
  intros Hinit Hses Hns.
  exact (proj1 (session_frame _ _ _ _ _ Hinit Hses) Hns).
Qed.

Lemma transport_info_only_on_success_witness :
  initial sock1 (sample_world None) = true /\
  session sock1 sample_callback (fallback_script ++ [SslErr ssl3 boom])
          (sample_world None)
    = Some (sample_run None (fallback_script ++ [SslErr ssl3 boom])) /\
  no_success (fallback_script ++ [SslErr ssl3 boom]) = true /\
  tinfo (sample_run None (fallback_script ++ [SslErr ssl3 boom])) = empty_tinfo.
Proof.
  assert (H1 : initial sock1 (sample_world None) = true) by (vm_compute; reflexivity).
  assert (H2 : session sock1 sample_callback (fallback_script ++ [SslErr ssl3 boom])
                 (sample_world None)
               = Some (sample_run None (fallback_script ++ [SslErr ssl3 boom])))
    by (vm_compute; reflexivity).
  assert (H3 : no_success (fallback_script ++ [SslErr ssl3 boom]) = true)
    by reflexivity.
  repeat (split; [assumption|]).
  exact (transport_info_only_on_success _ _ _ _ _ H1 H2 H3).
Defined.

(** ** The descriptor stays open *)

(** X4. In a session in which no failure has been delivered, no descriptor
    is closed: neither [start] (which destroys the accepted socket object),
    nor the fallback (which destroys the modern transport), nor a success
    with a callback that deletes the helper closes anything. *)
Theorem no_close_without_failure sock cb ns w0 w' :
  initial sock w0 = true ->
  session sock cb ns w0 = Some w' ->
  no_failure ns = true ->
  count is_close (trace w') = 0.
Proof.
  intros Hinit Hses Hnf.
  exact (proj1 (proj2 (session_frame _ _ _ _ _ Hinit Hses)) Hnf).
Qed.

Lemma no_close_without_failure_witness :
  initial sock1 (sample_world None) = true /\
  session sock1 sample_callback (fallback_script ++ [SslSuc ssl3]) (sample_world None)
    = Some (sample_run None (fallback_script ++ [SslSuc ssl3])) /\
  no_failure (fallback_script ++ [SslSuc ssl3]) = true /\
  count is_close (trace (sample_run None (fallback_script ++ [SslSuc ssl3]))) = 0.
Proof.
  assert (H1 : initial sock1 (sample_world None) = true) by (vm_compute; reflexivity).
  assert (H2 : session sock1 sample_callback (fallback_script ++ [SslSuc ssl3])
                 (sample_world None)
               = Some (sample_run None (fallback_script ++ [SslSuc ssl3])))
    by (vm_compute; reflexivity).
  assert (H3 : no_failure (fallback_script ++ [SslSuc ssl3]) = true) by reflexivity.
  repeat (split; [assumption|]).
  exact (no_close_without_failure _ _ _ _ _ H1 H2 H3).
Defined.

(** ** How often the logging callback is called *)

(** X5. Over a whole session the logging callback is called as many times
    as modern terminal notifications ([fizzHandshakeSuccess],
    [fizzHandshakeError]) are delivered while it is set, so at most once;
    [start], the fallback and the two classic methods never call it, and
    without a logging callback nothing is logged. *)
Theorem logging_calls_counted sock cb ns w0 w' :
  initial sock w0 = true ->
  session sock cb ns w0 = Some w' ->
  count is_log (trace w') = (if logger_set w0 then modern_terminal_count ns else 0) /\
  count is_log (trace w') <= 1.
Proof.
  intros Hinit Hses.
  destruct (session_frame _ _ _ _ _ Hinit Hses) as (_ & _ & Hlog).
  destruct (session_reach _ _ _ _ _ Hinit Hses) as (_ & _ & _ & _ & _ & _ & Hle & _).
  split; [exact Hlog|]. rewrite Hlog.
  pose proof (modern_terminal_count_le ns). destruct (logger_set w0); lia.
Qed.

Lemma logging_calls_counted_witness :
  initial sock1 (sample_world (Some sample_logger)) = true /\
  session sock1 sample_callback (modern_script ++ [FizzError fizz2 boom])
          (sample_world (Some sample_logger))
    = Some (sample_run (Some sample_logger) (modern_script ++ [FizzError fizz2 boom])) /\
  count is_log (trace (sample_run (Some sample_logger)
                                  (modern_script ++ [FizzError fizz2 boom]))) = 1.
Proof.
  assert (H1 : initial sock1 (sample_world (Some sample_logger)) = true)
    by (vm_compute; reflexivity).
  assert (H2 : session sock1 sample_callback (modern_script ++ [FizzError fizz2 boom])
                 (sample_world (Some sample_logger))
               = Some (sample_run (Some sample_logger)
                                  (modern_script ++ [FizzError fizz2 boom])))
    by (vm_compute; reflexivity).
  repeat (split; [assumption|]).
  exact (proj1 (logging_calls_counted _ _ _ _ _ H1 H2)).
Defined.

(** ** Who owns the transport at the end *)

Section ErrorFrames.
Variables (ctx : option SSLContext) (evb : EventBase) (fd : Z).
Variable w : World.
Hypothesis Hinv : session_inv ctx evb fd w.

Lemma FizzError_frame p ex w' :
  step (FizzError p ex) w = Some w' ->
  exists h t cb,
    this_ w = Some h /\ fizzHeap w !! p = Some t /\ callback_ h = Some cb /\
    transport_ h = Some p /\ as_fd (fz_socket t) = fd /\
    this_ w' = (if cb_deletesHelper cb then None else Some h) /\
    fizzHeap w' = (if cb_deletesHelper cb then delete p (fizzHeap w)
                   else <[p:=fz_set_handshakeCallback false t]> (fizzHeap w)) /\
    exists pre,
      count is_close pre = 0 /\
      trace w' = trace w ++ pre
        ++ (if cb_deletesHelper cb && negb (fd =? NO_FD)%Z then [EvCloseFd fd] else []).
Proof.
  intros Hs. destruct (step_deliver _ _ _ Hs) as [He Hd]. cbn [enabled deliver] in *.
  destruct (fizz_awaiting_true _ _ He) as (t & Hp & Hc).
  destruct (inv_fizz _ _ _ _ Hinv _ _ Hp Hc)
    as (h & cb & Hh & Htp & Hsp & Hcb & _ & _ & Hfd & _).
  destruct (fizzHandshakeError_run
              (set_fizzHeap (<[p:=fz_set_handshakeCallback false t]> (fizzHeap w)) w)
              h p (fz_set_handshakeCallback false t) cb ex)
    as (w2 & Hrun & Hthis & _ & Hfh & _ & _ & _ & Htr);
    psimpl; try assumption.
  { apply lookup_insert_eq. }
  { exact (logger_returns_lc _ _ Hh (step_returns _ _ _ Hs)). }
  rewrite (exec_updFizz _ _ _ _ _ Hp) in Hd. unfold exec in Hd. rewrite Hrun in Hd.
  injection Hd as <-.
  exists h, t, cb.
  cbn [fz_set_handshakeCallback fz_rawBytesReceived fz_rawBytesWritten fz_socket] in Htr.
  rewrite Hfd in Htr. rewrite delete_insert_eq in Hfh.
  repeat (split; [assumption|]).
  match type of Htr with
  | _ = _ ++ ?A ++ ?B ++ ?E :: _ => exists (A ++ B ++ [E])
  end.
  split; [|rewrite Htr, <- !app_assoc; reflexivity].
  rewrite !count_app.
  destruct (loggingCallback_ h), (3 <=? vlogLevel w)%nat; reflexivity.
Qed.

Lemma SslErr_frame p ex w' :
  step (SslErr p ex) w = Some w' ->
  exists h s cb,
    this_ w = Some h /\ sslHeap w !! p = Some s /\ callback_ h = Some cb /\
    sslSocket_ h = Some p /\ ssl_fd s = fd /\
    this_ w' = (if cb_deletesHelper cb then None else Some h) /\
    sslHeap w' = (if cb_deletesHelper cb then delete p (sslHeap w)
                  else <[p:=ssl_set_handshakeCallback false s]> (sslHeap w)) /\
    exists pre,
      count is_close pre = 0 /\
      trace w' = trace w ++ pre
        ++ (if cb_deletesHelper cb && negb (fd =? NO_FD)%Z then [EvCloseFd fd] else []).
Proof.
  intros Hs. destruct (step_deliver _ _ _ Hs) as [He Hd]. cbn [enabled deliver] in *.
  destruct (ssl_awaiting_true _ _ He) as (s & Hp & Hc).
  destruct (inv_ssl _ _ _ _ Hinv _ _ Hp Hc)
    as (h & cb & Hh & Hsp & Htp & Hcb & _ & _ & Hfd & _).
  destruct (handshakeErr_run
              (set_sslHeap (<[p:=ssl_set_handshakeCallback false s]> (sslHeap w)) w)
              h p (ssl_set_handshakeCallback false s) cb ex)
    as (w2 & Hrun & Hthis & _ & _ & Hsh & _ & _ & Htr);
    psimpl; try assumption.
  { apply lookup_insert_eq. }
  rewrite (exec_updSSL _ _ _ _ _ Hp) in Hd. unfold exec in Hd. rewrite Hrun in Hd.
  injection Hd as <-.
  exists h, s, cb.
  cbn [ssl_set_handshakeCallback ssl_rawBytesReceived ssl_rawBytesWritten ssl_fd] in Htr.
  rewrite Hfd in Htr. rewrite delete_insert_eq in Hsh.
  repeat (split; [assumption|]).
  match type of Htr with
  | _ = _ ++ ?B ++ ?E :: _ => exists (B ++ [E])
  end.
  split; [|rewrite Htr, <- !app_assoc; reflexivity].
  rewrite !count_app.
  destruct (3 <=? vlogLevel w)%nat; reflexivity.
Qed.
End ErrorFrames.

Lemma session_last_terminal sock cb ns n w0 w' :
  initial sock w0 = true ->
  session sock cb (ns ++ [n]) w0 = Some w' ->
  is_terminal n = true ->
  terminal_count ns = 0.
Proof.
  intros Hinit Hses Hn.
  destruct (session_reach _ _ _ _ _ Hinit Hses) as (_ & _ & _ & _ & _ & _ & Hle & _).
  rewrite terminal_count_app in Hle. cbn in Hle. rewrite Hn in Hle. lia.
Qed.

(** X6. A failure leaves the failed transport with the helper:
    [connectionError] gets a plain pointer.  If the callback deletes the
    helper, the transport goes with it and the accepted descriptor is
    closed, once; if it does not, the helper still points at the live
    transport, which still holds the accepted descriptor, and nothing is
    closed. *)
Theorem failure_keeps_transport_with_helper sock cb ns n w0 s0 w' :
  initial sock w0 = true ->
  sslHeap w0 !! sock = Some s0 ->
  is_failure n = true ->
  session sock cb (ns ++ [n]) w0 = Some w' ->
  count is_close (trace w') =
    (if cb_deletesHelper cb && negb (ssl_fd s0 =? NO_FD)%Z then 1 else 0) /\
  exists T,
    notifier n = Some T /\
    (cb_deletesHelper cb = true ->
       this_ w' = None /\ transport_fd T w' = None /\
       (ssl_fd s0 <> NO_FD -> In (EvCloseFd (ssl_fd s0)) (trace w'))) /\
    (cb_deletesHelper cb = false ->
       transport_fd T w' = Some (ssl_fd s0) /\
       exists h, this_ w' = Some h /\
                 match T with
                 | FizzT p => transport_ h = Some p
                 | SslT p => sslSocket_ h = Some p
                 end).
Proof.
  intros Hinit Hs0 Hn Hses.
  assert (Hterm : is_terminal n = true) by (destruct n; try discriminate; reflexivity).
  pose proof (session_last_terminal _ _ _ _ _ _ Hinit Hses Hterm) as Hzero.
  destruct (no_terminal_no_outcome _ Hzero) as [_ Hnf].
  destruct (session_snoc _ _ _ _ _ _ Hses) as (w1 & Hses1 & Hstep).
  destruct (session_reach _ _ _ _ _ Hinit Hses1)
    as (h0 & s0' & _ & Hs0' & Hinv & _ & _ & _ & _ & Hconst).
  rewrite Hs0 in Hs0'. injection Hs0' as <-.
  destruct (session_frame _ _ _ _ _ Hinit Hses1) as (_ & Hcl & _).
  specialize (Hcl Hnf).
  destruct n; try discriminate.
  - destruct (FizzError_frame _ _ _ _ Hinv _ _ _ Hstep)
      as (h & t & cb' & Hh & Ht & Hcb & Htp & Hfd & Hthis & Hfh & pre & Hpre & Htr).
    destruct (Hconst _ Hh) as (Hcb' & _). rewrite Hcb' in Hcb. injection Hcb as <-.
    split.
    + rewrite Htr, !count_app, Hcl, Hpre.
      destruct (cb_deletesHelper cb && negb (ssl_fd s0 =? NO_FD)%Z); reflexivity.
    + exists (FizzT p). split; [reflexivity|]. split.
      * intros Hdel. rewrite Hdel in *. split; [exact Hthis|].
        split; [cbn; rewrite Hfh, lookup_delete_eq; reflexivity|].
        intros Hne. rewrite Htr. apply in_or_app. right. apply in_or_app. right.
        apply Z.eqb_neq in Hne. rewrite Hne. left. reflexivity.
      * intros Hdel. rewrite Hdel in *.
        split; [cbn; rewrite Hfh, lookup_insert_eq; cbn; rewrite Hfd; reflexivity|].
        exists h. split; assumption.
  - destruct (SslErr_frame _ _ _ _ Hinv _ _ _ Hstep)
      as (h & s & cb' & Hh & Ht & Hcb & Hsp & Hfd & Hthis & Hsh & pre & Hpre & Htr).
    destruct (Hconst _ Hh) as (Hcb' & _). rewrite Hcb' in Hcb. injection Hcb as <-.
    split.
    + rewrite Htr, !count_app, Hcl, Hpre.
      destruct (cb_deletesHelper cb && negb (ssl_fd s0 =? NO_FD)%Z); reflexivity.
    + exists (SslT p). split; [reflexivity|]. split.
      * intros Hdel. rewrite Hdel in *. split; [exact Hthis|].
        split; [cbn; rewrite Hsh, lookup_delete_eq; reflexivity|].
        intros Hne. rewrite Htr. apply in_or_app. right. apply in_or_app. right.
        apply Z.eqb_neq in Hne. rewrite Hne. left. reflexivity.
      * intros Hdel. rewrite Hdel in *.
        split; [cbn; rewrite Hsh, lookup_insert_eq; cbn; rewrite Hfd; reflexivity|].
        exists h. split; assumption.
Qed.

Lemma failure_keeps_transport_with_helper_witness :
  initial sock1 (sample_world None) = true /\
  sslHeap (sample_world None) !! sock1 = Some sample_socket /\
  is_failure (FizzError fizz2 boom) = true /\
  session sock1 keeping_callback (modern_script ++ [FizzError fizz2 boom])
          (sample_world None)
    = Some (default (sample_world None)
              (session sock1 keeping_callback (modern_script ++ [FizzError fizz2 boom])
                       (sample_world None))) /\
  count is_close
    (trace (default (sample_world None)
              (session sock1 keeping_callback (modern_script ++ [FizzError fizz2 boom])
                       (sample_world None)))) = 0.
Proof.
  assert (H1 : initial sock1 (sample_world None) = true) by (vm_compute; reflexivity).
  assert (H2 : sslHeap (sample_world None) !! sock1 = Some sample_socket)
    by (vm_compute; reflexivity).
  assert (H3 : is_failure (FizzError fizz2 boom) = true) by reflexivity.
  assert (H4 : session sock1 keeping_callback (modern_script ++ [FizzError fizz2 boom])
                 (sample_world None)
               = Some (default (sample_world None)
                         (session sock1 keeping_callback
                                  (modern_script ++ [FizzError fizz2 boom])
                                  (sample_world None))))
    by (vm_compute; reflexivity).
  repeat (split; [assumption|]).
  exact (proj1 (failure_keeps_transport_with_helper _ _ _ _ _ _ _ H1 H2 H3 H4)).
Defined.

Lemma no_failure_app a b : no_failure (a ++ b) = no_failure a && no_failure b.
Proof. unfold no_failure. apply forallb_app. Qed.

(** X7. A success moves the transport to the callback: the transport
    handed to [connectionReady] is the engine that reported the success, it
    is alive afterwards even if the callback deleted the helper, it runs on
    the accepted socket's descriptor and event base, nothing has been
    closed, and the helper, if it still exists, points at no engine. *)
Theorem success_moves_transport_to_callback sock cb ns n w0 s0 w' :
  initial sock w0 = true ->
  sslHeap w0 !! sock = Some s0 ->
  is_success n = true ->
  session sock cb (ns ++ [n]) w0 = Some w' ->
  exists T a,
    notifier n = Some T /\
    completion_events (trace w') = [EvConnectionReady cb (Some T) a TLS NO_ERROR] /\
    transport_fd T w' = Some (ssl_fd s0) /\
    transport_evb T w' = Some (ssl_evb s0) /\
    count is_close (trace w') = 0 /\
    modern_engine w' = None /\ classic_engine w' = None.
Proof.
  intros Hinit Hs0 Hn Hses.
  assert (Hterm : is_terminal n = true) by (destruct n; try discriminate; reflexivity).
  pose proof (session_last_terminal _ _ _ _ _ _ Hinit Hses Hterm) as Hzero.
  destruct (no_terminal_no_outcome _ Hzero) as [_ Hnf].
  assert (Hnf' : no_failure (ns ++ [n]) = true).
  { rewrite no_failure_app, Hnf. destruct n; try discriminate; reflexivity. }
  destruct (session_frame _ _ _ _ _ Hinit Hses) as (_ & Hcl & _).
  specialize (Hcl Hnf').
  destruct (session_snoc _ _ _ _ _ _ Hses) as (w1 & Hses1 & Hstep).
  destruct (session_reach _ _ _ _ _ Hinit Hses1)
    as (h0 & s0' & _ & Hs0' & Hinv & _ & _ & _ & _ & Hconst).
  rewrite Hs0 in Hs0'. injection Hs0' as <-.
  destruct n; try discriminate.
  - destruct (FizzSuccess_result _ _ _ _ Hinv _ _ Hstep)
      as (h & t & cb' & Hh & Ht & Hcb & Htp & Hsp & _ & Htr & _ & _ & _ & _ & Hz).
    destruct (FizzSuccess_frame _ _ _ _ Hinv _ _ Hstep)
      as (h' & t' & cb'' & Hh' & Ht' & Hcb'' & Hfd & Hevb & Hthis & Hfh & _).
    rewrite Hh in Hh'. injection Hh' as <-. rewrite Ht in Ht'. injection Ht' as <-.
    rewrite Hcb in Hcb''. injection Hcb'' as <-.
    destruct (Hconst _ Hh) as (Hcb' & _). rewrite Hcb' in Hcb. injection Hcb as <-.
    exists (FizzT p). eexists. split; [reflexivity|].
    split; [completion_trace Htr Hz|].
    split; [cbn; rewrite Hfh, lookup_insert_eq; cbn; rewrite Hfd; reflexivity|].
    split; [cbn; rewrite Hfh, lookup_insert_eq; cbn; rewrite Hevb; reflexivity|].
    split; [exact Hcl|].
    unfold modern_engine, classic_engine. rewrite Hthis.
    destruct (cb_deletesHelper cb); [split; reflexivity|].
    psimpl. rewrite Hsp. split; reflexivity.
  - destruct (SslSuc_result _ _ _ _ Hinv _ _ Hstep)
      as (h & s & cb' & Hh & Ht & Hcb & Hsp & Htp & _ & Htr & _ & _ & _ & _ & Hz).
    destruct (SslSuc_frame _ _ _ _ Hinv _ _ Hstep)
      as (h' & s' & cb'' & Hh' & Ht' & Hcb'' & Hfd & Hevb & Hthis & Hsh & _).
    rewrite Hh in Hh'. injection Hh' as <-. rewrite Ht in Ht'. injection Ht' as <-.
    rewrite Hcb in Hcb''. injection Hcb'' as <-.
    destruct (Hconst _ Hh) as (Hcb' & _). rewrite Hcb' in Hcb. injection Hcb as <-.
    exists (SslT p). eexists. split; [reflexivity|].
    split; [completion_trace Htr Hz|].
    split; [cbn; rewrite Hsh, lookup_insert_eq; cbn; rewrite Hfd; reflexivity|].
    split; [cbn; rewrite Hsh, lookup_insert_eq; cbn; rewrite Hevb; reflexivity|].
    split; [exact Hcl|].
    unfold modern_engine, classic_engine. rewrite Hthis.
    destruct (cb_deletesHelper cb); [split; reflexivity|].
    psimpl. rewrite Htp. split; reflexivity.
Qed.

Lemma success_moves_transport_to_callback_witness :
  initial sock1 (sample_world None) = true /\
  sslHeap (sample_world None) !! sock1 = Some sample_socket /\
  is_success (SslSuc ssl3) = true /\
  session sock1 sample_callback (fallback_script ++ [SslSuc ssl3]) (sample_world None)
    = Some (sample_run None (fallback_script ++ [SslSuc ssl3])) /\
  transport_fd (SslT ssl3) (sample_run None (fallback_script ++ [SslSuc ssl3]))
    = Some 7%Z.
Proof.
  assert (H1 : initial sock1 (sample_world None) = true) by (vm_compute; reflexivity).
  assert (H2 : sslHeap (sample_world None) !! sock1 = Some sample_socket)
    by (vm_compute; reflexivity).
  assert (H3 : is_success (SslSuc ssl3) = true) by reflexivity.
  assert (H4 : session sock1 sample_callback (fallback_script ++ [SslSuc ssl3])
                 (sample_world None)
               = Some (sample_run None (fallback_script ++ [SslSuc ssl3])))
    by (vm_compute; reflexivity).
  repeat (split; [assumption|]).
  destruct (success_moves_transport_to_callback _ _ _ _ _ _ _ H1 H2 H3 H4)
    as (T & a & HT & _ & Hfd & _).
  injection HT as <-. exact Hfd.
Defined.

(** ** What the engines negotiated *)

Lemma FizzNegotiated_frame p a hl k w w' :
  step (FizzNegotiated p a hl k) w = Some w' ->
  exists t,
    fizzHeap w !! p = Some t /\ fz_handshakeCallback t = true /\
    this_ w' = this_ w /\ tinfo w' = tinfo w /\ trace w' = trace w /\
    fizzHeap w' = <[p:=fz_negotiated a hl t]> (fizzHeap w) /\
    extHeap w' = match fz_extensions t with
                 | Some e => match extHeap w !! e with
                             | Some x => <[e:=mkExtension (ext_context x) k]> (extHeap w)
                             | None => extHeap w
                             end
                 | None => extHeap w
                 end.
Proof.
  intros Hs. destruct (step_deliver _ _ _ Hs) as [He Hd]. cbn [enabled deliver] in *.
  destruct (fizz_awaiting_true _ _ He) as (t & Hp & Hc).
  exists t. split; [exact Hp|]. split; [exact Hc|].
  rewrite (exec_updFizz _ _ _ _ _ Hp) in Hd.
  cbv [exec negotiateKeyParam bind derefFizz storeExt modify ret] in Hd. psimpl.
  rewrite lookup_insert_eq in Hd. cbn [fz_negotiated fz_extensions] in Hd.
  destruct (fz_extensions t) as [e|]; cbv beta in Hd; psimpl;
    [destruct (extHeap w !! e) as [x|] eqn:Hx |];
    injection Hd as <-; psimpl; repeat split; reflexivity.
Qed.

Lemma ext_inv_upd_fizz ext0 w p t t' :
  ext_inv ext0 w ->
  fizzHeap w !! p = Some t ->
  fz_handshakeCallback t' = fz_handshakeCallback t ->
  fz_extensions t' = fz_extensions t ->
  forall w',
    this_ w' = this_ w -> fizzHeap w' = <[p:=t']> (fizzHeap w) ->
    ext_inv ext0 w'.
Proof.
  intros [Hh Hf] Hp Hc He w' Hth Hfh. split.
  - intros h Hh'. rewrite Hth in Hh'. exact (Hh _ Hh').
  - intros q tq Hq Hcq. rewrite Hfh in Hq.
    destruct (decide (p = q)) as [->|Hne].
    + rewrite lookup_insert_eq in Hq. injection Hq as <-.
      rewrite He. rewrite Hc in Hcq. exact (Hf _ _ Hp Hcq).
    + rewrite lookup_insert_ne in Hq by exact Hne. exact (Hf _ _ Hq Hcq).
Qed.

Lemma ext_inv_same_fizz ext0 w w' :
  ext_inv ext0 w -> this_ w' = this_ w -> fizzHeap w' = fizzHeap w ->
  ext_inv ext0 w'.
Proof.
  intros [Hh Hf] Hth Hfh. split.
  - intros h Hh'. rewrite Hth in Hh'. exact (Hh _ Hh').
  - intros q tq Hq. rewrite Hfh in Hq. exact (Hf _ _ Hq).
Qed.

Lemma ext_inv_quiescent ext0 w w' h (f : Helper -> Helper) (del : bool) :
  ext_inv ext0 w -> quiescent w' ->
  this_ w = Some h ->
  this_ w' = (if del then None else Some (f h)) ->
  extension_ (f h) = extension_ h ->
  ext_inv ext0 w'.
Proof.
  intros [Hh Hf] [Hqf _] Hth Hth' Hext. split.
  - intros h' Hh'. rewrite Hth' in Hh'. destruct del; [discriminate|].
    injection Hh' as <-. rewrite Hext. exact (Hh _ Hth).
  - intros q tq Hq Hcq. rewrite (Hqf _ _ Hq) in Hcq. discriminate.
Qed.

Lemma step_ext ctx evb fd ext0 n w w' :
  session_inv ctx evb fd w -> ext_inv ext0 w -> step n w = Some w' ->
  ext_inv ext0 w'.
Proof.
  intros Hinv Hext Hs.
  destruct (step_inv _ _ _ _ _ _ Hinv Hs) as (_ & _ & _ & Hq & Hsame & _).
  destruct n.
  - destruct (Hsame eq_refl eq_refl) as (Hth & _).
    cbv [step enabled deliver exec modify] in Hs. injection Hs as <-.
    apply (ext_inv_same_fizz _ w); [exact Hext | reflexivity | reflexivity].
  - destruct (step_deliver _ _ _ Hs) as [He Hd]. cbn [enabled deliver] in *.
    destruct (fizz_awaiting_true _ _ He) as (t & Hp & Hc).
    rewrite (exec_updFizz_only _ _ _ _ Hp) in Hd. injection Hd as <-.
    apply (ext_inv_upd_fizz _ w p t (fz_io rx tx t)); try assumption; reflexivity.
  - destruct (FizzNegotiated_frame _ _ _ _ _ _ Hs)
      as (t & Hp & Hc & Hth & _ & _ & Hfh & _).
    apply (ext_inv_upd_fizz _ w p t (fz_negotiated appProto hl t));
      try assumption; reflexivity.
  - destruct (FizzSuccess_frame _ _ _ _ Hinv _ _ Hs)
      as (h & t & cb & Hh & _ & _ & _ & _ & Hthis & _).
    apply (ext_inv_quiescent _ w w' h (fun x => set_transport_ None x)
                             (cb_deletesHelper cb));
      try assumption; [apply Hq; reflexivity | reflexivity].
  - destruct (FizzError_frame _ _ _ _ Hinv _ _ _ Hs)
      as (h & t & cb & Hh & _ & _ & _ & _ & Hthis & _).
    apply (ext_inv_quiescent _ w w' h (fun x => x) (cb_deletesHelper cb));
      try assumption; [apply Hq; reflexivity | reflexivity].
  - destruct (FizzFallback_frame _ _ _ _ Hinv _ _ _ Hs)
      as (h & t & Hh & Ht & Hthis & _ & _ & Hfh & _).
    destruct Hext as [Hh' Hf]. split.
    + intros h1 Hh1. rewrite Hthis in Hh1. injection Hh1 as <-. psimpl.
      exact (Hh' _ Hh).
    + intros q tq Hq' Hcq. rewrite Hfh in Hq'.
      apply lookup_delete_Some in Hq' as [_ Hq']. exact (Hf _ _ Hq' Hcq).
  - destruct (Hsame eq_refl eq_refl) as (Hth & _).
    destruct (step_deliver _ _ _ Hs) as [He Hd]. cbn [enabled deliver] in *.
    destruct (ssl_awaiting_true _ _ He) as (s & Hp & Hc).
    rewrite (exec_updSSL_only _ _ _ _ Hp) in Hd. injection Hd as <-.
    apply (ext_inv_same_fizz _ w); [exact Hext | reflexivity | reflexivity].
  - destruct (step_deliver _ _ _ Hs) as [He Hd]. cbn [enabled deliver] in *.
    destruct (ssl_awaiting_true _ _ He) as (s & Hp & Hc).
    rewrite (exec_updSSL_only _ _ _ _ Hp) in Hd. injection Hd as <-.
    apply (ext_inv_same_fizz _ w); [exact Hext | reflexivity | reflexivity].
  - destruct (step_deliver _ _ _ Hs) as [He Hd]. cbn [enabled deliver] in *.
    destruct (ssl_awaiting_true _ _ He) as (s & Hp & Hc).
    rewrite (exec_updSSL_only _ _ _ _ Hp) in Hd. injection Hd as <-.
    apply (ext_inv_same_fizz _ w); [exact Hext | reflexivity | reflexivity].
  - destruct (SslSuc_frame _ _ _ _ Hinv _ _ Hs)
      as (h & s & cb & Hh & _ & _ & _ & _ & Hthis & _).
    apply (ext_inv_quiescent _ w w' h (fun x => set_sslSocket_ None x)
                             (cb_deletesHelper cb));
      try assumption; [apply Hq; reflexivity | reflexivity].
  - destruct (SslErr_frame _ _ _ _ Hinv _ _ _ Hs)
      as (h & s & cb & Hh & _ & _ & _ & _ & Hthis & _).
    apply (ext_inv_quiescent _ w w' h (fun x => x) (cb_deletesHelper cb));
      try assumption; [apply Hq; reflexivity | reflexivity].
Qed.

Lemma run_ext ctx evb fd ext0 ns : forall w w',
  session_inv ctx evb fd w -> ext_inv ext0 w -> run ns w = Some w' ->
  ext_inv ext0 w'.
Proof.
  induction ns as [|n ns IH]; intros w w' Hinv Hext Hr; cbn [run] in Hr.
  - injection Hr as <-. exact Hext.
  - destruct (step n w) as [w1|] eqn:Hs; [|discriminate].
    destruct (step_inv _ _ _ _ _ _ Hinv Hs) as (Hi1 & _).
    exact (IH _ _ Hi1 (step_ext _ _ _ _ _ _ _ Hinv Hext Hs) Hr).
Qed.

Lemma session_ext sock cb ns w0 h0 w' :
  initial sock w0 = true ->
  this_ w0 = Some h0 ->
  session sock cb ns w0 = Some w' ->
  ext_inv (started_extension h0 w0) w'.
Proof.
  intros Hinit Hh0 Hses.
  destruct (initial_spec _ _ Hinit) as (h & s & Hh & Hs & Htp & Hsp & _ & [Hqf _] & _).
  rewrite Hh0 in Hh. injection Hh as <-.
  destruct (start_ok sock cb w0 Hinit)
    as (h0' & s0 & w1 & q & _ & _ & Hstart & Hinv & _).
  destruct (start_run w0 h0 sock s cb Hh0 Hs Htp)
    as (w1' & q' & Hrun & Hthis & _ & Hfh & _).
  unfold exec in Hstart. rewrite Hrun in Hstart. injection Hstart as <-.
  unfold session, exec in Hses. rewrite Hrun in Hses.
  eapply (run_ext _ _ _ _ _ _ _ Hinv); [|exact Hses].
  unfold started_extension. split.
  - intros h1 Hh1. rewrite Hthis in Hh1. injection Hh1 as <-. reflexivity.
  - intros p t Hp Hc. rewrite Hfh in Hp.
    destruct (decide (q' = p)) as [->|Hne].
    + rewrite lookup_insert_eq in Hp. injection Hp as <-. reflexivity.
    + rewrite lookup_insert_ne in Hp by exact Hne.
      rewrite (Hqf _ _ Hp) in Hc. discriminate.
Qed.

(** X8. What the modern engine negotiated last is what a modern success
    reports: [connectionReady] gets the engine's application protocol; the
    server name is the client's SNI when the engine logged one, and is left
    alone otherwise; the token-binding key parameter, truncated to 8 bits,
    is recorded exactly when a token-binding context is configured (the
    extension [start] made is the one the engine fills) and a parameter was
    negotiated, and is left alone otherwise. *)
Theorem modern_success_reports_negotiated sock cb ns p a hl k w0 h0 w' :
  initial sock w0 = true ->
  this_ w0 = Some h0 ->
  extension_ h0 = None ->
  session sock cb (ns ++ [FizzNegotiated p a hl k; FizzSuccess p]) w0 = Some w' ->
  completion_events (trace w')
    = [EvConnectionReady cb (Some (FizzT p)) a TLS NO_ERROR] /\
  sslServerName (tinfo w') =
    match hl with
    | Some l => match clientSni l with
                | Some n => Some n
                | None => sslServerName (tinfo w0)
                end
    | None => sslServerName (tinfo w0)
    end /\
  negotiatedTokenBindingKeyParameters (tinfo w') =
    match tokenBindingContext_ h0, k with
    | Some _, Some v => Some (v mod 256)%N
    | _, _ => negotiatedTokenBindingKeyParameters (tinfo w0)
    end.
Proof.
  intros Hinit Hh0 Hext0 Hses.
  replace (ns ++ [FizzNegotiated p a hl k; FizzSuccess p])
    with ((ns ++ [FizzNegotiated p a hl k]) ++ [FizzSuccess p]) in Hses
    by (rewrite <- app_assoc; reflexivity).
  pose proof (session_last_terminal _ _ _ _ _ _ Hinit Hses eq_refl) as Hzero.
  destruct (no_terminal_no_outcome _ Hzero) as [Hns _].
  destruct (session_snoc _ _ _ _ _ _ Hses) as (w2 & Hses2 & Hstep2).
  destruct (session_snoc _ _ _ _ _ _ Hses2) as (w1 & Hses1 & Hstep1).
  destruct (session_reach _ _ _ _ _ Hinit Hses1) as (ha & s0 & _ & _ & Hinv1 & _).
  destruct (session_reach _ _ _ _ _ Hinit Hses2)
    as (hb & s0' & _ & _ & Hinv2 & _ & _ & _ & _ & Hconst).
  destruct (session_frame _ _ _ _ _ Hinit Hses2) as (Hti & _).
  specialize (Hti Hns).
  destruct (session_ext _ _ _ _ _ _ Hinit Hh0 Hses1) as [Hexth Hextf].
  unfold started_extension in Hexth, Hextf. rewrite Hext0 in Hexth, Hextf.
  destruct (FizzNegotiated_frame _ _ _ _ _ _ Hstep1)
    as (t1 & Ht1 & Hc1 & Hth & _ & _ & Hfh2 & Heh2).
  destruct (FizzSuccess_result _ _ _ _ Hinv2 _ _ Hstep2)
    as (h & t2 & cb' & Hh & Ht2 & Hcb & _ & _ & _ & Htr & _ & _ & _ & _ & Hz).
  destruct (FizzSuccess_frame _ _ _ _ Hinv2 _ _ Hstep2)
    as (h' & t2' & cb'' & Hh' & Ht2' & _ & _ & _ & _ & _ & _ & Hparam & Hsni).
  rewrite Hh in Hh'. injection Hh' as <-. rewrite Ht2 in Ht2'. injection Ht2' as <-.
  destruct (Hconst _ Hh) as (Hcb' & _). rewrite Hcb' in Hcb. injection Hcb as <-.
  rewrite Hfh2, lookup_insert_eq in Ht2. injection Ht2 as <-.
  rewrite Hth in Hh.
  split; [|split].
  - cbn [fz_negotiated fz_appProto] in Htr. completion_trace Htr Hz.
  - rewrite Hsni, Hti. unfold client_sni. cbn [fz_negotiated fz_handshakeLogging].
    destruct hl as [l|]; reflexivity.
  - rewrite Hparam, Hti. unfold negotiated_param.
    rewrite (Hexth _ Hh), Heh2, (Hextf _ _ Ht1 Hc1).
    destruct (tokenBindingContext_ h0) as [c|]; [|reflexivity].
    pose proof (inv_ext _ _ _ _ Hinv1 h (nextPtr w0) Hh (Hexth _ Hh)) as [x Hx].
    rewrite Hx, lookup_insert_eq. cbn [ext_negotiatedKeyParam].
    destruct k; reflexivity.
Qed.

Lemma modern_success_reports_negotiated_witness :
  initial sock1 sample_world_tb = true /\
  this_ sample_world_tb = Some sample_helper_tb /\
  extension_ sample_helper_tb = None /\
  session sock1 sample_callback negotiated_script sample_world_tb
    = Some (sample_run_tb negotiated_script) /\
  negotiatedTokenBindingKeyParameters (tinfo (sample_run_tb negotiated_script))
    = Some 2%N.
Proof.
  assert (H1 : initial sock1 sample_world_tb = true) by (vm_compute; reflexivity).
  assert (H2 : this_ sample_world_tb = Some sample_helper_tb) by reflexivity.
  assert (H3 : extension_ sample_helper_tb = None) by reflexivity.
  assert (H4 : session sock1 sample_callback negotiated_script sample_world_tb
               = Some (sample_run_tb negotiated_script))
    by (vm_compute; reflexivity).
  repeat (split; [assumption|]).
  exact (proj2 (proj2 (modern_success_reports_negotiated
                         sock1 sample_callback [Tick 5000000] fizz3 _ _ _ _ _ _
                         H1 H2 H3 H4))).
Defined.

Lemma SslNegotiated_frame p a w w' :
  step (SslNegotiated p a) w = Some w' ->
  exists s,
    sslHeap w !! p = Some s /\
    w' = set_sslHeap (<[p:=ssl_negotiated a s]> (sslHeap w)) w.
Proof.
  intros Hs. destruct (step_deliver _ _ _ Hs) as [He Hd]. cbn [enabled deliver] in *.
  destruct (ssl_awaiting_true _ _ He) as (s & Hp & Hc).
  rewrite (exec_updSSL_only _ _ _ _ Hp) in Hd. injection Hd as <-.
  exists s. split; [exact Hp | reflexivity].
Qed.

(** X9. A classic success hands [connectionReady] the application protocol
    the classic socket negotiated last, and the verbose log line says which
    protocol the client selected, or that it selected none when the
    protocol is empty; with verbose logging off the handler adds the
    completion event and nothing else to the trace. *)
Theorem classic_success_reports_protocol sock cb ns p a w0 w' :
  initial sock w0 = true ->
  session sock cb (ns ++ [SslNegotiated p a; SslSuc p]) w0 = Some w' ->
  completion_events (trace w')
    = [EvConnectionReady cb (Some (SslT p)) a TLS NO_ERROR] /\
  exists w2,
    session sock cb (ns ++ [SslNegotiated p a]) w0 = Some w2 /\
    ((3 <=? vlogLevel w2)%nat = true ->
     In (EvVlog (if String.eqb a EmptyString
                 then VClientDidNotSelect
                 else VClientSelectedNextProtocol a))
        (trace w')) /\
    ((3 <=? vlogLevel w2)%nat = false ->
     length (trace w') = S (length (trace w2))).
Proof.
  intros Hinit Hses.
  replace (ns ++ [SslNegotiated p a; SslSuc p])
    with ((ns ++ [SslNegotiated p a]) ++ [SslSuc p]) in Hses
    by (rewrite <- app_assoc; reflexivity).
  destruct (session_snoc _ _ _ _ _ _ Hses) as (w2 & Hses2 & Hstep2).
  destruct (session_snoc _ _ _ _ _ _ Hses2) as (w1 & Hses1 & Hstep1).
  destruct (session_reach _ _ _ _ _ Hinit Hses2)
    as (hb & s0 & _ & _ & Hinv2 & _ & _ & _ & _ & Hconst).
  destruct (SslNegotiated_frame _ _ _ _ Hstep1) as (s1 & Hs1 & Hw2).
  destruct (SslSuc_result _ _ _ _ Hinv2 _ _ Hstep2)
    as (h & s2 & cb' & Hh & Hs2 & Hcb & _ & _ & _ & Htr & _ & _ & _ & _ & Hz).
  destruct (Hconst _ Hh) as (Hcb' & _). rewrite Hcb' in Hcb. injection Hcb as <-.
  assert (Hs2' : s2 = ssl_negotiated a s1).
  { rewrite Hw2 in Hs2. psimpl. rewrite lookup_insert_eq in Hs2. congruence. }
  subst s2. cbn [ssl_negotiated ssl_appProto] in Htr.
  split; [completion_trace Htr Hz|].
  exists w2. split; [exact Hses2|]. split.
  - intros Hv. rewrite Htr, Hv. apply in_or_app. right. apply in_or_app. left.
    destruct (String.eqb a EmptyString); left; reflexivity.
  - intros Hv. rewrite Htr, Hv. cbn [app]. rewrite length_app. cbn. lia.
Qed.

Lemma classic_success_reports_protocol_witness :
  initial sock1 (sample_world None) = true /\
  session sock1 sample_callback
          (fallback_script ++ [SslNegotiated ssl3 "h2"; SslSuc ssl3]) (sample_world None)
    = Some (sample_run None (fallback_script ++ [SslNegotiated ssl3 "h2"; SslSuc ssl3])) /\
  completion_events
    (trace (sample_run None (fallback_script ++ [SslNegotiated ssl3 "h2"; SslSuc ssl3])))
    = [EvConnectionReady sample_callback (Some (SslT ssl3)) "h2" TLS NO_ERROR].
Proof.
  assert (H1 : initial sock1 (sample_world None) = true) by (vm_compute; reflexivity).
  assert (H2 : session sock1 sample_callback
                 (fallback_script ++ [SslNegotiated ssl3 "h2"; SslSuc ssl3])
                 (sample_world None)
               = Some (sample_run None
                         (fallback_script ++ [SslNegotiated ssl3 "h2"; SslSuc ssl3])))
    by (vm_compute; reflexivity).
  repeat (split; [assumption|]).
  exact (proj1 (classic_success_reports_protocol _ _ _ _ _ _ _ H1 H2)).
Defined.

(** ** The setup time covers the whole session *)

Lemma session_app sock cb ns1 ns2 w0 wm w1 :
  session sock cb ns1 w0 = Some wm ->
  run ns2 wm = Some w1 ->
  session sock cb (ns1 ++ ns2) w0 = Some w1.
Proof.
  unfold session. destruct (exec (start sock cb) w0) as [ws|]; [|discriminate].
  intros H1 H2. rewrite run_app, H1. exact H2.
Qed.

(** X10. When a success arrives whose handler calls no logging callback
    that throws, the handler runs to its end and the setup time it records
    is at least the time that had elapsed since the accept instant at any
    earlier point of the session: whatever was spent before, in particular
    on a modern attempt that ended in a fallback, is counted in.  This holds
    when the accept instant is not later than the clock at that earlier
    point and the success arrives less than 2^63 ns after the accept
    instant, so that the 64-bit subtraction does not overflow. *)
Theorem setup_time_covers_earlier_attempt sock cb ns1 ns2 n w0 h0 wm w1 :
  initial sock w0 = true ->
  this_ w0 = Some h0 ->
  session sock cb ns1 w0 = Some wm ->
  run ns2 wm = Some w1 ->
  is_success n = true ->
  enabled n w1 = true ->
  observer_returns n w1 = true ->
  (acceptTime_ h0 <= clock wm)%Z ->
  (clock w1 < acceptTime_ h0 + 2 ^ 63)%Z ->
  exists w',
    step n w1 = Some w' /\
    (0 <= duration_cast_ms (clock wm - acceptTime_ h0) <= sslSetupTime (tinfo w'))%Z.
Proof.
  intros Hinit Hh0 Hsesm Hrun Hn Hen Hobs Hlo Hhi.
  pose proof (session_app _ _ _ _ _ _ _ Hsesm Hrun) as Hses1.
  destruct (session_reach _ _ _ _ _ Hinit Hsesm) as (ha & sa & _ & _ & Hinvm & _).
  destruct (run_ok _ _ _ _ _ _ Hinvm Hrun) as (_ & _ & _ & _ & _ & Hck & _).
  destruct (session_reach _ _ _ _ _ Hinit Hses1)
    as (h0' & s0 & Hh0' & _ & Hinv & _ & _ & _ & _ & Hconst).
  rewrite Hh0 in Hh0'. injection Hh0' as <-.
  destruct (step_ok _ _ _ _ Hinv n Hen Hobs) as (w' & Hstep & _).
  exists w'. split; [exact Hstep|].
  assert (Hgoal : exists h, this_ w1 = Some h /\
            sslSetupTime (tinfo w')
              = duration_cast_ms (int64 (clock w1 - acceptTime_ h))).
  { destruct n; try discriminate.
    - destruct (FizzSuccess_result _ _ _ _ Hinv _ _ Hstep)
        as (h & t & cb' & Hh & _ & _ & _ & _ & _ & _ & _ & _ & _ & Hst & _).
      eauto.
    - destruct (SslSuc_result _ _ _ _ Hinv _ _ Hstep)
        as (h & s & cb' & Hh & _ & _ & _ & _ & _ & _ & _ & _ & _ & Hst & _).
      eauto. }
  destruct Hgoal as (h & Hh & Hst).
  destruct (Hconst _ Hh) as (_ & _ & Hacc & _).
  rewrite Hst, Hacc, int64_small by (pow64; lia).
  split; [apply duration_cast_ms_nonneg; lia | apply duration_cast_ms_mono; lia].
Qed.

Lemma setup_time_covers_earlier_attempt_witness :
  initial sock1 (sample_world None) = true /\
  this_ (sample_world None) = Some (sample_helper None) /\
  session sock1 sample_callback
          [Tick 5000000; FizzIO fizz2 3 0; FizzFallback fizz2 sample_hello]
          (sample_world None)
    = Some (sample_run None
              [Tick 5000000; FizzIO fizz2 3 0; FizzFallback fizz2 sample_hello]) /\
  run [SslRead ssl3 5; Tick 7000000; SslWrite ssl3 9]
      (sample_run None
         [Tick 5000000; FizzIO fizz2 3 0; FizzFallback fizz2 sample_hello])
    = Some (sample_run None fallback_script) /\
  is_success (SslSuc ssl3) = true /\
  enabled (SslSuc ssl3) (sample_run None fallback_script) = true /\
  observer_returns (SslSuc ssl3) (sample_run None fallback_script) = true /\
  exists w',
    step (SslSuc ssl3) (sample_run None fallback_script) = Some w' /\
    (5 <= sslSetupTime (tinfo w'))%Z.
Proof.
  assert (H1 : initial sock1 (sample_world None) = true) by (vm_compute; reflexivity).
  assert (H2 : this_ (sample_world None) = Some (sample_helper None)) by reflexivity.
  assert (H3 : session sock1 sample_callback
                 [Tick 5000000; FizzIO fizz2 3 0; FizzFallback fizz2 sample_hello]
                 (sample_world None)
               = Some (sample_run None
                         [Tick 5000000; FizzIO fizz2 3 0;
                          FizzFallback fizz2 sample_hello]))
    by (vm_compute; reflexivity).
  assert (H4 : run [SslRead ssl3 5; Tick 7000000; SslWrite ssl3 9]
                 (sample_run None
                    [Tick 5000000; FizzIO fizz2 3 0; FizzFallback fizz2 sample_hello])
               = Some (sample_run None fallback_script))
    by (vm_compute; reflexivity).
  assert (H5 : is_success (SslSuc ssl3) = true) by reflexivity.
  assert (H6 : enabled (SslSuc ssl3) (sample_run None fallback_script) = true)
    by (vm_compute; reflexivity).
  assert (H7 : observer_returns (SslSuc ssl3) (sample_run None fallback_script) = true)
    by reflexivity.
  assert (H8 : (acceptTime_ (sample_helper None)
                <= clock (sample_run None
                            [Tick 5000000; FizzIO fizz2 3 0;
                             FizzFallback fizz2 sample_hello]))%Z)
    by (vm_compute; discriminate).
  assert (H9 : (clock (sample_run None fallback_script)
                < acceptTime_ (sample_helper None) + 2 ^ 63)%Z)
    by (vm_compute; reflexivity).
  repeat (split; [assumption|]).
  destruct (setup_time_covers_earlier_attempt _ _ _ _ _ _ _ _ _ H1 H2 H3 H4 H5 H6 H7 H8 H9)
    as (w' & Hs & _ & Hle).
  exists w'. split; [exact Hs|].
  assert (H10 : duration_cast_ms
                  (clock (sample_run None
                            [Tick 5000000; FizzIO fizz2 3 0;
                             FizzFallback fizz2 sample_hello])
                   - acceptTime_ (sample_helper None)) = 5%Z)
    by (vm_compute; reflexivity).
  rewrite H10 in Hle. exact Hle.
Defined.
